(** * blob-ai-search-pipelines: the client-side ingestion pipeline

    A shallow embedding of [LangchainBlobAISearch]
    (src/langchain_blob_ai_search.py): the SQLite ledger of processed
    files, the scratch directories, the document builder and the
    orchestrator [trigger_pipeline], followed by the properties the
    specification states about them.

    Python methods become functions in a state-and-exception monad over
    a [world] holding everything the methods touch: the ledger database,
    the blob container, the two scratch directories, the remote index
    and the log.  An exception keeps the effects that happened before it
    was raised, as in Python.

    What the model takes for granted: the ledger file, the scratch
    folders and the container are touched by this program only (one
    run at a time); the folders [temp/blob] and [temp/txt] exist and
    can be written; text files are written and read with one encoding
    and the line separator of the platform is the line feed; listing
    the container succeeds and downloading a listed blob fails only
    when the container has no blob of that name.  The libraries the
    class calls (document loader, text splitter, identifier generator,
    search and storage clients) are parameters of the world, not code
    of the repository.

    The ledger methods are given twice: first for a process that may
    write in the folder [database], then, in [FileAccess], with the
    permission as a parameter, for a folder that may also be
    read-only. *)

From Stdlib Require Import String Ascii List ZArith NArith Bool Lia DecimalString.
Import ListNotations.
Local Open Scope string_scope.

(** ** Strings *)

(** [s.split(sep)] for a one-character separator: never empty. *)
Fixpoint split_char (sep : ascii) (s : string) : list string :=
  match s with
  | EmptyString => [EmptyString]
  | String c s' =>
      if Ascii.eqb c sep then EmptyString :: split_char sep s'
      else match split_char sep s' with
           | [] => [String c EmptyString]
           | h :: t => String c h :: t
           end
  end.

(** [blob.name.split('/')[-1]] *)
Definition last_segment (name : string) : string :=
  last (split_char "/" name) EmptyString.

(** ** Exceptions and log records *)

Inductive exn : Type :=
| OperationalError (msg : string)     (* sqlite3.OperationalError *)
| UnboundLocalError (var : string)
| KeyError (key : string)
| AttributeError (attr : string)
| ValueError (msg : string)
| IndexError (msg : string)
| IsADirectoryError (path : string)
| FileNotFoundError (path : string)
| ResourceNotFoundError (blob : string) (* azure.core.exceptions *)
| HttpResponseError (msg : string)      (* azure.core.exceptions *)
| LoaderError (path : string).          (* raised inside the document loader *)

(** [str(e)], as the f-strings of the log messages render it. *)
Definition exn_str (e : exn) : string :=
  match e with
  | OperationalError m => m
  | UnboundLocalError v =>
      "cannot access local variable '" ++ v ++ "' where it is not associated with a value"
  | KeyError k => "'" ++ k ++ "'"
  | AttributeError a => "'LangchainBlobAISearch' object has no attribute '" ++ a ++ "'"
  | ValueError m => m
  | IndexError m => m
  | IsADirectoryError p => "[Errno 21] Is a directory: '" ++ p ++ "'"
  | FileNotFoundError p => "[Errno 2] No such file or directory: '" ++ p ++ "'"
  | ResourceNotFoundError b => "The specified blob does not exist: " ++ b
  | HttpResponseError m => m
  | LoaderError p => "cannot load " ++ p
  end.

Inductive level : Type := INFO | WARNING | ERROR.

Definition log_record : Type := level * string.

(** ** The ledger database

    [database/file_check_in.db] holds one table,
    [checked_files (id INTEGER PRIMARY KEY, file_name TEXT)].  Rows are
    kept in insertion order; nothing constrains [file_name]. *)

Definition row : Type := Z * string.

Inductive database : Type :=
| Unopenable                 (* the path exists and sqlite3.connect raises *)
| Absent                     (* no file yet: sqlite3.connect creates it *)
| Empty                      (* a database file without the table *)
| Table (rows : list row).   (* the table checked_files and its rows *)

Definition rows_of (d : database) : list row :=
  match d with
  | Table rows => rows
  | _ => []
  end.

(** The rowid SQLite assigns to a row inserted without an id: one more
    than the largest in the table, 1 in an empty table. *)
Definition next_rowid (rows : list row) : Z :=
  match rows with
  | [] => 1
  | (i, _) :: rest => fold_left Z.max (map fst rest) i + 1
  end%Z.

(** [SELECT * FROM checked_files WHERE file_name == ?] *)
Definition select_by_name (file_name : string) (rows : list row) : list row :=
  filter (fun r => String.eqb (snd r) file_name) rows.

(** ** Scratch directories

    [temp/blob] and [temp/txt]: the entries in the order [os.listdir]
    returns them.  A new file is listed after the entries already
    there; rewriting a file keeps its place. *)

Inductive node : Type :=
| File (content : string)
| Dir.

Definition directory : Type := list (string * node).

(** The list comprehension of [__get_file_name]: the regular files,
    in listing order, with their contents. *)
Fixpoint regular_files (d : directory) : list (string * string) :=
  match d with
  | [] => []
  | (n, File c) :: rest => (n, c) :: regular_files rest
  | (n, Dir) :: rest => regular_files rest
  end.

Fixpoint lookup_node (name : string) (d : directory) : option node :=
  match d with
  | [] => None
  | (n, x) :: rest => if String.eqb n name then Some x else lookup_node name rest
  end.

Fixpoint set_file (name content : string) (d : directory) : directory :=
  match d with
  | [] => [(name, File content)]
  | (n, x) :: rest =>
      if String.eqb n name then (n, File content) :: rest
      else (n, x) :: set_file name content rest
  end.

Fixpoint remove_entry (name : string) (d : directory) : directory :=
  match d with
  | [] => []
  | (n, x) :: rest =>
      if String.eqb n name then rest else (n, x) :: remove_entry name rest
  end.

(** [open(dir/name, 'w')] fails on the directory itself ([name] empty,
    [.] or [..]) and on an entry that is a directory. *)
Definition names_directory (name : string) (d : directory) : bool :=
  String.eqb name "" || String.eqb name "." || String.eqb name ".."
  || match lookup_node name d with
     | Some Dir => true
     | _ => false
     end.

(** ** Documents and the remote index *)

Record document : Type := mkDocument {
  id : string;
  content : string;
  metadata_storage_path : string
}.

(** The index keeps one document per key: the upload action replaces a
    document whose [id] is already there. *)
Fixpoint upsert (d : document) (idx : list document) : list document :=
  match idx with
  | [] => [d]
  | x :: rest =>
      if String.eqb (id x) (id d) then d :: rest else x :: upsert d rest
  end.

Definition merge_batch (docs idx : list document) : list document :=
  fold_left (fun acc d => upsert d acc) docs idx.

Record blob : Type := mkBlob {
  name : string;
  data : string
}.

(** ** Identifiers

    A [uuid.UUID] is its 128-bit integer.  [str] prints it as 32
    lower-case hexadecimal digits grouped 8-4-4-4-12. *)

Definition hex_digit (n : N) : ascii :=
  match n with
  | 0 => "0" | 1 => "1" | 2 => "2" | 3 => "3" | 4 => "4" | 5 => "5"
  | 6 => "6" | 7 => "7" | 8 => "8" | 9 => "9" | 10 => "a" | 11 => "b"
  | 12 => "c" | 13 => "d" | 14 => "e" | _ => "f"
  end%N%char.

(** ['%0<k>x' % v] for [v] below [16^k]: the [k] low digits, the most
    significant first. *)
Fixpoint hex (k : nat) (v : N) : string :=
  match k with
  | O => EmptyString
  | S k' => hex k' (v / 16) ++ String (hex_digit (v mod 16)) EmptyString
  end%N.

Definition uuid_str (u : N) : string :=
  let h := hex 32 u in
  substring 0 8 h ++ "-" ++ substring 8 4 h ++ "-" ++ substring 12 4 h
    ++ "-" ++ substring 16 4 h ++ "-" ++ substring 20 12 h.

(** The first field of a UUID, [time_low]: its 32 high bits. *)
Definition time_low (u : N) : N := ((u / 2 ^ 96) mod 2 ^ 32)%N.

(** [str(unique_id).split('-')[0]] *)
Definition short_id (u : N) : string :=
  hd EmptyString (split_char "-" (uuid_str u)).

(** ** Collaborators outside the repository

    What the class calls and does not define: the document loader, the
    text splitter, the identifier generator, the outcome of the upload
    requests and the parsing of the storage connection string. *)

Record collaborators : Type := mkCollaborators {
  (* UnstructuredFileLoader(path).load(): the page_content of each
     document loaded from the file's bytes, [None] when it raises *)
  loader_load : string -> string -> option (list string);
  (* RecursiveCharacterTextSplitter(separators, chunk_size,
     chunk_overlap).split_text(text) *)
  split_text : list string -> nat -> nat -> string -> list string;
  (* uuid.uuid1(): the identifier returned by the n-th call *)
  uuid1 : nat -> N;
  (* whether the n-th call of SearchClient.upload_documents raises *)
  upload_raises : nat -> bool;
  (* whether BlobServiceClient.from_connection_string accepts the string *)
  connection_string_ok : string -> bool
}.

(** ** The world *)

Record world : Type := mkWorld {
  ext : collaborators;
  db : database;                          (* database/file_check_in.db *)
  container : list blob;                  (* the blob container *)
  blob_dir : directory;                   (* temp/blob *)
  txt_dir : directory;                    (* temp/txt *)
  index : list document;                  (* the search index *)
  uploads : list (list document * bool);  (* upload calls: batch, accepted *)
  downloads : list string;                (* blobs downloaded *)
  uuid_calls : nat;                       (* identifiers generated so far *)
  log : list log_record
}.

Definition set_db (d : database) (w : world) : world :=
  mkWorld (ext w) d (container w) (blob_dir w) (txt_dir w) (index w)
          (uploads w) (downloads w) (uuid_calls w) (log w).

Definition set_blob_dir (d : directory) (w : world) : world :=
  mkWorld (ext w) (db w) (container w) d (txt_dir w) (index w)
          (uploads w) (downloads w) (uuid_calls w) (log w).

Definition set_txt_dir (d : directory) (w : world) : world :=
  mkWorld (ext w) (db w) (container w) (blob_dir w) d (index w)
          (uploads w) (downloads w) (uuid_calls w) (log w).

Definition set_index (i : list document) (w : world) : world :=
  mkWorld (ext w) (db w) (container w) (blob_dir w) (txt_dir w) i
          (uploads w) (downloads w) (uuid_calls w) (log w).

Definition add_upload (u : list document * bool) (w : world) : world :=
  mkWorld (ext w) (db w) (container w) (blob_dir w) (txt_dir w) (index w)
          (uploads w ++ [u]) (downloads w) (uuid_calls w) (log w).

Definition add_download (b : string) (w : world) : world :=
  mkWorld (ext w) (db w) (container w) (blob_dir w) (txt_dir w) (index w)
          (uploads w) (downloads w ++ [b]) (uuid_calls w) (log w).

Definition tick_uuid (w : world) : world :=
  mkWorld (ext w) (db w) (container w) (blob_dir w) (txt_dir w) (index w)
          (uploads w) (downloads w) (S (uuid_calls w)) (log w).

Definition add_log (r : log_record) (w : world) : world :=
  mkWorld (ext w) (db w) (container w) (blob_dir w) (txt_dir w) (index w)
          (uploads w) (downloads w) (uuid_calls w) (log w ++ [r]).

(** ** The monad: state with exceptions that keep the state *)

Inductive outcome (A : Type) : Type :=
| Return (a : A)
| Raise (e : exn).
Arguments Return {A} a.
Arguments Raise {A} e.

Definition M (A : Type) : Type := world -> outcome A * world.

Definition ret {A : Type} (a : A) : M A := fun w => (Return a, w).

Definition raise {A : Type} (e : exn) : M A := fun w => (Raise e, w).

Definition bind {A B : Type} (m : M A) (k : A -> M B) : M B :=
  fun w =>
    match m w with
    | (Return a, w') => k a w'
    | (Raise e, w') => (Raise e, w')
    end.

(** [try: body  except Exception as e: handler e] *)
Definition try_except {A : Type} (body : M A) (handler : exn -> M A) : M A :=
  fun w =>
    match body w with
    | (Return a, w') => (Return a, w')
    | (Raise e, w') => handler e w'
    end.

Declare Scope py_scope.
Delimit Scope py_scope with py.
Notation "x <- m ;; k" := (bind m (fun x => k))
  (at level 61, m at next level, right associativity) : py_scope.
Notation "m ;; k" := (bind m (fun _ => k))
  (at level 61, right associativity) : py_scope.
Local Open Scope py_scope.

Definition modify (f : world -> world) : M unit := fun w => (Return tt, f w).

Definition gets {A : Type} (f : world -> A) : M A := fun w => (Return (f w), w).

Definition logger_info (msg : string) : M unit := modify (add_log (INFO, msg)).
Definition logger_warn (msg : string) : M unit := modify (add_log (WARNING, msg)).
Definition logger_error (msg : string) : M unit := modify (add_log (ERROR, msg)).

(** ** SQLite

    In this part the folder [database] and the file in it can be
    written: a row can always be inserted into an existing table, and
    a missing file is created by [connect].  [FileAccess] below lifts
    that. *)

(** [sqlite3.connect("database/file_check_in.db")] *)
Definition sqlite3_connect : M unit :=
  fun w =>
    match db w with
    | Unopenable => (Raise (OperationalError "unable to open database file"), w)
    | Absent => (Return tt, set_db Empty w)
    | Empty | Table _ => (Return tt, w)
    end.

Definition no_such_table : exn := OperationalError "no such table: checked_files".

(** [cursor.execute("INSERT INTO checked_files (file_name) VALUES (?)",
    (file_name,))] followed by [conn.commit()] *)
Definition sql_insert (file_name : string) : M unit :=
  fun w =>
    match db w with
    | Table rows =>
        (Return tt, set_db (Table (rows ++ [(next_rowid rows, file_name)])) w)
    | _ => (Raise no_such_table, w)
    end.

(** [cursor.execute("SELECT * FROM checked_files WHERE file_name == (?)",
    (file_name,)).fetchall()] *)
Definition sql_select (file_name : string) : M (list row) :=
  fun w =>
    match db w with
    | Table rows => (Return (select_by_name file_name rows), w)
    | _ => (Raise no_such_table, w)
    end.

(** The shape shared by the two ledger methods:

      try:
          conn = sqlite3.connect(...)
          body
      except Exception as e:
          handler e
      finally:
          conn.close()

    When [connect] itself raises, [conn] was never bound: the handler
    runs, and then [conn.close()] raises UnboundLocalError, which is
    what leaves the method. *)
Definition with_connection {A : Type} (body : M A) (handler : exn -> M A) : M A :=
  fun w =>
    match sqlite3_connect w with
    | (Raise e, w1) =>
        (Raise (UnboundLocalError "conn"), snd (handler e w1))
    | (Return _, w1) => try_except body handler w1
    end.

(** ** The ledger *)

Definition __create_sqlite_database : M unit :=
  logger_info "Checking for the availablity of the database at database/file_check_in.db" ;;
  d <- gets db ;;
  match d with
  | Absent =>
      (* conn = sqlite3.connect(db_path); CREATE TABLE IF NOT EXISTS *)
      logger_info "Creating a persistent table" ;;
      modify (set_db (Table [])) ;;
      logger_info "Database created at: database/file_check_in.db, along with table." ;;
      logger_info "Closing the connection with the database."
  | _ =>
      logger_warn "Database 'database/file_check_in.db' already exists. Exiting the function."
  end.

Definition __insert_new_file_into_db (file_name : string) : M unit :=
  with_connection
    (sql_insert file_name)
    (fun e => logger_error ("Failed to insert the file: " ++ exn_str e)).

(** The result is [Some False], [Some True], or [None] when the
    handler ran and the method fell off its end. *)
Definition __check_availablity (file_name : string) : M (option bool) :=
  with_connection
    (results <- sql_select file_name ;;
     if (0 <? length results)%nat then ret (Some false) else ret (Some true))
    (fun e =>
       logger_error ("Failed to check availablity: " ++ exn_str e) ;;
       ret None).

(** Python truth of the result: [None] and [False] are falsy. *)
Definition truthy (r : option bool) : bool :=
  match r with
  | Some true => true
  | _ => false
  end.

(** ** Files

    A path is [os.path.join('temp/' + type, file)], kept as the pair of
    the scratch folder's type and the file's name. *)

Definition path : Type := string * string.

Definition path_str (p : path) : string := "temp/" ++ fst p ++ "/" ++ snd p.

(** [os.listdir('temp/' + type)] *)
Definition os_listdir (type : string) : M directory :=
  fun w =>
    if String.eqb type "blob" then (Return (blob_dir w), w)
    else if String.eqb type "txt" then (Return (txt_dir w), w)
    else (Raise (FileNotFoundError ("temp/" ++ type)), w).

Definition set_scratch (type : string) (d : directory) : M unit :=
  modify (if String.eqb type "blob" then set_blob_dir d else set_txt_dir d).

(** The bytes of the file at [p], as a library that opens the file
    itself gets them. *)
Definition read_bytes (p : path) : M string :=
  d <- os_listdir (fst p) ;;
  match lookup_node (snd p) d with
  | Some (File c) => ret c
  | Some Dir => raise (IsADirectoryError (path_str p))
  | None => raise (FileNotFoundError (path_str p))
  end.

(** Reading in text mode turns every line ending into a line feed:
    a carriage return followed by a line feed, and a carriage return
    alone. *)
Fixpoint universal_newlines (s : string) : string :=
  match s with
  | EmptyString => EmptyString
  | String c rest =>
      if Ascii.eqb c "013" then
        match rest with
        | String c' rest' =>
            if Ascii.eqb c' "010" then String "010" (universal_newlines rest')
            else String "010" (universal_newlines rest)
        | EmptyString => String "010" EmptyString
        end
      else String c (universal_newlines rest)
  end.

(** [with open(p, 'r') as f: f.read()] *)
Definition open_read (p : path) : M string :=
  d <- os_listdir (fst p) ;;
  match lookup_node (snd p) d with
  | Some (File c) => ret (universal_newlines c)
  | Some Dir => raise (IsADirectoryError (path_str p))
  | None => raise (FileNotFoundError (path_str p))
  end.

(** [with open(p, 'w') as f: f.write(text)] *)
Definition open_write (p : path) (text : string) : M unit :=
  d <- os_listdir (fst p) ;;
  if names_directory (snd p) d then raise (IsADirectoryError (path_str p))
  else set_scratch (fst p) (set_file (snd p) text d).

(** [os.remove(p)] *)
Definition os_remove (p : path) : M unit :=
  d <- os_listdir (fst p) ;;
  match lookup_node (snd p) d with
  | Some (File _) => set_scratch (fst p) (remove_entry (snd p) d)
  | Some Dir => raise (IsADirectoryError (path_str p))
  | None => raise (FileNotFoundError (path_str p))
  end.

(** ** The steps of the pipeline *)

Definition __get_blobs_list : M (list blob) := gets container.

(** [container_client.get_blob_client(name).download_blob().readall()] *)
Definition download_blob (blob_name : string) : M string :=
  fun w =>
    match find (fun b => String.eqb (name b) blob_name) (container w) with
    | Some b => (Return (data b), add_download blob_name w)
    | None => (Raise (ResourceNotFoundError blob_name), w)
    end.

Definition __get_file_name (type : string) : M path :=
  files <- os_listdir type ;;
  match regular_files files with
  | [] => raise (IndexError "list index out of range")
  | (file, _) :: _ => ret (type, file)
  end.

(** [UnstructuredFileLoader(p).load()] reads the file at [p]. *)
Definition loader_run (p : path) : M (list string) :=
  bytes <- read_bytes p ;;
  load <- gets (fun w => loader_load (ext w)) ;;
  match load (path_str p) bytes with
  | Some docs => ret docs
  | None => raise (LoaderError (path_str p))
  end.

Definition __pdf_to_text : M unit :=
  logger_info "Starting the text extractor" ;;
  p <- __get_file_name "blob" ;;
  p' <- __get_file_name "blob" ;;
  logger_info ("Extracting from file " ++ path_str p') ;;
  docs <- loader_run p ;;
  (* open('temp/txt/temp.txt', 'w') creates or empties the file before
     docs[0] is evaluated *)
  open_write ("txt", "temp.txt") "" ;;
  match docs with
  | [] => raise (IndexError "list index out of range")
  | page_content :: _ =>
      open_write ("txt", "temp.txt") page_content ;;
      p'' <- __get_file_name "blob" ;;
      logger_info ("Extraction Completed for file " ++ path_str p'')
  end.

Definition __chunk_text (chunk_size overlap : nat) : M (list string) :=
  p <- __get_file_name "txt" ;;
  full_text <- open_read p ;;
  logger_info "Starting the chunker" ;;
  split <- gets (fun w => split_text (ext w)) ;;
  let chunks :=
    split [String "010" EmptyString; " "; "."] chunk_size overlap full_text in
  p' <- __get_file_name "txt" ;;
  logger_info ("Chunked Successfully for file " ++ path_str p') ;;
  ret chunks.

Definition uuid_uuid1 : M N :=
  fun w => (Return (uuid1 (ext w) (uuid_calls w)), tick_uuid w).

(** The [for] loop of [__document_generator], [documents] being the
    list built so far. *)
Fixpoint generate (chunks : list string) (file_name : string)
    (documents : list document) : M (list document) :=
  match chunks with
  | [] => ret documents
  | chunk :: rest =>
      unique_id <- uuid_uuid1 ;;
      let documents :=
        (documents ++ [mkDocument (short_id unique_id) chunk file_name])%list in
      logger_info "Generation of documents successfully completed." ;;
      generate rest file_name documents
  end.

Definition __document_generator (chunks : list string) (file_name : string)
    : M (list document) :=
  try_except
    (logger_info "Generating documents for the chunks" ;;
     generate chunks file_name [])
    (fun e =>
       logger_error ("Failed generation of documents: " ++ exn_str e) ;;
       ret []).

(** [self.search_client.upload_documents(documents)] *)
Definition search_client_upload (documents : list document) : M unit :=
  fun w =>
    if upload_raises (ext w) (length (uploads w))
    then (Raise (HttpResponseError "upload_documents failed"),
          add_upload (documents, false) w)
    else (Return tt,
          add_upload (documents, true)
                     (set_index (merge_batch documents (index w)) w)).

Definition __upload_documents (documents : list document) : M unit :=
  try_except
    (search_client_upload documents)
    (fun e => logger_error ("Failed uploading of documents: " ++ exn_str e)).

(** ** The orchestrator *)

(** The body of the [for blob in blobs] loop of [trigger_pipeline]. *)
Definition process_blob (b : blob) : M unit :=
  new <- __check_availablity (name b) ;;
  if truthy new then
    logger_info ("Intializing process for " ++ name b) ;;
    blob_content <- download_blob (name b) ;;
    open_write ("blob", last_segment (name b)) blob_content ;;
    __pdf_to_text ;;
    chunks <- __chunk_text 2048 256 ;;
    docs <- __document_generator chunks (name b) ;;
    logger_info "Uploading documents to the AI search" ;;
    __upload_documents docs ;;
    __insert_new_file_into_db (name b) ;;
    os_remove ("blob", last_segment (name b))
  else
    logger_warn (name b ++ " has already been processed").

Fixpoint for_each {A : Type} (body : A -> M unit) (items : list A) : M unit :=
  match items with
  | [] => ret tt
  | x :: rest => body x ;; for_each body rest
  end.

Definition trigger_pipeline : M unit :=
  logger_info "Pipeline Triggered" ;;
  blobs <- __get_blobs_list ;;
  for_each process_blob blobs.

(** ** The constructor *)

(** The Python values [index_name] may be bound to. *)
Inductive pyval : Type :=
| PyStr (s : string)
| PyInt (z : Z)
| PyBool (b : bool)
| PyBytes (s : string)
| PyNone
| PyObject (repr : string).   (* an instance of any other class *)

(** [isinstance(v, (str, int))]: [bool] is a subclass of [int]. *)
Definition isinstance_str_int (v : pyval) : bool :=
  match v with
  | PyStr _ | PyInt _ | PyBool _ => true
  | _ => false
  end.

(** [v != ''] *)
Definition ne_empty_str (v : pyval) : bool :=
  match v with
  | PyStr s => negb (String.eqb s "")
  | _ => true
  end.

(** [str(v)], for the values that pass the test above.  An [int] of
    more than 4300 digits is refused by [str]. *)
Definition py_str (v : pyval) : M string :=
  match v with
  | PyStr s => ret s
  | PyInt z =>
      if (10 ^ 4300 <=? Z.abs z)%Z
      then raise (ValueError "Exceeds the limit (4300 digits) for integer string conversion")
      else ret (NilZero.string_of_int (Z.to_int z))
  | PyBool true => ret "True"
  | PyBool false => ret "False"
  | PyBytes s => ret ("b'" ++ s ++ "'")
  | PyNone => ret "None"
  | PyObject repr => ret repr
  end.

(** What the constructor reads of the process it runs in: the
    environment after [load_dotenv()], and whether the [logs] folder
    of the log file exists. *)
Record process : Type := mkProcess {
  environ : list (string * string);
  logs_dir_exists : bool;
  (* whether the root logger already has a handler when the call is
     made: then [logging.basicConfig] does nothing *)
  root_has_handlers : bool
}.

(** The attributes of the instance; [None] is an attribute not yet
    assigned. *)
Record instance : Type := mkInstance {
  connection_string : option string;
  container_name : option string;
  container_client : option string;
  index_name : option string;
  search_client : option (string * string);   (* endpoint, index name *)
  search_index_client : option string         (* endpoint *)
}.

Definition getenv (p : process) (key : string) : option string :=
  match find (fun kv => String.eqb (fst kv) key) (environ p) with
  | Some kv => Some (snd kv)
  | None => None
  end.

(** [os.environ[key]] *)
Definition os_environ (p : process) (key : string) : M string :=
  match getenv p key with
  | Some value => ret value
  | None => raise (KeyError key)
  end.

(** [logging.basicConfig(..., filename='<cwd>/logs/' + file)]: nothing
    happens when the root logger has a handler; otherwise the log file
    is opened, which needs its folder. *)
Definition logging_basicConfig_to (file : string) (p : process) : M unit :=
  if root_has_handlers p then ret tt
  else if logs_dir_exists p then ret tt
  else raise (FileNotFoundError ("logs/" ++ file)).

Definition logging_basicConfig (p : process) : M unit :=
  logging_basicConfig_to "langchain_chunker_blob_app.log" p.

(** [BlobServiceClient.from_connection_string(conn_str)] *)
Definition from_connection_string (conn_str : string) : M unit :=
  ok <- gets (fun w => connection_string_ok (ext w) conn_str) ;;
  if ok then ret tt
  else raise (ValueError "Connection string is either blank or malformed.").

(** Lines 39-43 of [__init__]: the test of [index_name]. *)
Definition check_index_name (v : pyval) (self : instance) : M instance :=
  if isinstance_str_int v && ne_empty_str v then
    s <- py_str v ;;
    ret (mkInstance (connection_string self) (container_name self)
                    (container_client self) (Some s)
                    (search_client self) (search_index_client self))
  else
    logger_error "Index name must be an str or int" ;;
    (* ValueError('Index name must be an str or int') is built and dropped *)
    ret self.

(** Reading [self.index_name] *)
Definition get_index_name (self : instance) : M string :=
  match index_name self with
  | Some s => ret s
  | None => raise (AttributeError "index_name")
  end.

Definition __init__ (p : process) (v : pyval) : M instance :=
  logging_basicConfig p ;;
  __create_sqlite_database ;;
  conn_str <- os_environ p "AZURE_STORAGE_CONNECTION_STRING" ;;
  cont <- os_environ p "AZURE_CONTAINER_NAME" ;;
  service_name <- os_environ p "AZURE_COGNITIVE_SEARCH_SERVICE_NAME" ;;
  admin_key <- os_environ p "AZURE_COGNITIVE_SEARCH_KEY" ;;
  logger_info "Creating a Blob Service Client with the provided connection string." ;;
  from_connection_string conn_str ;;
  logger_info "Created Blob Service Client" ;;
  self <- check_index_name v
            (mkInstance (Some conn_str) (Some cont) (Some cont) None None None) ;;
  let endpoint := "https://" ++ service_name ++ ".search.windows.net" in
  logger_info "Creating a Search Client with the provided connection string." ;;
  idx <- get_index_name self ;;
  logger_info "Creating a Search Client." ;;
  logger_info "Initialization successfully Completed" ;;
  ret (mkInstance (connection_string self) (container_name self)
                  (container_client self) (index_name self)
                  (Some (endpoint, idx)) (Some endpoint)).

(** ** Creating the index *)

(** [type(e).__name__] *)
Definition exn_name (e : exn) : string :=
  match e with
  | OperationalError _ => "OperationalError"
  | UnboundLocalError _ => "UnboundLocalError"
  | KeyError _ => "KeyError"
  | AttributeError _ => "AttributeError"
  | ValueError _ => "ValueError"
  | IndexError _ => "IndexError"
  | IsADirectoryError _ => "IsADirectoryError"
  | FileNotFoundError _ => "FileNotFoundError"
  | ResourceNotFoundError _ => "ResourceNotFoundError"
  | HttpResponseError _ => "HttpResponseError"
  | LoaderError _ => "LoaderError"
  end.

(** Reading [self.search_index_client] *)
Definition get_search_index_client (self : instance) : M string :=
  match search_index_client self with
  | Some endpoint => ret endpoint
  | None => raise (AttributeError "search_index_client")
  end.

(** [self.search_index_client.create_index(index)]: [answer] is what
    the search service does with a request to create the index of this
    name, [None] when it creates it and the exception it raises
    otherwise. *)
Definition service_create_index (answer : string -> option exn)
    (index_name : string) : M unit :=
  match answer index_name with
  | None => ret tt
  | Some e => raise e
  end.

(** [LangchainBlobAISearch.create_index] *)
Definition create_index (answer : string -> option exn) (self : instance)
    : M unit :=
  logger_info "Trying to create an index..." ;;
  try_except
    (idx <- get_index_name self ;;
     get_search_index_client self ;;
     service_create_index answer idx ;;
     idx' <- get_index_name self ;;
     logger_info ("Index Created successfully by name " ++ idx' ++ "."))
    (fun e =>
       idx <- get_index_name self ;;
       logger_error
         ("The index by name " ++ idx
          ++ " might be present. Stopping the creation of index with error "
          ++ exn_name e ++ ".")).

(** ** The indexer pipeline

    [AzureBlobAISearchPipeline] and the function [trigger_pipeline] of
    src/azure_blob_ai_search_pipeline.py.  The class keeps no state of
    its own besides its attributes; what it does is seen in the log and
    in what it returns.  The search service is a parameter: for each
    request, the text of the object it returns or the exception it
    raises. *)

Module AzureBlobAISearchPipeline.

Record search_service : Type := mkSearchService {
  (* SearchIndexClient / SearchIndexerClient / SearchClient (endpoint,
     credential): whether the constructor accepts the endpoint *)
  endpoint_ok : string -> bool;
  (* create_index(index), by the index's name *)
  answer_create_index : string -> exn + string;
  (* create_data_source_connection(data_source), by its name *)
  answer_create_data_source : string -> exn + string;
  (* create_indexer(indexer), by its name *)
  answer_create_indexer : string -> exn + string;
  (* run_indexer(name) *)
  answer_run_indexer : string -> option exn;
  (* SearchClient(endpoint, index_name, credential).search(query_text) *)
  answer_search : string -> string -> exn + list document
}.

(** The attributes the methods read; [None] is an attribute that was
    never assigned. *)
Record instance : Type := mkInstance {
  search_service_url : string;
  admin_key : string;
  container_name : string;
  container_datasource_url : string;
  index_name : option string;
  data_source_name : option string;
  indexer_name : option string
}.

Definition getattr (attr : string) (value : option string) : M string :=
  match value with
  | Some s => ret s
  | None => raise (AttributeError attr)
  end.

(** A client constructor called with the service's endpoint. *)
Definition new_client (svc : search_service) (endpoint : string) : M unit :=
  if endpoint_ok svc endpoint then ret tt
  else raise (ValueError "Bearer token authentication is not permitted for non-TLS protected (non-https) URLs.").

(** A request to the service: its answer, or the exception. *)
Definition request {A : Type} (answer : exn + A) : M A :=
  match answer with
  | inr a => ret a
  | inl e => raise e
  end.

(** One of the three tests of [__init__]:

      if isinstance(tested, (str, int)) and tested != '':
          self.attr = str(value)
      else:
          self.logger.error(message)
          ValueError(message)

    The result is the attribute, [None] when it stays unassigned. *)
Definition checked_name (tested value : pyval) (message : string)
    : M (option string) :=
  if isinstance_str_int tested && ne_empty_str tested then
    s <- py_str value ;; ret (Some s)
  else
    logger_error message ;; ret None.

Definition __init__ (p : process) (svc : search_service)
    (index_name data_source_name indexer_name : pyval) : M instance :=
  _ <- os_environ p "AZURE_COGNITIVE_SEARCH_SERVICE_NAME" ;;
  url <- os_environ p "AZURE_COGNITIVE_SEARCH_URL" ;;
  key <- os_environ p "AZURE_COGNITIVE_SEARCH_KEY" ;;
  _ <- os_environ p "AZURE_STORAGE_ACCOUNT_NAME" ;;
  _ <- os_environ p "AZURE_STORAGE_BLOB_URL" ;;
  cont <- os_environ p "AZURE_CONTAINER_NAME" ;;
  datasource_url <- os_environ p "AZURE_DATASOURCE_BLOB_STORAGE_URL" ;;
  idx <- checked_name index_name index_name
           "Index name must be an str or int" ;;
  dsn <- checked_name data_source_name data_source_name
           "Data source name must be an str or int" ;;
  (* the third test looks at index_name again *)
  ixr <- checked_name index_name indexer_name
           "Indexer name must be an str or int" ;;
  new_client svc url ;;
  new_client svc url ;;
  logger_info "Intialization done successfully" ;;
  ret (mkInstance url key cont datasource_url idx dsn ixr).

Definition create_index (svc : search_service) (self : instance) : M unit :=
  logger_info "Trying to create an index..." ;;
  try_except
    (name <- getattr "index_name" (index_name self) ;;
     created <- request (answer_create_index svc name) ;;
     logger_info created ;;
     name' <- getattr "index_name" (index_name self) ;;
     logger_info ("Index Created successfully by name " ++ name' ++ "."))
    (fun e =>
       name <- getattr "index_name" (index_name self) ;;
       logger_warn
         ("The index by name " ++ name
          ++ " might be present. Stopping the creation of index with error "
          ++ exn_name e ++ ".")).

Definition create_indexer (svc : search_service) (self : instance) : M unit :=
  logger_info "Trying to create an indexer..." ;;
  try_except
    (name <- getattr "indexer_name" (indexer_name self) ;;
     _ <- getattr "data_source_name" (data_source_name self) ;;
     _ <- getattr "index_name" (index_name self) ;;
     created <- request (answer_create_indexer svc name) ;;
     logger_info created ;;
     name' <- getattr "indexer_name" (indexer_name self) ;;
     logger_info ("Indexer Created successfully by name " ++ name' ++ "."))
    (fun e =>
       name <- getattr "indexer_name" (indexer_name self) ;;
       logger_warn
         ("The Indexer by name " ++ name
          ++ " might be present. Stopping the creation of indexer with error "
          ++ exn_name e ++ ".")).

Definition create_datasource (svc : search_service) (self : instance)
    : M unit :=
  logger_info "Trying to create an datasource..." ;;
  try_except
    (name <- getattr "data_source_name" (data_source_name self) ;;
     created <- request (answer_create_data_source svc name) ;;
     logger_info created ;;
     name' <- getattr "data_source_name" (data_source_name self) ;;
     logger_info ("Datasource Created successfully by name " ++ name' ++ "."))
    (fun e =>
       name <- getattr "data_source_name" (data_source_name self) ;;
       logger_warn
         ("The datasource by name " ++ name
          ++ " might be present. Stopping the creation of datasource with error "
          ++ exn_name e ++ ".")).

Definition run_indexer (svc : search_service) (self : instance) : M unit :=
  try_except
    (name <- getattr "indexer_name" (indexer_name self) ;;
     match answer_run_indexer svc name with
     | Some e => raise e
     | None =>
         logger_info "Indexer Ran successfully" ;;
         logger_warn "Indexer is on a cooldown of 180 seconds. For this tier"
     end)
    (fun e => logger_error (exn_str e)).

(** The result is the search results, or [None] when the handler ran. *)
Definition run_query (svc : search_service) (self : instance)
    (query_text : string) : M (option (list document)) :=
  try_except
    (logger_info "Triggering the search client" ;;
     name <- getattr "index_name" (index_name self) ;;
     new_client svc (search_service_url self) ;;
     results <- request (answer_search svc name query_text) ;;
     logger_info "Query ran successfully, returing the results" ;;
     ret (Some results))
    (fun e => logger_error (exn_str e) ;; ret None).

(** The module's [trigger_pipeline], its log file being
    [logs/app.log]. *)
Definition trigger_pipeline (p : process) (svc : search_service)
    (index_name data_source_name indexer_name : pyval) (query_text : string)
    : M (option (list document)) :=
  logging_basicConfig_to "app.log" p ;;
  logger_info "Pipeline Triggered" ;;
  self <- __init__ p svc index_name data_source_name indexer_name ;;
  create_index svc self ;;
  create_datasource svc self ;;
  create_indexer svc self ;;
  run_indexer svc self ;;
  run_query svc self query_text.

End AzureBlobAISearchPipeline.

(** ** A ledger folder that refuses writes

    The ledger methods above are those of a process that may write in
    the folder [database].  The folder and the file in it can also be
    read-only for the process (the usual case of a read-only mount or
    of a file owned by another user).  Reading still works then;
    creating the file and writing a row are refused by SQLite.  The
    module gives the same methods for either case, the permission being
    the parameter [access]; with [ReadWrite] they are the methods
    above. *)

Module FileAccess.

Inductive access : Type :=
| ReadWrite    (* the folder [database] and the file in it can be written *)
| ReadOnly.    (* the folder exists; it and the file in it can only be read *)

(** [sqlite3.connect("database/file_check_in.db")] *)
Definition sqlite3_connect (a : access) : M unit :=
  fun w =>
    match db w, a with
    | Unopenable, _ | Absent, ReadOnly =>
        (Raise (OperationalError "unable to open database file"), w)
    | Absent, ReadWrite => (Return tt, set_db Empty w)
    | Empty, _ | Table _, _ => (Return tt, w)
    end.

Definition read_only_database : exn :=
  OperationalError "attempt to write a readonly database".

(** [cursor.execute("CREATE TABLE IF NOT EXISTS checked_files (...)")] *)
Definition sql_create_table (a : access) : M unit :=
  fun w =>
    match db w, a with
    | Table _, _ => (Return tt, w)
    | Empty, ReadWrite => (Return tt, set_db (Table []) w)
    | Empty, ReadOnly => (Raise read_only_database, w)
    | Unopenable, _ | Absent, _ =>
        (Raise (OperationalError "unable to open database file"), w)
    end.

(** [cursor.execute("INSERT INTO checked_files (file_name) VALUES (?)",
    (file_name,))] followed by [conn.commit()] *)
Definition sql_insert (a : access) (file_name : string) : M unit :=
  fun w =>
    match db w, a with
    | Table rows, ReadWrite =>
        (Return tt, set_db (Table (rows ++ [(next_rowid rows, file_name)])) w)
    | Table _, ReadOnly => (Raise read_only_database, w)
    | _, _ => (Raise no_such_table, w)
    end.

(** [try: body  finally: final]: [final] runs whatever [body] did, and
    an exception of [final] replaces the outcome of [body]. *)
Definition try_finally {A : Type} (body : M A) (final : M unit) : M A :=
  fun w =>
    match body w with
    | (r, w1) =>
        match final w1 with
        | (Return _, w2) => (r, w2)
        | (Raise e, w2) => (Raise e, w2)
        end
    end.

(** [conn.close()], [conn] being the method's local variable: [None]
    when no value was ever assigned to it. *)
Definition conn_close (conn : option unit) : M unit :=
  match conn with
  | Some _ => ret tt
  | None => raise (UnboundLocalError "conn")
  end.

(** The shape of the two ledger methods:

      try:
          conn = sqlite3.connect(...)
          body
      except Exception as e:
          handler e
      finally:
          conn.close()

    The local [conn] is bound exactly when [connect] returned. *)
Definition with_connection {A : Type} (a : access) (body : M A)
    (handler : exn -> M A) : M A :=
  fun w =>
    let conn := match fst (sqlite3_connect a w) with
                | Return c => Some c
                | Raise _ => None
                end in
    try_finally (try_except (sqlite3_connect a ;; body) handler)
                (conn_close conn) w.

Definition __create_sqlite_database (a : access) : M unit :=
  logger_info "Checking for the availablity of the database at database/file_check_in.db" ;;
  d <- gets db ;;
  match d with
  | Absent =>
      (* os.path.exists(db_path) is false; the connection is opened
         before the try block *)
      sqlite3_connect a ;;
      try_finally
        (try_except
           (logger_info "Creating a persistent table" ;;
            sql_create_table a ;;
            logger_info "Database created at: database/file_check_in.db, along with table.")
           (fun e =>
              logger_error ("Failed to create database or table: " ++ exn_str e)))
        (logger_info "Closing the connection with the database.")
  | _ =>
      logger_warn "Database 'database/file_check_in.db' already exists. Exiting the function."
  end.

Definition __insert_new_file_into_db (a : access) (file_name : string)
    : M unit :=
  with_connection a
    (sql_insert a file_name)
    (fun e => logger_error ("Failed to insert the file: " ++ exn_str e)).

Definition __check_availablity (a : access) (file_name : string)
    : M (option bool) :=
  with_connection a
    (results <- sql_select file_name ;;
     if (0 <? length results)%nat then ret (Some false) else ret (Some true))
    (fun e =>
       logger_error ("Failed to check availablity: " ++ exn_str e) ;;
       ret None).

(** The body of the [for blob in blobs] loop of [trigger_pipeline]. *)
Definition process_blob (a : access) (b : blob) : M unit :=
  new <- __check_availablity a (name b) ;;
  if truthy new then
    logger_info ("Intializing process for " ++ name b) ;;
    blob_content <- download_blob (name b) ;;
    open_write ("blob", last_segment (name b)) blob_content ;;
    __pdf_to_text ;;
    chunks <- __chunk_text 2048 256 ;;
    docs <- __document_generator chunks (name b) ;;
    logger_info "Uploading documents to the AI search" ;;
    __upload_documents docs ;;
    __insert_new_file_into_db a (name b) ;;
    os_remove ("blob", last_segment (name b))
  else
    logger_warn (name b ++ " has already been processed").

Definition trigger_pipeline (a : access) : M unit :=
  logger_info "Pipeline Triggered" ;;
  blobs <- __get_blobs_list ;;
  for_each (process_blob a) blobs.

Definition __init__ (a : access) (p : process) (v : pyval) : M instance :=
  logging_basicConfig p ;;
  __create_sqlite_database a ;;
  conn_str <- os_environ p "AZURE_STORAGE_CONNECTION_STRING" ;;
  cont <- os_environ p "AZURE_CONTAINER_NAME" ;;
  service_name <- os_environ p "AZURE_COGNITIVE_SEARCH_SERVICE_NAME" ;;
  admin_key <- os_environ p "AZURE_COGNITIVE_SEARCH_KEY" ;;
  logger_info "Creating a Blob Service Client with the provided connection string." ;;
  from_connection_string conn_str ;;
  logger_info "Created Blob Service Client" ;;
  self <- check_index_name v
            (mkInstance (Some conn_str) (Some cont) (Some cont) None None None) ;;
  let endpoint := "https://" ++ service_name ++ ".search.windows.net" in
  logger_info "Creating a Search Client with the provided connection string." ;;
  idx <- get_index_name self ;;
  logger_info "Creating a Search Client." ;;
  logger_info "Initialization successfully Completed" ;;
  ret (mkInstance (connection_string self) (container_name self)
                  (container_client self) (index_name self)
                  (Some (endpoint, idx)) (Some endpoint)).

End FileAccess.

(** ** Callers of the ledger

    What a caller can do with the ledger, in the specification's
    vocabulary: initialize it, ask whether a name is new, record a
    name, or run the whole pipeline.  [after_calls] is the world such a
    sequence of calls leaves, whatever each call returned or raised. *)

Inductive ledger_call : Type :=
| LedgerInitialize
| LedgerIsNew (file_name : string)
| LedgerRecord (file_name : string)
| PipelineRun.

Definition after_call (w : world) (c : ledger_call) : world :=
  match c with
  | LedgerInitialize => snd (__create_sqlite_database w)
  | LedgerIsNew file_name => snd (__check_availablity file_name w)
  | LedgerRecord file_name => snd (__insert_new_file_into_db file_name w)
  | PipelineRun => snd (trigger_pipeline w)
  end.

Definition after_calls (calls : list ledger_call) (w : world) : world :=
  fold_left after_call calls w.

(** Whether the table has a row with this exact [file_name]. *)
Definition has_name (file_name : string) (rows : list row) : bool :=
  existsb (fun r => String.eqb (snd r) file_name) rows.

(** The name is in the ledger: the table exists and holds a row for it. *)
Definition recorded (file_name : string) (d : database) : Prop :=
  exists rows, d = Table rows /\ has_name file_name rows = true.

(** The states of the database in which [__check_availablity] returns a
    falsy value, so that the orchestrator skips the name. *)
Definition skips (file_name : string) (d : database) : Prop :=
  match d with
  | Table rows => has_name file_name rows = true
  | Empty | Absent => True
  | Unopenable => False
  end.

(** ** Vocabulary of the statements and proofs *)

(** A relation between the world before and after a computation that
    holds whatever the outcome. *)
Definition keeps {A : Type} (R : world -> world -> Prop) (m : M A) : Prop :=
  forall w r w', m w = (r, w') -> R w w'.

Definition preorder (R : world -> world -> Prop) : Prop :=
  (forall w, R w w) /\ (forall w1 w2 w3, R w1 w2 -> R w2 w3 -> R w1 w3).

(** [same f]: the component [f] of the world is unchanged. *)
Definition same {X : Type} (f : world -> X) : world -> world -> Prop :=
  fun w w' => f w' = f w.

(** [upward P]: a property of the world that, once true, stays true. *)
Definition upward (P : world -> Prop) : world -> world -> Prop :=
  fun w w' => P w -> P w'.

(** What the steps before the upload leave alone: the ledger, the
    upload requests made and the index; and, once the blob is written,
    the folder [temp/blob] as well. *)
Definition ledger_and_index (w : world) :=
  (db w, uploads w, index w).

Definition ledger_index_and_blobs (w : world) :=
  (db w, uploads w, index w, blob_dir w).

(** The string holds no occurrence of the separator. *)
Fixpoint free_of (sep : ascii) (s : string) : Prop :=
  match s with
  | EmptyString => True
  | String c s' => Ascii.eqb c sep = false /\ free_of sep s'
  end.

(** The value of a hexadecimal digit. *)
Definition hex_value (c : ascii) : N :=
  match c with
  | "0" => 0 | "1" => 1 | "2" => 2 | "3" => 3 | "4" => 4 | "5" => 5
  | "6" => 6 | "7" => 7 | "8" => 8 | "9" => 9 | "a" => 10 | "b" => 11
  | "c" => 12 | "d" => 13 | "e" => 14 | _ => 15
  end%char%N.

(** The documents the loop of [__document_generator] appends, the
    first identifier being the one of call number [k]. *)
Fixpoint documents_from (gen : nat -> N) (k : nat) (chunks : list string)
    (file_name : string) : list document :=
  match chunks with
  | [] => []
  | chunk :: rest =>
      mkDocument (short_id (gen k)) chunk file_name
        :: documents_from gen (S k) rest file_name
  end.

(** Everything [process_blob] can change besides the log, the folder
    [temp/txt] and the count of identifiers. *)
Definition pipeline_state (w : world) :=
  (db w, uploads w, index w, blob_dir w, downloads w).



(** The upload requests made from [w] to [w'] carry only documents
    whose [metadata_storage_path] satisfies [P]. *)
Definition uploads_only (P : string -> Prop) (w w' : world) : Prop :=
  exists requests,
    uploads w' = (uploads w ++ requests)%list /\
    forall docs ok d,
      In (docs, ok) requests -> In d docs -> P (metadata_storage_path d).

(** The seven settings [AzureBlobAISearchPipeline.__init__] reads, with
    the values of the four it keeps for its methods. *)
Definition indexer_settings (p : process)
    (url key cont datasource_url : string) : Prop :=
  (exists v, getenv p "AZURE_COGNITIVE_SEARCH_SERVICE_NAME" = Some v) /\
  getenv p "AZURE_COGNITIVE_SEARCH_URL" = Some url /\
  getenv p "AZURE_COGNITIVE_SEARCH_KEY" = Some key /\
  (exists v, getenv p "AZURE_STORAGE_ACCOUNT_NAME" = Some v) /\
  (exists v, getenv p "AZURE_STORAGE_BLOB_URL" = Some v) /\
  getenv p "AZURE_CONTAINER_NAME" = Some cont /\
  getenv p "AZURE_DATASOURCE_BLOB_STORAGE_URL" = Some datasource_url.

(** The log only grows from [w] to [w']. *)
Definition log_grows (w w' : world) : Prop :=
  forall x, In x (log w) -> In x (log w').

(** ** Sample worlds

    Concrete worlds on which the statements below are run.  The loader
    returns the file's bytes as its one document and the splitter
    returns the text as its one chunk. *)

Definition sample_ext : collaborators :=
  mkCollaborators (fun _ bytes => Some [bytes]) (fun _ _ _ text => [text])
    (fun n => N.of_nat n) (fun _ => false) (fun _ => true).

Definition sample_world (d : database) (blobs : list blob) : world :=
  mkWorld sample_ext d blobs [] [] [] [] [] 0 [].

(** The same, with a search service that refuses every upload. *)
Definition refusing_ext : collaborators :=
  mkCollaborators (fun _ bytes => Some [bytes]) (fun _ _ _ text => [text])
    (fun n => N.of_nat n) (fun _ => true) (fun _ => true).

Definition refusing_world (d : database) (blobs : list blob) : world :=
  mkWorld refusing_ext d blobs [] [] [] [] [] 0 [].

(** The same, with a document loader that raises on every file. *)
Definition unreadable_ext : collaborators :=
  mkCollaborators (fun _ _ => None) (fun _ _ _ text => [text])
    (fun n => N.of_nat n) (fun _ => false) (fun _ => true).

Definition unreadable_world (d : database) (blobs : list blob) : world :=
  mkWorld unreadable_ext d blobs [] [] [] [] [] 0 [].

(** A process with the four settings the constructor reads. *)
Definition sample_process : process :=
  mkProcess
    [("AZURE_STORAGE_CONNECTION_STRING", "UseDevelopmentStorage=true");
     ("AZURE_CONTAINER_NAME", "documents");
     ("AZURE_COGNITIVE_SEARCH_SERVICE_NAME", "search");
     ("AZURE_COGNITIVE_SEARCH_KEY", "key")]
    true false.

(** A process with the seven settings of the indexer pipeline, and a
    search service that already has the index and accepts the rest. *)
Definition indexer_process : process :=
  mkProcess
    [("AZURE_COGNITIVE_SEARCH_SERVICE_NAME", "search");
     ("AZURE_COGNITIVE_SEARCH_URL", "https://search.search.windows.net");
     ("AZURE_COGNITIVE_SEARCH_KEY", "key");
     ("AZURE_STORAGE_ACCOUNT_NAME", "account");
     ("AZURE_STORAGE_BLOB_URL", "https://account.blob.core.windows.net");
     ("AZURE_CONTAINER_NAME", "documents");
     ("AZURE_DATASOURCE_BLOB_STORAGE_URL", "ResourceId=/subscriptions/x;")]
    true false.

Definition sample_service : AzureBlobAISearchPipeline.search_service :=
  AzureBlobAISearchPipeline.mkSearchService
    (fun _ => true)
    (fun _ => inl (HttpResponseError "index already exists"))
    (fun n => inr n)
    (fun n => inr n)
    (fun _ => None)
    (fun idx q => inr [mkDocument "1" q idx]).

(** A world in which [temp/blob] still holds a file of an earlier run
    when the blob [new.pdf] is listed. *)
Definition stale_world : world :=
  mkWorld sample_ext (Table []) [mkBlob "new.pdf" "new text"]
          [("old.pdf", File "old text")] [] [] [] [] 0 [].

(** A generator whose identifiers are 2^32 ticks of the UUID clock
    apart (429.4967296 s): 6ba7b810-9dad-11d1-80b4-00c04fd430c8,
    6ba7b810-9dae-11d1-80b4-00c04fd430c8, ...  They differ in the field
    [time_mid] and agree on [time_low]. *)
Definition wrapping_ext : collaborators :=
  mkCollaborators (fun _ bytes => Some [bytes]) (fun _ _ _ text => [text])
    (fun n => (0x6ba7b8109dad11d180b400c04fd430c8 + N.of_nat n * 2 ^ 80)%N)
    (fun _ => false) (fun _ => true).

Definition wrapping_world : world :=
  mkWorld wrapping_ext (Table []) [] [] [] [] [] [] 0 [].

(** * Properties *)

(** ** Reasoning in the monad *)

Lemma bind_inv {A B : Type} (m : M A) (k : A -> M B) w r w' :
  bind m k w = (r, w') ->
  (exists e, m w = (Raise e, w') /\ r = Raise e) \/
  (exists a w1, m w = (Return a, w1) /\ k a w1 = (r, w')).
Proof.
  unfold bind. destruct (m w) as [[a | e] w1]; intros H.
  - right. exists a, w1. auto.
  - left. exists e. inversion H; subst. auto.
Qed.

Lemma bind_Return {A B : Type} (m : M A) (k : A -> M B) w a w1 :
  m w = (Return a, w1) -> bind m k w = k a w1.
Proof. unfold bind. intros ->. reflexivity. Qed.

Lemma bind_Raise {A B : Type} (m : M A) (k : A -> M B) w e w1 :
  m w = (Raise e, w1) -> bind m k w = (Raise e, w1).
Proof. unfold bind. intros ->. reflexivity. Qed.

Lemma keeps_ret {A : Type} R (a : A) : preorder R -> keeps R (ret a).
Proof. intros [Hr _] w r w' H. inversion H; subst. apply Hr. Qed.

Lemma keeps_raise {A : Type} R e : preorder R -> keeps R (@raise A e).
Proof. intros [Hr _] w r w' H. inversion H; subst. apply Hr. Qed.

Lemma keeps_gets {A : Type} R (f : world -> A) : preorder R -> keeps R (gets f).
Proof. intros [Hr _] w r w' H. inversion H; subst. apply Hr. Qed.

Lemma keeps_bind {A B : Type} R (m : M A) (k : A -> M B) :
  preorder R -> keeps R m -> (forall a, keeps R (k a)) -> keeps R (bind m k).
Proof.
  intros [_ Ht] Hm Hk w r w' H.
  apply bind_inv in H as [(e & H & _) | (a & w1 & H1 & H2)].
  - eapply Hm; eauto.
  - eapply Ht; [eapply Hm | eapply Hk]; eauto.
Qed.

Lemma keeps_try_except {A : Type} R (body : M A) handler :
  preorder R -> keeps R body -> (forall e, keeps R (handler e)) ->
  keeps R (try_except body handler).
Proof.
  intros [_ Ht] Hb Hh w r w' H. unfold try_except in H.
  destruct (body w) as [[a | e] w1] eqn:E.
  - inversion H; subst. eapply Hb; eauto.
  - eapply Ht; [eapply Hb | eapply Hh]; eauto.
Qed.

Lemma keeps_modify R (f : world -> world) :
  (forall w, R w (f w)) -> keeps R (modify f).
Proof. intros Hf w r w' H. inversion H; subst. apply Hf. Qed.

Lemma keeps_with_connection {A : Type} R (body : M A) handler :
  preorder R -> keeps R sqlite3_connect -> keeps R body ->
  (forall e, keeps R (handler e)) -> keeps R (with_connection body handler).
Proof.
  intros HR Hc Hb Hh w r w' H. unfold with_connection in H.
  destruct (sqlite3_connect w) as [[u | e] w1] eqn:E.
  - destruct HR as [Hrefl Ht].
    eapply Ht; [eapply Hc; eauto |].
    eapply keeps_try_except; eauto. split; auto.
  - inversion H; subst.
    destruct HR as [_ Ht].
    eapply Ht; [eapply Hc; eauto |].
    destruct (handler e w1) as [r1 w2] eqn:E2. simpl. eapply Hh; eauto.
Qed.

Lemma keeps_for_each {A : Type} R (body : A -> M unit) items :
  preorder R -> (forall x, keeps R (body x)) -> keeps R (for_each body items).
Proof.
  intros HR Hb. induction items as [| x rest IH]; simpl.
  - apply keeps_ret; auto.
  - apply keeps_bind; auto.
Qed.

(** ** Frames: what each step leaves alone *)

Lemma same_preorder {X : Type} (f : world -> X) : preorder (same f).
Proof. split; unfold same; intros; congruence. Qed.

Lemma upward_preorder P : preorder (upward P).
Proof. split; unfold upward; auto. Qed.

Lemma same_upward {X : Type} (f : world -> X) (P : X -> Prop) {A : Type} (m : M A) :
  keeps (same f) m -> keeps (upward (fun w => P (f w))) m.
Proof. intros H w r w' E HP. unfold same in H. erewrite H; eauto. Qed.

Create HintDb frames.
#[local] Hint Resolve same_preorder upward_preorder : frames.

Ltac keeps_leaf :=
  let H := fresh "H" in
  intros ? ? ? H;
  unfold logger_info, logger_warn, logger_error, modify, gets, ret, raise,
    sqlite3_connect, sql_insert, sql_select, os_listdir, set_scratch,
    download_blob, uuid_uuid1, search_client_upload in H;
  repeat match type of H with
         | context [match ?x with _ => _ end] => destruct x
         end;
  inversion H; subst; unfold same; simpl; try reflexivity; auto.

Ltac keeps_step :=
  match goal with
  | |- preorder _ => solve [auto with frames]
  | |- keeps _ (bind _ _) => apply keeps_bind; [ | | intros ]
  | |- keeps _ (try_except _ _) => apply keeps_try_except; [ | | intros ]
  | |- keeps _ (with_connection _ _) =>
      apply keeps_with_connection; [ | | | intros ]
  | |- keeps _ (for_each _ _) => apply keeps_for_each; [ | intros ]
  | |- keeps _ (match ?x with _ => _ end) => destruct x
  | |- keeps _ _ => solve [auto with frames]
  | |- keeps _ _ => solve [keeps_leaf]
  end.

Ltac keeps_auto := repeat keeps_step.

Section Frames.
Context {X : Type} (f : world -> X).

(** Steps that never touch [f], given that the setters leave it. *)
Hypothesis f_log : forall r w, f (add_log r w) = f w.

Lemma same_logger_info msg : keeps (same f) (logger_info msg).
Proof. intros w r w' H. inversion H; subst. apply f_log. Qed.

Lemma same_logger_warn msg : keeps (same f) (logger_warn msg).
Proof. intros w r w' H. inversion H; subst. apply f_log. Qed.

Lemma same_logger_error msg : keeps (same f) (logger_error msg).
Proof. intros w r w' H. inversion H; subst. apply f_log. Qed.

Lemma same_os_listdir type : keeps (same f) (os_listdir type).
Proof. keeps_leaf. Qed.

Hint Resolve same_logger_info same_logger_warn same_logger_error
  same_os_listdir : frames.

Lemma same_get_file_name type : keeps (same f) (__get_file_name type).
Proof. unfold __get_file_name. keeps_auto. Qed.

Lemma same_read_bytes p : keeps (same f) (read_bytes p).
Proof. unfold read_bytes. keeps_auto. Qed.

Lemma same_open_read p : keeps (same f) (open_read p).
Proof. unfold open_read. keeps_auto. Qed.

Hint Resolve same_get_file_name same_read_bytes same_open_read : frames.

Lemma same_loader_run p : keeps (same f) (loader_run p).
Proof. unfold loader_run. keeps_auto. Qed.

Hint Resolve same_loader_run : frames.

Lemma same_chunk_text size overlap : keeps (same f) (__chunk_text size overlap).
Proof. unfold __chunk_text. keeps_auto. Qed.

Section Ledger.
Hypothesis f_db : forall d w, f (set_db d w) = f w.

Lemma same_connect : keeps (same f) sqlite3_connect.
Proof. keeps_leaf. Qed.

Lemma same_sql_insert n : keeps (same f) (sql_insert n).
Proof. keeps_leaf. Qed.

Lemma same_sql_select n : keeps (same f) (sql_select n).
Proof. keeps_leaf. Qed.

Hint Resolve same_connect same_sql_insert same_sql_select : frames.

Lemma same_insert_new_file n : keeps (same f) (__insert_new_file_into_db n).
Proof. unfold __insert_new_file_into_db. keeps_auto. Qed.

Lemma same_check_availablity n : keeps (same f) (__check_availablity n).
Proof. unfold __check_availablity. keeps_auto. Qed.
End Ledger.

Section Scratch.
Hypothesis f_blob_dir : forall d w, f (set_blob_dir d w) = f w.
Hypothesis f_txt_dir : forall d w, f (set_txt_dir d w) = f w.

Lemma same_open_write p text : keeps (same f) (open_write p text).
Proof. unfold open_write. keeps_auto. Qed.

Lemma same_os_remove p : keeps (same f) (os_remove p).
Proof. unfold os_remove. keeps_auto. Qed.
End Scratch.

Section TxtOnly.
Hypothesis f_txt_dir : forall d w, f (set_txt_dir d w) = f w.

Lemma same_open_write_txt file text :
  keeps (same f) (open_write ("txt", file) text).
Proof.
  intros w r w' H. unfold open_write, bind, os_listdir in H. simpl in H.
  destruct (names_directory file (txt_dir w)); inversion H; subst;
    unfold same; simpl; auto.
Qed.

Hint Resolve same_open_write_txt : frames.

Lemma same_pdf_to_text : keeps (same f) __pdf_to_text.
Proof. unfold __pdf_to_text. keeps_auto. Qed.
End TxtOnly.

Section Download.
Hypothesis f_download : forall b w, f (add_download b w) = f w.

Lemma same_download_blob n : keeps (same f) (download_blob n).
Proof. keeps_leaf. Qed.
End Download.

Section Generator.
Hypothesis f_uuid : forall w, f (tick_uuid w) = f w.

Lemma same_generate chunks file_name docs :
  keeps (same f) (generate chunks file_name docs).
Proof.
  revert docs. induction chunks as [| c rest IH]; intros docs; simpl.
  - keeps_auto.
  - apply keeps_bind; [auto with frames | keeps_leaf | intros u].
    apply keeps_bind; auto with frames.
Qed.

Hint Resolve same_generate : frames.

Lemma same_document_generator chunks file_name :
  keeps (same f) (__document_generator chunks file_name).
Proof. unfold __document_generator. keeps_auto. Qed.
End Generator.

Section Upload.
Hypothesis f_upload : forall u w, f (add_upload u w) = f w.
Hypothesis f_index : forall i w, f (set_index i w) = f w.

Lemma same_upload_documents docs : keeps (same f) (__upload_documents docs).
Proof.
  unfold __upload_documents. keeps_auto.
  intros w r w' H. unfold search_client_upload in H.
  destruct (upload_raises _ _); inversion H; subst; unfold same;
    rewrite ?f_upload, ?f_index; reflexivity.
Qed.
End Upload.
End Frames.

(** ** The ledger methods, state by state *)

Lemma has_name_In file_name rows :
  has_name file_name rows = true <-> exists i, In (i, file_name) rows.
Proof.
  unfold has_name. rewrite existsb_exists. split.
  - intros ([i n] & Hin & E). simpl in E. apply String.eqb_eq in E. subst.
    eauto.
  - intros (i & Hin). exists (i, file_name). split; auto. apply String.eqb_refl.
Qed.

Lemma select_has_name file_name rows :
  (0 <? length (select_by_name file_name rows))%nat = has_name file_name rows.
Proof.
  unfold select_by_name, has_name.
  induction rows as [| r rest IH]; simpl; auto.
  destruct (String.eqb (snd r) file_name); simpl; auto.
Qed.

Lemma has_name_app file_name rows more :
  has_name file_name (rows ++ more) =
  has_name file_name rows || has_name file_name more.
Proof. unfold has_name. apply existsb_app. Qed.

Lemma check_Table w file_name rows :
  db w = Table rows ->
  __check_availablity file_name w =
  (Return (Some (negb (has_name file_name rows))), w).
Proof.
  intros E.
  unfold __check_availablity, with_connection, sqlite3_connect, try_except,
    bind, sql_select.
  repeat (rewrite E; cbv beta iota). rewrite select_has_name.
  destruct (has_name file_name rows); reflexivity.
Qed.

Lemma check_Empty w file_name :
  db w = Empty ->
  __check_availablity file_name w =
  (Return None,
   add_log (ERROR, "Failed to check availablity: no such table: checked_files") w).
Proof.
  intros E.
  unfold __check_availablity, with_connection, sqlite3_connect, try_except,
    bind, sql_select.
  repeat (rewrite E; cbv beta iota). simpl. reflexivity.
Qed.

Lemma check_Absent w file_name :
  db w = Absent ->
  __check_availablity file_name w =
  (Return None,
   add_log (ERROR, "Failed to check availablity: no such table: checked_files")
           (set_db Empty w)).
Proof.
  intros E.
  unfold __check_availablity, with_connection, sqlite3_connect, try_except,
    bind, sql_select.
  repeat (rewrite E; cbv beta iota). simpl. reflexivity.
Qed.

Lemma check_Unopenable w file_name :
  db w = Unopenable ->
  __check_availablity file_name w =
  (Raise (UnboundLocalError "conn"),
   add_log (ERROR, "Failed to check availablity: unable to open database file") w).
Proof.
  intros E. unfold __check_availablity, with_connection, sqlite3_connect.
  repeat (rewrite E; cbv beta iota). simpl. reflexivity.
Qed.

Lemma insert_Table w file_name rows :
  db w = Table rows ->
  __insert_new_file_into_db file_name w =
  (Return tt, set_db (Table (rows ++ [(next_rowid rows, file_name)])) w).
Proof.
  intros E.
  unfold __insert_new_file_into_db, with_connection, sqlite3_connect,
    try_except, sql_insert.
  repeat (rewrite E; cbv beta iota). simpl. reflexivity.
Qed.

Lemma insert_Empty w file_name :
  db w = Empty ->
  __insert_new_file_into_db file_name w =
  (Return tt,
   add_log (ERROR, "Failed to insert the file: no such table: checked_files") w).
Proof.
  intros E.
  unfold __insert_new_file_into_db, with_connection, sqlite3_connect,
    try_except, sql_insert.
  repeat (rewrite E; cbv beta iota). simpl. reflexivity.
Qed.

Lemma insert_Absent w file_name :
  db w = Absent ->
  __insert_new_file_into_db file_name w =
  (Return tt,
   add_log (ERROR, "Failed to insert the file: no such table: checked_files")
           (set_db Empty w)).
Proof.
  intros E.
  unfold __insert_new_file_into_db, with_connection, sqlite3_connect,
    try_except, sql_insert.
  repeat (rewrite E; cbv beta iota). simpl. reflexivity.
Qed.

Lemma insert_Unopenable w file_name :
  db w = Unopenable ->
  __insert_new_file_into_db file_name w =
  (Raise (UnboundLocalError "conn"),
   add_log (ERROR, "Failed to insert the file: unable to open database file") w).
Proof.
  intros E. unfold __insert_new_file_into_db, with_connection, sqlite3_connect.
  repeat (rewrite E; cbv beta iota). simpl. reflexivity.
Qed.

(** ** Row identifiers *)

Lemma fold_max_bounds (l : list Z) (a : Z) :
  (a <= fold_left Z.max l a)%Z /\
  (forall x, In x l -> x <= fold_left Z.max l a)%Z.
Proof.
  revert a. induction l as [| y l IH]; intros a; simpl.
  - split; [lia | tauto].
  - destruct (IH (Z.max a y)) as [H1 H2]. split; [lia |].
    intros x [-> | Hin]; [lia | auto].
Qed.

Lemma next_rowid_fresh rows i file_name :
  In (i, file_name) rows -> (i < next_rowid rows)%Z.
Proof.
  destruct rows as [| [j m] rest]; simpl; [tauto |].
  destruct (fold_max_bounds (map fst rest) j) as [H1 H2].
  intros [E | Hin].
  - inversion E; subst. lia.
  - specialize (H2 i (in_map fst _ _ Hin)). simpl in H2. lia.
Qed.

(** ** The ledger: [isNew] and [record] *)

(** C4. [__check_availablity] returns [True] exactly when the table
    [checked_files] has no row with this [file_name]; and when the
    connection opens but the query raises, the error is logged and the
    method returns [None] instead of raising. *)
Theorem check_availablity_spec (w : world) (file_name : string) :
  (forall rows, db w = Table rows ->
     exists b,
       __check_availablity file_name w = (Return (Some b), w) /\
       (b = true <-> forall i, ~ In (i, file_name) rows)) /\
  (forall w1 e,
     sqlite3_connect w = (Return tt, w1) ->
     fst (sql_select file_name w1) = Raise e ->
     __check_availablity file_name w =
     (Return None,
      add_log (ERROR, "Failed to check availablity: " ++ exn_str e) w1)).
Proof.
  split.
  - intros rows E. exists (negb (has_name file_name rows)).
    split; [apply check_Table; assumption |].
    rewrite negb_true_iff, <- not_true_iff_false, has_name_In.
    split.
    + intros H i Hin. apply H. eauto.
    + intros H (i & Hin). eapply H; eauto.
  - intros w1 e Hc Hq.
    unfold __check_availablity, with_connection. rewrite Hc.
    unfold try_except, bind.
    destruct (sql_select file_name w1) as [[rs | e'] w2] eqn:Es;
      simpl in Hq; [discriminate |].
    inversion Hq; subst e'.
    assert (w2 = w1) as ->.
    { unfold sql_select in Es. destruct (db w1); inversion Es; reflexivity. }
    reflexivity.
Qed.

(** C5. Recording the same name twice adds two rows: same [file_name],
    different [id]s, both new to the table. *)
Theorem record_twice_inserts_two_rows (w : world) (file_name : string)
    (rows : list row) :
  db w = Table rows ->
  exists i j w1 w2,
    __insert_new_file_into_db file_name w = (Return tt, w1) /\
    __insert_new_file_into_db file_name w1 = (Return tt, w2) /\
    db w2 = Table (rows ++ [(i, file_name); (j, file_name)]) /\
    i <> j /\
    (forall k m, In (k, m) rows -> k <> i /\ k <> j) /\
    length (select_by_name file_name (rows_of (db w2))) =
    2 + length (select_by_name file_name rows).
Proof.
  intros E.
  set (i := next_rowid rows).
  set (rows1 := (rows ++ [(i, file_name)])%list).
  set (j := next_rowid rows1).
  exists i, j, (set_db (Table rows1) w),
    (set_db (Table (rows1 ++ [(j, file_name)])) (set_db (Table rows1) w)).
  assert (Hij : (i < j)%Z).
  { apply (next_rowid_fresh rows1 i file_name). unfold rows1.
    apply in_or_app. right. left. reflexivity. }
  split; [apply insert_Table; assumption |].
  split; [apply insert_Table; reflexivity |].
  split; [simpl; unfold rows1; rewrite <- app_assoc; reflexivity |].
  split; [lia |].
  split.
  - intros k m Hin.
    assert (k < i)%Z by (eapply next_rowid_fresh; eauto). lia.
  - simpl. unfold rows1, select_by_name.
    rewrite !filter_app, !length_app. simpl. rewrite String.eqb_refl. simpl.
    rewrite <- Nat.add_assoc. simpl. rewrite Nat.add_comm. reflexivity.
Qed.

(** C4 applied to a table holding the name and to a database file
    without the table. *)
Lemma check_availablity_spec_witness :
  (exists b,
     __check_availablity "a.pdf" (sample_world (Table [(1%Z, "a.pdf")]) []) =
     (Return (Some b), sample_world (Table [(1%Z, "a.pdf")]) []) /\
     (b = true <-> forall i, ~ In (i, "a.pdf") [(1%Z, "a.pdf")])) /\
  __check_availablity "a.pdf" (sample_world Empty []) =
  (Return None,
   add_log (ERROR, "Failed to check availablity: " ++ exn_str no_such_table)
           (sample_world Empty [])).
Proof.
  split.
  - apply (proj1 (check_availablity_spec
                    (sample_world (Table [(1%Z, "a.pdf")]) []) "a.pdf")).
    reflexivity.
  - apply (proj2 (check_availablity_spec (sample_world Empty []) "a.pdf"));
      reflexivity.
Defined.

(** C5 applied to a table that already holds the name. *)
Lemma record_twice_inserts_two_rows_witness :
  exists i j w1 w2,
    __insert_new_file_into_db "a.pdf"
      (sample_world (Table [(1%Z, "a.pdf")]) []) = (Return tt, w1) /\
    __insert_new_file_into_db "a.pdf" w1 = (Return tt, w2) /\
    db w2 = Table ([(1%Z, "a.pdf")] ++ [(i, "a.pdf"); (j, "a.pdf")]) /\
    i <> j /\
    (forall k m, In (k, m) [(1%Z, "a.pdf")] -> k <> i /\ k <> j) /\
    length (select_by_name "a.pdf" (rows_of (db w2))) =
    2 + length (select_by_name "a.pdf" [(1%Z, "a.pdf")]).
Proof.
  apply (record_twice_inserts_two_rows
           (sample_world (Table [(1%Z, "a.pdf")]) []) "a.pdf"
           [(1%Z, "a.pdf")]).
  reflexivity.
Defined.

(** ** The ledger only grows

    A property of the database that inserting a row and creating the
    file cannot break stays true through every method of the class. *)

Section LedgerMonotone.
Variable P : database -> Prop.
Hypothesis P_insert :
  forall rows n, P (Table rows) -> P (Table (rows ++ [(next_rowid rows, n)])).
Hypothesis P_connect : P Absent -> P Empty.

Lemma up_insert_new_file n :
  keeps (upward (fun w => P (db w))) (__insert_new_file_into_db n).
Proof.
  intros w r w' H HP. destruct (db w) as [| | | rows] eqn:E.
  - rewrite insert_Unopenable in H by assumption. inversion H; subst.
    simpl. rewrite E. assumption.
  - rewrite insert_Absent in H by assumption. inversion H; subst.
    simpl. auto.
  - rewrite insert_Empty in H by assumption. inversion H; subst.
    simpl. rewrite E. assumption.
  - rewrite (insert_Table _ _ rows) in H by assumption. inversion H; subst.
    simpl. auto.
Qed.

Lemma up_check_availablity n :
  keeps (upward (fun w => P (db w))) (__check_availablity n).
Proof.
  intros w r w' H HP. destruct (db w) as [| | | rows] eqn:E.
  - rewrite check_Unopenable in H by assumption. inversion H; subst.
    simpl. rewrite E. assumption.
  - rewrite check_Absent in H by assumption. inversion H; subst.
    simpl. auto.
  - rewrite check_Empty in H by assumption. inversion H; subst.
    simpl. rewrite E. assumption.
  - rewrite (check_Table _ _ rows) in H by assumption. inversion H; subst.
    rewrite E. assumption.
Qed.

Lemma up_process_blob b : keeps (upward (fun w => P (db w))) (process_blob b).
Proof.
  pose proof up_insert_new_file. pose proof up_check_availablity.
  pose proof (fun msg => same_upward db P _ (same_logger_info db (fun _ _ => eq_refl) msg)).
  pose proof (fun msg => same_upward db P _ (same_logger_warn db (fun _ _ => eq_refl) msg)).
  pose proof (fun n => same_upward db P _
    (same_download_blob db (fun _ _ => eq_refl) n)).
  pose proof (fun p t => same_upward db P _
    (same_open_write db (fun _ _ => eq_refl) (fun _ _ => eq_refl) p t)).
  pose proof (fun p => same_upward db P _
    (same_os_remove db (fun _ _ => eq_refl) (fun _ _ => eq_refl) p)).
  pose proof (same_upward db P _
    (same_pdf_to_text db (fun _ _ => eq_refl) (fun _ _ => eq_refl))).
  pose proof (fun s o => same_upward db P _
    (same_chunk_text db (fun _ _ => eq_refl) s o)).
  pose proof (fun c n => same_upward db P _
    (same_document_generator db (fun _ _ => eq_refl) (fun _ => eq_refl) c n)).
  pose proof (fun d => same_upward db P _
    (same_upload_documents db (fun _ _ => eq_refl) (fun _ _ => eq_refl)
       (fun _ _ => eq_refl) d)).
  unfold process_blob. keeps_auto.
Qed.

Lemma up_trigger_pipeline : keeps (upward (fun w => P (db w))) trigger_pipeline.
Proof.
  unfold trigger_pipeline, __get_blobs_list.
  apply keeps_bind; [auto with frames | | intros _].
  - apply (same_upward db P), same_logger_info. reflexivity.
  - apply keeps_bind; [auto with frames | apply keeps_gets; auto with frames |].
    intros blobs. apply keeps_for_each; [auto with frames |].
    apply up_process_blob.
Qed.

Lemma up_create_sqlite_database :
  (P Absent -> P (Table [])) ->
  keeps (upward (fun w => P (db w))) __create_sqlite_database.
Proof.
  intros Hc w r w' H HP. unfold __create_sqlite_database in H.
  unfold bind, logger_info, logger_warn, modify, gets in H. simpl in H.
  destruct (db w) eqn:E; inversion H; subst; simpl; auto; rewrite E; auto.
Qed.

Lemma up_after_calls :
  (P Absent -> P (Table [])) ->
  forall calls w, P (db w) -> P (db (after_calls calls w)).
Proof.
  intros Hc calls. unfold after_calls.
  induction calls as [| c rest IH]; intros w HP; simpl; auto.
  apply IH. destruct c; simpl.
  - destruct (__create_sqlite_database w) eqn:E.
    eapply up_create_sqlite_database; eauto.
  - destruct (__check_availablity file_name w) eqn:E.
    eapply up_check_availablity; eauto.
  - destruct (__insert_new_file_into_db file_name w) eqn:E.
    eapply up_insert_new_file; eauto.
  - destruct (trigger_pipeline w) eqn:E.
    eapply up_trigger_pipeline; eauto.
Qed.
End LedgerMonotone.

(** C3. Once [__insert_new_file_into_db] has succeeded for a name
    (it returned and logged no failure), [__check_availablity] returns
    [False] for that name after any further calls: initializing the
    ledger, checking or recording any names, running the pipeline. *)
Theorem recorded_name_is_never_new (w w1 : world) (file_name : string)
    (calls : list ledger_call) :
  __insert_new_file_into_db file_name w = (Return tt, w1) ->
  log w1 = log w ->
  __check_availablity file_name (after_calls calls w1) =
  (Return (Some false), after_calls calls w1).
Proof.
  intros Hins Hlog.
  assert (Hrec : recorded file_name (db w1)).
  { destruct (db w) as [| | | rows] eqn:E.
    - rewrite insert_Unopenable in Hins by assumption. discriminate.
    - rewrite insert_Absent in Hins by assumption. inversion Hins; subst.
      simpl in Hlog. apply (f_equal (@length _)) in Hlog.
      rewrite length_app in Hlog. simpl in Hlog. lia.
    - rewrite insert_Empty in Hins by assumption. inversion Hins; subst.
      simpl in Hlog. apply (f_equal (@length _)) in Hlog.
      rewrite length_app in Hlog. simpl in Hlog. lia.
    - rewrite (insert_Table _ _ rows) in Hins by assumption.
      inversion Hins; subst. simpl. eexists. split; [reflexivity |].
      rewrite has_name_app. simpl. rewrite String.eqb_refl.
      apply orb_true_r. }
  assert (Hlater : recorded file_name (db (after_calls calls w1))).
  { apply up_after_calls; auto.
    - intros rows n (rows' & E & Hn). inversion E; subst rows'.
      eexists. split; [reflexivity |]. rewrite has_name_app, Hn. reflexivity.
    - intros (rows & E & _). discriminate.
    - intros (rows & E & _). discriminate. }
  destruct Hlater as (rows & E & Hn).
  rewrite (check_Table _ _ rows E), Hn. reflexivity.
Qed.

(** C3 applied to recording a name in an empty table and then recording
    and checking other names and running the pipeline. *)
Lemma recorded_name_is_never_new_witness :
  __check_availablity "a.pdf"
    (after_calls [LedgerRecord "b.pdf"; LedgerIsNew "c.pdf"; PipelineRun]
       (snd (__insert_new_file_into_db "a.pdf"
               (sample_world (Table []) [mkBlob "c.pdf" "text"])))) =
  (Return (Some false),
   after_calls [LedgerRecord "b.pdf"; LedgerIsNew "c.pdf"; PipelineRun]
     (snd (__insert_new_file_into_db "a.pdf"
             (sample_world (Table []) [mkBlob "c.pdf" "text"])))).
Proof.
  apply (recorded_name_is_never_new
           (sample_world (Table []) [mkBlob "c.pdf" "text"])); reflexivity.
Defined.

(** ** The skip path *)

Lemma check_falsy_frame w file_name r w1 :
  __check_availablity file_name w = (Return r, w1) ->
  truthy r = false ->
  skips file_name (db w) /\
  (r = Some false -> w1 = w) /\
  ext w1 = ext w /\ container w1 = container w /\
  blob_dir w1 = blob_dir w /\ txt_dir w1 = txt_dir w /\
  index w1 = index w /\ uploads w1 = uploads w /\
  downloads w1 = downloads w /\ uuid_calls w1 = uuid_calls w /\
  rows_of (db w1) = rows_of (db w) /\
  (forall n, skips n (db w) -> skips n (db w1)).
Proof.
  intros H Hr. destruct (db w) as [| | | rows] eqn:E.
  - rewrite check_Unopenable in H by assumption. discriminate.
  - rewrite check_Absent in H by assumption. inversion H; subst.
    simpl. repeat split; auto; discriminate.
  - rewrite check_Empty in H by assumption. inversion H; subst.
    simpl. rewrite ?E. simpl. repeat split; auto; discriminate.
  - rewrite (check_Table _ _ rows) in H by assumption. inversion H; subst.
    rewrite ?E. simpl in Hr.
    destruct (has_name file_name rows) eqn:Hn; [| discriminate].
    simpl. repeat split; auto.
Qed.

Lemma process_blob_skip w w1 b r :
  __check_availablity (name b) w = (Return r, w1) ->
  truthy r = false ->
  process_blob b w =
  (Return tt, add_log (WARNING, name b ++ " has already been processed") w1).
Proof.
  intros H Hr. unfold process_blob.
  rewrite (bind_Return _ _ _ _ _ H), Hr. reflexivity.
Qed.

(** C8. When the ledger check does not report the blob as new (it
    returns [False], or [None] after a logged query failure),
    [process_blob] only adds the warning to the log: nothing is
    downloaded, no scratch file is written, nothing is uploaded and the
    table gets no row.  When the check returned [False] the world is
    the same up to that one log record. *)
Theorem skip_path_only_logs (w w1 : world) (b : blob) (r : option bool) :
  __check_availablity (name b) w = (Return r, w1) ->
  truthy r = false ->
  process_blob b w =
  (Return tt, add_log (WARNING, name b ++ " has already been processed") w1) /\
  (r = Some false -> w1 = w) /\
  container w1 = container w /\
  blob_dir w1 = blob_dir w /\ txt_dir w1 = txt_dir w /\
  index w1 = index w /\ uploads w1 = uploads w /\
  downloads w1 = downloads w /\ uuid_calls w1 = uuid_calls w /\
  rows_of (db w1) = rows_of (db w).
Proof.
  intros H Hr.
  destruct (check_falsy_frame _ _ _ _ H Hr)
    as (_ & H0 & _ & H1 & H2 & H3 & H4 & H5 & H6 & H7 & H8 & _).
  repeat split; auto.
  apply (process_blob_skip _ _ _ r); assumption.
Qed.

(** C8 applied to a blob whose name is in the table. *)
Lemma skip_path_only_logs_witness :
  process_blob (mkBlob "a.pdf" "text")
    (sample_world (Table [(1%Z, "a.pdf")]) [mkBlob "a.pdf" "text"]) =
  (Return tt,
   add_log (WARNING, "a.pdf has already been processed")
     (sample_world (Table [(1%Z, "a.pdf")]) [mkBlob "a.pdf" "text"])).
Proof.
  apply (skip_path_only_logs
           (sample_world (Table [(1%Z, "a.pdf")]) [mkBlob "a.pdf" "text"])
           (sample_world (Table [(1%Z, "a.pdf")]) [mkBlob "a.pdf" "text"])
           (mkBlob "a.pdf" "text") (Some false));
    reflexivity.
Defined.

(** ** The ingestion path *)

Lemma not_self_app {A : Type} (l : list A) (x : A) : l <> (l ++ [x])%list.
Proof.
  intros H. apply (f_equal (@length _)) in H.
  rewrite length_app in H. simpl in H. lia.
Qed.

Lemma lookup_set_file file text d :
  lookup_node file (set_file file text d) = Some (File text).
Proof.
  induction d as [| [n x] rest IH]; simpl.
  - rewrite String.eqb_refl. reflexivity.
  - destruct (String.eqb n file) eqn:E; simpl; rewrite E; auto.
Qed.

Lemma open_write_blob file text w w' :
  open_write ("blob", file) text w = (Return tt, w') ->
  names_directory file (blob_dir w) = false /\
  w' = set_blob_dir (set_file file text (blob_dir w)) w.
Proof.
  unfold open_write, bind, os_listdir. simpl.
  destruct (names_directory file (blob_dir w)); intros H; inversion H.
  auto.
Qed.

Lemma os_remove_blob file text w :
  lookup_node file (blob_dir w) = Some (File text) ->
  os_remove ("blob", file) w =
  (Return tt, set_blob_dir (remove_entry file (blob_dir w)) w).
Proof.
  intros H. unfold os_remove, bind, os_listdir. simpl. rewrite H. reflexivity.
Qed.

Lemma upload_documents_cases docs w :
  (upload_raises (ext w) (length (uploads w)) = true /\
   __upload_documents docs w =
   (Return tt,
    add_log (ERROR, "Failed uploading of documents: upload_documents failed")
            (add_upload (docs, false) w))) \/
  (upload_raises (ext w) (length (uploads w)) = false /\
   __upload_documents docs w =
   (Return tt,
    add_upload (docs, true) (set_index (merge_batch docs (index w)) w))).
Proof.
  unfold __upload_documents, try_except, search_client_upload.
  destruct (upload_raises (ext w) (length (uploads w))); [left | right];
    split; reflexivity.
Qed.

(** [process_blob] on a name the check reports as new: the body of the
    [if]. *)
Lemma process_blob_new w b rows :
  db w = Table rows ->
  has_name (name b) rows = false ->
  process_blob b w =
  (logger_info ("Intializing process for " ++ name b) ;;
   blob_content <- download_blob (name b) ;;
   open_write ("blob", last_segment (name b)) blob_content ;;
   __pdf_to_text ;;
   chunks <- __chunk_text 2048 256 ;;
   docs <- __document_generator chunks (name b) ;;
   logger_info "Uploading documents to the AI search" ;;
   __upload_documents docs ;;
   __insert_new_file_into_db (name b) ;;
   os_remove ("blob", last_segment (name b))) w.
Proof.
  intros E Hn. unfold process_blob.
  rewrite (bind_Return _ _ _ _ _ (check_Table w (name b) rows E)), Hn.
  reflexivity.
Qed.

(** The other cases of [process_blob]: the world it leaves differs from
    the one it found in the log and the creation of the database file
    only. *)
Lemma process_blob_not_new w b r w' :
  (forall rows, db w = Table rows -> has_name (name b) rows = true) ->
  process_blob b w = (r, w') ->
  uploads w' = uploads w /\ index w' = index w /\ downloads w' = downloads w /\
  rows_of (db w') = rows_of (db w).
Proof.
  intros Hn H. unfold process_blob in H.
  destruct (db w) as [| | | rows] eqn:E.
  - rewrite (bind_Raise _ _ _ _ _ (check_Unopenable w (name b) E)) in H.
    inversion H; subst. simpl. rewrite E. auto.
  - rewrite (bind_Return _ _ _ _ _ (check_Absent w (name b) E)) in H.
    inversion H; subst. simpl. auto.
  - rewrite (bind_Return _ _ _ _ _ (check_Empty w (name b) E)) in H.
    inversion H; subst. simpl. rewrite E. auto.
  - rewrite (bind_Return _ _ _ _ _ (check_Table w (name b) rows E)) in H.
    rewrite (Hn rows eq_refl) in H.
    inversion H; subst. simpl. rewrite E. auto.
Qed.

Lemma same_uploads_of_frame w w' :
  ledger_and_index w' = ledger_and_index w -> uploads w' = uploads w.
Proof. unfold ledger_and_index. intros H. inversion H. reflexivity. Qed.

Lemma frame_of_blobs_frame w w' :
  ledger_index_and_blobs w' = ledger_index_and_blobs w ->
  ledger_and_index w' = ledger_and_index w /\ blob_dir w' = blob_dir w.
Proof.
  unfold ledger_index_and_blobs, ledger_and_index. intros H. inversion H.
  split; congruence.
Qed.

(** One step of a sequence that must reach its end: when the step
    raises, the upload request assumed in [Hup] was never made. *)
Ltac pre_upload_step H F Hup lem a wn :=
  let Hs := fresh "Hs" in
  let e := fresh "e" in
  apply bind_inv in H;
  destruct H as [(e & Hs & _) | (a & wn & Hs & H)];
  [ exfalso; apply lem in Hs; unfold same in Hs;
    apply (fun E => eq_trans E F) in Hs;
    apply same_uploads_of_frame in Hs; rewrite Hs in Hup;
    exact (not_self_app _ _ Hup)
  | apply lem in Hs; unfold same in Hs;
    apply (fun E => eq_trans E F) in Hs; clear F;
    rename Hs into F ].

(** C1. Whenever the upload request made for a blob raises,
    [process_blob] still returns normally, having inserted the blob's
    name in the ledger: the error is logged, the index is as it was, and
    the ledger check for this name now returns [False]. *)
Theorem failed_upload_is_still_recorded (w w2 : world) (b : blob)
    (r : outcome unit) (docs : list document) :
  process_blob b w = (r, w2) ->
  uploads w2 = (uploads w ++ [(docs, false)])%list ->
  r = Return tt /\
  (exists rows,
     db w = Table rows /\ has_name (name b) rows = false /\
     db w2 = Table (rows ++ [(next_rowid rows, name b)])) /\
  index w2 = index w /\
  In (ERROR, "Failed uploading of documents: upload_documents failed") (log w2) /\
  __check_availablity (name b) w2 = (Return (Some false), w2).
Proof.
  intros H Hup.
  (* the blob was new: otherwise no upload request is made *)
  assert (exists rows, db w = Table rows /\ has_name (name b) rows = false)
    as (rows & E & Hn).
  { destruct (db w) as [| | | rows] eqn:E;
      try (exfalso;
           apply process_blob_not_new in H as (Hu & _);
           [rewrite Hu in Hup; exact (not_self_app _ _ Hup)
           | intros rows' E'; congruence]).
    destruct (has_name (name b) rows) eqn:Hn; [| eauto].
    exfalso. apply process_blob_not_new in H as (Hu & _).
    - rewrite Hu in Hup. exact (not_self_app _ _ Hup).
    - intros rows' E'. congruence. }
  rewrite (process_blob_new w b rows E Hn) in H.
  assert (F : ledger_and_index w = ledger_and_index w) by reflexivity.
  pre_upload_step H F Hup
    (same_logger_info ledger_and_index (fun _ _ => eq_refl)
       ("Intializing process for " ++ name b)) u1 w1.
  pre_upload_step H F Hup
    (same_download_blob ledger_and_index (fun _ _ => eq_refl) (name b))
    blob_content w2'.
  (* the blob is written to temp/blob *)
  apply bind_inv in H. destruct H as [(e & Hs & _) | ([] & w3 & Hs & H)].
  { exfalso.
    apply (same_open_write ledger_and_index (fun _ _ => eq_refl)
             (fun _ _ => eq_refl)) in Hs.
    unfold same in Hs. apply (fun E => eq_trans E F) in Hs.
    apply same_uploads_of_frame in Hs. rewrite Hs in Hup.
    exact (not_self_app _ _ Hup). }
  pose proof (same_open_write ledger_and_index (fun _ _ => eq_refl)
                (fun _ _ => eq_refl) _ _ _ _ _ Hs) as F3.
  unfold same in F3. apply (fun E => eq_trans E F) in F3. clear F.
  apply open_write_blob in Hs as (_ & Hw3).
  assert (Hfile : lookup_node (last_segment (name b)) (blob_dir w3)
                  = Some (File blob_content)).
  { rewrite Hw3. simpl. apply lookup_set_file. }
  clear Hw3.
  (* extraction, chunking and document building keep temp/blob *)
  assert (G : ledger_index_and_blobs w3 = ledger_index_and_blobs w3)
    by reflexivity.
  assert (Hup3 : uploads w2 = (uploads w3 ++ [(docs, false)])%list).
  { rewrite (same_uploads_of_frame _ _ F3). assumption. }
  assert (step : forall w4 w5 : world,
            ledger_index_and_blobs w4 = ledger_index_and_blobs w3 ->
            ledger_and_index w5 = ledger_and_index w4 ->
            ledger_and_index w5 = ledger_and_index w3).
  { intros w4 w5 H4 H5. apply frame_of_blobs_frame in H4 as (H4 & _).
    congruence. }
  apply bind_inv in H. destruct H as [(e & Hs & _) | ([] & w4 & Hs & H)].
  { exfalso.
    apply (same_pdf_to_text ledger_and_index (fun _ _ => eq_refl)
             (fun _ _ => eq_refl)) in Hs.
    apply same_uploads_of_frame in Hs. rewrite Hs in Hup3.
    exact (not_self_app _ _ Hup3). }
  apply (same_pdf_to_text ledger_index_and_blobs (fun _ _ => eq_refl)
           (fun _ _ => eq_refl)) in Hs.
  unfold same in Hs. rename Hs into G4. clear G.
  apply bind_inv in H. destruct H as [(e & Hs & _) | (chunks & w5 & Hs & H)].
  { exfalso.
    apply (same_chunk_text ledger_and_index (fun _ _ => eq_refl)) in Hs.
    apply (step _ _ G4), same_uploads_of_frame in Hs. rewrite Hs in Hup3.
    exact (not_self_app _ _ Hup3). }
  apply (same_chunk_text ledger_index_and_blobs (fun _ _ => eq_refl)) in Hs.
  unfold same in Hs. apply (fun E => eq_trans E G4) in Hs.
  rename Hs into G5. clear G4.
  apply bind_inv in H. destruct H as [(e & Hs & _) | (docs' & w6 & Hs & H)].
  { exfalso.
    apply (same_document_generator ledger_and_index (fun _ _ => eq_refl)
             (fun _ => eq_refl)) in Hs.
    apply (step _ _ G5), same_uploads_of_frame in Hs. rewrite Hs in Hup3.
    exact (not_self_app _ _ Hup3). }
  apply (same_document_generator ledger_index_and_blobs (fun _ _ => eq_refl)
           (fun _ => eq_refl)) in Hs.
  unfold same in Hs. apply (fun E => eq_trans E G5) in Hs.
  rename Hs into G6. clear G5.
  apply bind_inv in H. destruct H as [(e & Hs & _) | ([] & w7 & Hs & H)].
  { exfalso.
    apply (same_logger_info ledger_and_index (fun _ _ => eq_refl)) in Hs.
    apply (step _ _ G6), same_uploads_of_frame in Hs. rewrite Hs in Hup3.
    exact (not_self_app _ _ Hup3). }
  apply (same_logger_info ledger_index_and_blobs (fun _ _ => eq_refl)) in Hs.
  unfold same in Hs. apply (fun E => eq_trans E G6) in Hs.
  rename Hs into G7. clear G6.
  apply frame_of_blobs_frame in G7 as (F7 & B7).
  assert (F7' : ledger_and_index w7 = ledger_and_index w) by congruence.
  unfold ledger_and_index in F7'. inversion F7' as [[Hdb Hupl Hidx]].
  (* the upload request *)
  destruct (upload_documents_cases docs' w7) as [[_ Hu] | [_ Hu]];
    rewrite (bind_Return _ _ _ _ _ Hu) in H.
  - (* it raised: the error is logged and the method returns *)
    clear Hu. cbv beta in H.
    match type of H with
    | bind _ _ ?w8 = _ =>
        assert (E8 : db w8 = Table rows) by (simpl; congruence);
        rewrite (bind_Return _ _ _ _ _ (insert_Table w8 (name b) rows E8)) in H
    end.
    rewrite (os_remove_blob _ blob_content) in H
      by (simpl; rewrite B7; exact Hfile).
    inversion H; subst r w2. simpl.
    split; [reflexivity |].
    split; [exists rows; auto |].
    split; [congruence |].
    split; [apply in_or_app; right; left; reflexivity |].
    erewrite check_Table by (simpl; reflexivity).
    rewrite has_name_app. simpl. rewrite String.eqb_refl, orb_true_r.
    reflexivity.
  - (* it was accepted: then the request recorded is not a failed one *)
    exfalso.
    assert (Hrest : uploads w2 = (uploads w7 ++ [(docs', true)])%list).
    { assert (K : keeps (same uploads)
                    (__insert_new_file_into_db (name b) ;;
                     os_remove ("blob", last_segment (name b)))).
      { apply keeps_bind; [auto with frames | | intros _].
        - apply same_insert_new_file; reflexivity.
        - apply same_os_remove; reflexivity. }
      apply K in H. unfold same in H. rewrite H. reflexivity. }
    rewrite Hupl, Hup in Hrest. apply app_inv_head in Hrest. discriminate.
Qed.

(** C1 applied to a new blob and a search service that refuses the
    upload. *)
Lemma failed_upload_is_still_recorded_witness :
  fst (process_blob (mkBlob "a.pdf" "text")
         (refusing_world (Table []) [mkBlob "a.pdf" "text"])) = Return tt /\
  (exists rows,
     db (refusing_world (Table []) [mkBlob "a.pdf" "text"]) = Table rows /\
     has_name "a.pdf" rows = false /\
     db (snd (process_blob (mkBlob "a.pdf" "text")
                (refusing_world (Table []) [mkBlob "a.pdf" "text"]))) =
     Table (rows ++ [(next_rowid rows, "a.pdf")])) /\
  index (snd (process_blob (mkBlob "a.pdf" "text")
                (refusing_world (Table []) [mkBlob "a.pdf" "text"]))) = [] /\
  In (ERROR, "Failed uploading of documents: upload_documents failed")
     (log (snd (process_blob (mkBlob "a.pdf" "text")
                  (refusing_world (Table []) [mkBlob "a.pdf" "text"])))) /\
  __check_availablity "a.pdf"
    (snd (process_blob (mkBlob "a.pdf" "text")
            (refusing_world (Table []) [mkBlob "a.pdf" "text"]))) =
  (Return (Some false),
   snd (process_blob (mkBlob "a.pdf" "text")
          (refusing_world (Table []) [mkBlob "a.pdf" "text"]))).
Proof.
  apply (failed_upload_is_still_recorded
           (refusing_world (Table []) [mkBlob "a.pdf" "text"])
           (snd (process_blob (mkBlob "a.pdf" "text")
                   (refusing_world (Table []) [mkBlob "a.pdf" "text"])))
           (mkBlob "a.pdf" "text")
           (fst (process_blob (mkBlob "a.pdf" "text")
                   (refusing_world (Table []) [mkBlob "a.pdf" "text"])))
           [mkDocument "00000000" "text" "a.pdf"]);
    vm_compute; reflexivity.
Defined.

(** ** Either permission

    With [ReadWrite] the methods of [FileAccess] are the methods of the
    first part. *)

Lemma bind_ext {A B : Type} (m m' : M A) (k k' : A -> M B) w :
  m w = m' w -> (forall a w1, k a w1 = k' a w1) ->
  bind m k w = bind m' k' w.
Proof.
  unfold bind. intros -> Hk. destruct (m' w) as [[a | e] w1]; auto.
Qed.

Lemma for_each_ext {A : Type} (body body' : A -> M unit) items w :
  (forall x w1, body x w1 = body' x w1) ->
  for_each body items w = for_each body' items w.
Proof.
  intros Hb. revert w. induction items as [| x rest IH]; intros w; simpl.
  - reflexivity.
  - apply bind_ext; auto.
Qed.

Lemma read_write_connect w :
  FileAccess.sqlite3_connect FileAccess.ReadWrite w = sqlite3_connect w.
Proof.
  unfold FileAccess.sqlite3_connect, sqlite3_connect.
  destruct (db w); reflexivity.
Qed.

Lemma read_write_sql_insert file_name w :
  FileAccess.sql_insert FileAccess.ReadWrite file_name w = sql_insert file_name w.
Proof.
  unfold FileAccess.sql_insert, sql_insert. destruct (db w); reflexivity.
Qed.

Lemma read_write_with_connection {A : Type} (body body' : M A) handler w :
  (forall w1, body w1 = body' w1) ->
  FileAccess.with_connection FileAccess.ReadWrite body handler w =
  with_connection body' handler w.
Proof.
  intros Hb.
  unfold FileAccess.with_connection, with_connection, FileAccess.try_finally,
    try_except, bind.
  rewrite read_write_connect.
  destruct (sqlite3_connect w) as [[[] | e] w1]; simpl.
  - rewrite Hb. destruct (body' w1) as [[x | e] w2]; simpl.
    + reflexivity.
    + destruct (handler e w2) as [r w3]. reflexivity.
  - destruct (handler e w1) as [r w2]. reflexivity.
Qed.

Lemma read_write_insert_new_file file_name w :
  FileAccess.__insert_new_file_into_db FileAccess.ReadWrite file_name w =
  __insert_new_file_into_db file_name w.
Proof.
  apply read_write_with_connection. apply read_write_sql_insert.
Qed.

Lemma read_write_check_availablity file_name w :
  FileAccess.__check_availablity FileAccess.ReadWrite file_name w =
  __check_availablity file_name w.
Proof. apply read_write_with_connection. reflexivity. Qed.

Lemma read_write_create_sqlite_database w :
  FileAccess.__create_sqlite_database FileAccess.ReadWrite w =
  __create_sqlite_database w.
Proof.
  unfold FileAccess.__create_sqlite_database, __create_sqlite_database,
    FileAccess.try_finally, try_except, bind, logger_info, logger_warn,
    modify, gets, FileAccess.sqlite3_connect, FileAccess.sql_create_table.
  destruct w as [e d c bd td ix up dl uc lg]. destruct d; reflexivity.
Qed.

Lemma read_write_process_blob b w :
  FileAccess.process_blob FileAccess.ReadWrite b w = process_blob b w.
Proof.
  unfold FileAccess.process_blob, process_blob.
  apply bind_ext; [apply read_write_check_availablity |].
  intros new w1. destruct (truthy new); [| reflexivity].
  repeat (apply bind_ext; [reflexivity | intros ? ?]).
  apply bind_ext; [apply read_write_insert_new_file | reflexivity].
Qed.

Lemma read_write_trigger_pipeline w :
  FileAccess.trigger_pipeline FileAccess.ReadWrite w = trigger_pipeline w.
Proof.
  unfold FileAccess.trigger_pipeline, trigger_pipeline.
  apply bind_ext; [reflexivity | intros _ w1].
  apply bind_ext; [reflexivity | intros blobs w2].
  apply for_each_ext. apply read_write_process_blob.
Qed.

Lemma read_write_init p v w :
  FileAccess.__init__ FileAccess.ReadWrite p v w = __init__ p v w.
Proof.
  unfold FileAccess.__init__, __init__.
  apply bind_ext; [reflexivity | intros _ w1].
  apply bind_ext; [apply read_write_create_sqlite_database | reflexivity].
Qed.

(** ** Running the pipeline twice *)

Lemma bind_inv_Return {A B : Type} (m : M A) (k : A -> M B) w (b : B) w' :
  bind m k w = (Return b, w') ->
  exists a w1, m w = (Return a, w1) /\ k a w1 = (Return b, w').
Proof.
  intros H. apply bind_inv in H as [(e & _ & He) | H]; [discriminate | exact H].
Qed.

(** What no method of the pipeline writes to stays as it is. *)
Section Untouched.
Context {X : Type} (f : world -> X).
Hypothesis f_log : forall r w, f (add_log r w) = f w.
Hypothesis f_db : forall d w, f (set_db d w) = f w.
Hypothesis f_blob_dir : forall d w, f (set_blob_dir d w) = f w.
Hypothesis f_txt_dir : forall d w, f (set_txt_dir d w) = f w.
Hypothesis f_download : forall b w, f (add_download b w) = f w.
Hypothesis f_uuid : forall w, f (tick_uuid w) = f w.
Hypothesis f_upload : forall u w, f (add_upload u w) = f w.
Hypothesis f_index : forall i w, f (set_index i w) = f w.

Lemma same_process_blob b : keeps (same f) (process_blob b).
Proof.
  pose proof (same_logger_info f f_log).
  pose proof (same_logger_warn f f_log).
  pose proof (same_check_availablity f f_log f_db).
  pose proof (same_insert_new_file f f_log f_db).
  pose proof (same_download_blob f f_download).
  pose proof (same_open_write f f_blob_dir f_txt_dir).
  pose proof (same_os_remove f f_blob_dir f_txt_dir).
  pose proof (same_pdf_to_text f f_log f_txt_dir).
  pose proof (same_chunk_text f f_log).
  pose proof (same_document_generator f f_log f_uuid).
  pose proof (same_upload_documents f f_log f_upload f_index).
  unfold process_blob. keeps_auto.
Qed.

Lemma same_trigger_pipeline : keeps (same f) trigger_pipeline.
Proof.
  pose proof (same_logger_info f f_log). pose proof same_process_blob.
  unfold trigger_pipeline, __get_blobs_list. keeps_auto.
Qed.
End Untouched.

(** A blob that [process_blob] has dealt with is skipped from then on. *)
Lemma process_blob_returns_skips w b w' :
  process_blob b w = (Return tt, w') -> skips (name b) (db w').
Proof.
  intros H. destruct (db w) as [| | | rows] eqn:E.
  - unfold process_blob in H.
    rewrite (bind_Raise _ _ _ _ _ (check_Unopenable w (name b) E)) in H.
    discriminate.
  - unfold process_blob in H.
    rewrite (bind_Return _ _ _ _ _ (check_Absent w (name b) E)) in H.
    inversion H; subst. simpl. exact I.
  - unfold process_blob in H.
    rewrite (bind_Return _ _ _ _ _ (check_Empty w (name b) E)) in H.
    inversion H; subst. simpl. rewrite E. exact I.
  - destruct (has_name (name b) rows) eqn:Hn.
    + unfold process_blob in H.
      rewrite (bind_Return _ _ _ _ _ (check_Table w (name b) rows E)), Hn in H.
      inversion H; subst. simpl. rewrite E. exact Hn.
    + rewrite (process_blob_new w b rows E Hn) in H.
      apply bind_inv_Return in H as (u1 & w1 & H1 & H).
      apply (same_logger_info db (fun _ _ => eq_refl)) in H1.
      apply bind_inv_Return in H as (blob_content & w2 & H2 & H).
      apply (same_download_blob db (fun _ _ => eq_refl)) in H2.
      apply bind_inv_Return in H as (u3 & w3 & H3 & H).
      apply (same_open_write db (fun _ _ => eq_refl) (fun _ _ => eq_refl))
        in H3.
      apply bind_inv_Return in H as (u4 & w4 & H4 & H).
      apply (same_pdf_to_text db (fun _ _ => eq_refl) (fun _ _ => eq_refl))
        in H4.
      apply bind_inv_Return in H as (chunks & w5 & H5 & H).
      apply (same_chunk_text db (fun _ _ => eq_refl)) in H5.
      apply bind_inv_Return in H as (docs & w6 & H6 & H).
      apply (same_document_generator db (fun _ _ => eq_refl)
               (fun _ => eq_refl)) in H6.
      apply bind_inv_Return in H as (u7 & w7 & H7 & H).
      apply (same_logger_info db (fun _ _ => eq_refl)) in H7.
      apply bind_inv_Return in H as (u8 & w8 & H8 & H).
      apply (same_upload_documents db (fun _ _ => eq_refl)
               (fun _ _ => eq_refl) (fun _ _ => eq_refl)) in H8.
      apply bind_inv_Return in H as (u9 & w9 & H9 & H).
      apply (same_os_remove db (fun _ _ => eq_refl) (fun _ _ => eq_refl)) in H.
      unfold same in *.
      assert (E8 : db w8 = Table rows) by congruence.
      rewrite (insert_Table _ _ rows E8) in H9. inversion H9; subst w9.
      rewrite H. simpl. rewrite has_name_app. simpl.
      rewrite String.eqb_refl. apply orb_true_r.
Qed.

Lemma skips_upward n b : keeps (upward (fun w => skips n (db w))) (process_blob b).
Proof.
  apply (up_process_blob (skips n)).
  - intros rows m H. simpl in *. rewrite has_name_app, H. reflexivity.
  - intros _. exact I.
Qed.

(** After a run that returned, every listed blob is one the ledger
    check no longer reports as new. *)
Lemma first_run_skips blobs w w' :
  for_each process_blob blobs w = (Return tt, w') ->
  forall b, In b blobs -> skips (name b) (db w').
Proof.
  revert w. induction blobs as [| x rest IH]; intros w H b Hin.
  - destruct Hin.
  - simpl in H. apply bind_inv_Return in H as ([] & w1 & H1 & H).
    destruct Hin as [-> | Hin].
    + apply process_blob_returns_skips in H1.
      eapply (keeps_for_each (upward (fun w => skips (name b) (db w))));
        eauto using upward_preorder, skips_upward.
    + eapply IH; eauto.
Qed.

Lemma skips_check n w :
  skips n (db w) ->
  exists r w1, __check_availablity n w = (Return r, w1) /\ truthy r = false.
Proof.
  intros H. destruct (db w) as [| | | rows] eqn:E; simpl in H.
  - destruct H.
  - rewrite check_Absent by assumption. eauto.
  - rewrite check_Empty by assumption. eauto.
  - rewrite (check_Table _ _ rows) by assumption. rewrite H. eauto.
Qed.

(** The run over blobs that are all skipped: it returns, and nothing
    but the log (and the creation of a missing database file) changes. *)
Lemma all_skipped_run blobs w :
  (forall b, In b blobs -> skips (name b) (db w)) ->
  exists w',
    for_each process_blob blobs w = (Return tt, w') /\
    container w' = container w /\
    blob_dir w' = blob_dir w /\ txt_dir w' = txt_dir w /\
    index w' = index w /\ uploads w' = uploads w /\
    downloads w' = downloads w /\ uuid_calls w' = uuid_calls w /\
    rows_of (db w') = rows_of (db w).
Proof.
  revert w. induction blobs as [| x rest IH]; intros w Hall.
  - exists w. simpl. repeat split; reflexivity.
  - destruct (skips_check (name x) w (Hall x (or_introl eq_refl)))
      as (r & w1 & Hc & Hr).
    destruct (check_falsy_frame _ _ _ _ Hc Hr)
      as (_ & _ & _ & F1 & F2 & F3 & F4 & F5 & F6 & F7 & F8 & Hmono).
    pose proof (process_blob_skip _ _ _ _ Hc Hr) as Hp.
    destruct (IH (add_log (WARNING, name x ++ " has already been processed") w1))
      as (w' & Hrun & G1 & G2 & G3 & G4 & G5 & G6 & G7 & G8).
    { intros b Hin. simpl. apply Hmono, Hall. right. assumption. }
    exists w'. simpl. rewrite (bind_Return _ _ _ _ _ Hp).
    simpl in *. repeat split; congruence.
Qed.

(** The second run, for the methods of the first part. *)
Lemma second_run_with_write_access (w w1 : world) :
  trigger_pipeline w = (Return tt, w1) ->
  exists w2,
    trigger_pipeline w1 = (Return tt, w2) /\
    container w1 = container w /\
    (forall b, In b (container w1) ->
       exists r w', __check_availablity (name b) w1 = (Return r, w') /\
                    truthy r = false) /\
    (forall rows, db w = Table rows ->
       forall b, In b (container w1) ->
         __check_availablity (name b) w1 = (Return (Some false), w1)) /\
    uploads w2 = uploads w1 /\ downloads w2 = downloads w1 /\
    index w2 = index w1 /\ uuid_calls w2 = uuid_calls w1 /\
    blob_dir w2 = blob_dir w1 /\ txt_dir w2 = txt_dir w1 /\
    rows_of (db w2) = rows_of (db w1).
Proof.
  intros H.
  assert (Hcont : container w1 = container w).
  { apply (same_trigger_pipeline container) in H; auto. }
  assert (Hskips : forall b, In b (container w1) -> skips (name b) (db w1)).
  { rewrite Hcont. unfold trigger_pipeline in H.
    apply bind_inv_Return in H as (u & w0 & H0 & H).
    apply bind_inv_Return in H as (blobs & w0' & Hb & H).
    inversion H0; subst w0. inversion Hb; subst blobs w0'. simpl in H.
    eapply first_run_skips; eauto. }
  destruct (all_skipped_run (container w1)
              (add_log (INFO, "Pipeline Triggered") w1))
    as (w2 & Hrun & G1 & G2 & G3 & G4 & G5 & G6 & G7 & G8).
  { intros b Hin. simpl. auto. }
  exists w2. simpl in *.
  split; [exact Hrun |].
  split; [exact Hcont |].
  split; [intros b Hin; apply skips_check; auto |].
  split; [| repeat split; assumption].
  intros rows E b Hin.
  assert (Ht : exists rows1, db w1 = Table rows1).
  { apply (up_trigger_pipeline (fun d => exists rows1, d = Table rows1))
      in H; eauto.
    intros [rows1 E1]. discriminate. }
  destruct Ht as (rows1 & E1). specialize (Hskips b Hin).
  rewrite E1 in Hskips. simpl in Hskips.
  rewrite (check_Table _ _ rows1 E1), Hskips. reflexivity.
Qed.

(** C2, as the code has it.  When the ledger file can be written and a
    run of [trigger_pipeline] returned, a second run on the same
    container returns too and ingests nothing: the ledger check of
    every listed blob yields a falsy value ([False] itself when the
    ledger table exists), so nothing is downloaded, no document is
    built or uploaded, the index is unchanged and the ledger gets no
    new row. *)
Theorem second_run_ingests_nothing (a : FileAccess.access) (w w1 : world) :
  a = FileAccess.ReadWrite ->
  FileAccess.trigger_pipeline a w = (Return tt, w1) ->
  exists w2,
    FileAccess.trigger_pipeline a w1 = (Return tt, w2) /\
    container w1 = container w /\
    (forall b, In b (container w1) ->
       exists r w',
         FileAccess.__check_availablity a (name b) w1 = (Return r, w') /\
         truthy r = false) /\
    (forall rows, db w = Table rows ->
       forall b, In b (container w1) ->
         FileAccess.__check_availablity a (name b) w1 =
         (Return (Some false), w1)) /\
    uploads w2 = uploads w1 /\ downloads w2 = downloads w1 /\
    index w2 = index w1 /\ uuid_calls w2 = uuid_calls w1 /\
    blob_dir w2 = blob_dir w1 /\ txt_dir w2 = txt_dir w1 /\
    rows_of (db w2) = rows_of (db w1).
Proof.
  intros -> H. rewrite read_write_trigger_pipeline in H.
  destruct (second_run_with_write_access w w1 H)
    as (w2 & Hrun & Hcont & Hfalsy & Hfalse & Hrest).
  exists w2. rewrite read_write_trigger_pipeline.
  split; [exact Hrun |]. split; [exact Hcont |].
  split; [| split; [| exact Hrest]].
  - intros b Hin. rewrite read_write_check_availablity. auto.
  - intros rows E b Hin. rewrite read_write_check_availablity. eauto.
Qed.

(** C2, where it fails.  With a ledger file that cannot be written the
    first run returns, the failed INSERT having been logged and
    dropped; in the second run the check reports the blob as new
    again, and it is downloaded and uploaded a second time.  And after
    a first run that raised, on a ledger that can be written, the
    check of the blob it stopped at does not return [False] either. *)
Lemma unwritable_ledger_is_ingested_twice :
  (fst (FileAccess.trigger_pipeline FileAccess.ReadOnly
          (sample_world (Table []) [mkBlob "a.pdf" "text"])) = Return tt /\
   fst (FileAccess.__check_availablity FileAccess.ReadOnly "a.pdf"
          (snd (FileAccess.trigger_pipeline FileAccess.ReadOnly
                  (sample_world (Table []) [mkBlob "a.pdf" "text"])))) =
   Return (Some true) /\
   fst (FileAccess.trigger_pipeline FileAccess.ReadOnly
          (snd (FileAccess.trigger_pipeline FileAccess.ReadOnly
                  (sample_world (Table []) [mkBlob "a.pdf" "text"])))) =
   Return tt /\
   uploads
     (snd (FileAccess.trigger_pipeline FileAccess.ReadOnly
             (snd (FileAccess.trigger_pipeline FileAccess.ReadOnly
                     (sample_world (Table []) [mkBlob "a.pdf" "text"]))))) =
   [([mkDocument "00000000" "text" "a.pdf"], true);
    ([mkDocument "00000000" "text" "a.pdf"], true)] /\
   downloads
     (snd (FileAccess.trigger_pipeline FileAccess.ReadOnly
             (snd (FileAccess.trigger_pipeline FileAccess.ReadOnly
                     (sample_world (Table []) [mkBlob "a.pdf" "text"]))))) =
   ["a.pdf"; "a.pdf"]) /\
  (fst (FileAccess.trigger_pipeline FileAccess.ReadWrite
          (unreadable_world (Table []) [mkBlob "a.pdf" "text"])) =
   Raise (LoaderError "temp/blob/a.pdf") /\
   fst (FileAccess.__check_availablity FileAccess.ReadWrite "a.pdf"
          (snd (FileAccess.trigger_pipeline FileAccess.ReadWrite
                  (unreadable_world (Table []) [mkBlob "a.pdf" "text"])))) =
   Return (Some true)).
Proof. repeat split; vm_compute; reflexivity. Qed.

(** C2 applied to a container of two blobs and an empty ledger that
    can be written: the first run ingests both, the second neither. *)
Lemma second_run_ingests_nothing_witness :
  exists w2,
    FileAccess.trigger_pipeline FileAccess.ReadWrite
      (snd (FileAccess.trigger_pipeline FileAccess.ReadWrite
              (sample_world (Table [])
                 [mkBlob "docs/a.pdf" "alpha"; mkBlob "b.txt" "beta"]))) =
    (Return tt, w2) /\
    uploads w2 =
    uploads (snd (FileAccess.trigger_pipeline FileAccess.ReadWrite
                    (sample_world (Table [])
                       [mkBlob "docs/a.pdf" "alpha"; mkBlob "b.txt" "beta"]))) /\
    rows_of (db w2) = [(1%Z, "docs/a.pdf"); (2%Z, "b.txt")].
Proof.
  destruct (second_run_ingests_nothing FileAccess.ReadWrite
              (sample_world (Table [])
                 [mkBlob "docs/a.pdf" "alpha"; mkBlob "b.txt" "beta"])
              (snd (FileAccess.trigger_pipeline FileAccess.ReadWrite
                      (sample_world (Table [])
                         [mkBlob "docs/a.pdf" "alpha"; mkBlob "b.txt" "beta"])))
              eq_refl)
    as (w2 & Hrun & _ & _ & _ & Hup & _ & _ & _ & _ & _ & Hrows).
  - vm_compute. reflexivity.
  - exists w2. split; [exact Hrun |]. split; [exact Hup |].
    rewrite Hrows. vm_compute. reflexivity.
Defined.

(** ** Identifiers of the documents *)

Lemma append_assoc (a b c : string) : (a ++ b) ++ c = a ++ (b ++ c).
Proof. induction a as [| x a IH]; simpl; [reflexivity | rewrite IH; reflexivity]. Qed.

Lemma append_empty_r (a : string) : a ++ "" = a.
Proof. induction a as [| x a IH]; simpl; [reflexivity | rewrite IH; reflexivity]. Qed.

Lemma length_append (a b : string) :
  String.length (a ++ b) = String.length a + String.length b.
Proof. induction a as [| x a IH]; simpl; [reflexivity | rewrite IH; reflexivity]. Qed.

Lemma substring_0_append (a b : string) :
  substring 0 (String.length a) (a ++ b) = a.
Proof.
  induction a as [| x a IH]; simpl.
  - destruct b; reflexivity.
  - rewrite IH. reflexivity.
Qed.

Lemma append_last_inj (a b : string) (x y : ascii) :
  a ++ String x "" = b ++ String y "" -> a = b /\ x = y.
Proof.
  revert b. induction a as [| c a IH]; intros [| d b] H; simpl in H.
  - inversion H. auto.
  - inversion H as [[H1 H2]]. destruct b; discriminate.
  - inversion H as [[H1 H2]]. destruct a; discriminate.
  - inversion H as [[H1 H2]]. apply IH in H2 as [-> ->]. auto.
Qed.

Lemma split_char_hd sep (a rest : string) :
  free_of sep a ->
  hd EmptyString (split_char sep (a ++ String sep rest)) = a.
Proof.
  induction a as [| c a IH]; simpl.
  - intros _. rewrite Ascii.eqb_refl. reflexivity.
  - intros [Hc Ha]. rewrite Hc. specialize (IH Ha).
    destruct (split_char sep (a ++ String sep rest)) as [| h t]; simpl in *.
    + subst a. reflexivity.
    + rewrite IH. reflexivity.
Qed.

Lemma free_of_append sep (a b : string) :
  free_of sep a -> free_of sep b -> free_of sep (a ++ b).
Proof. induction a as [| c a IH]; simpl; [auto | intros [? ?] ?; auto]. Qed.

Lemma hex_digit_cases (n : N) :
  (n < 16 /\ hex_value (hex_digit n) = n \/ 16 <= n /\ hex_digit n = "f"%char)%N /\
  Ascii.eqb (hex_digit n) "-" = false.
Proof.
  destruct n as [| p]; [split; [left; split; [lia | reflexivity] | reflexivity] |].
  destruct p as [p | p |]; [| |split; [left; split; [lia | reflexivity] | reflexivity]];
  (destruct p as [p | p |]; [| |split; [left; split; [lia | reflexivity] | reflexivity]]);
  (destruct p as [p | p |]; [| |split; [left; split; [lia | reflexivity] | reflexivity]]);
  (destruct p as [p | p |];
   [| | split; [left; split; [lia | reflexivity] | reflexivity]]);
  (split; [right; split; [lia | reflexivity] | reflexivity]).
Qed.

Lemma hex_S k v :
  hex (S k) v = hex k (v / 16) ++ String (hex_digit (v mod 16)) "".
Proof. reflexivity. Qed.

Lemma hex_length k v : String.length (hex k v) = k.
Proof.
  revert v. induction k as [| k IH]; intros v; simpl; [reflexivity |].
  rewrite length_append, IH. simpl. lia.
Qed.

Lemma hex_free_of_dash k v : free_of "-" (hex k v).
Proof.
  revert v. induction k as [| k IH]; intros v; simpl; [exact I |].
  apply free_of_append; [apply IH |]. simpl.
  split; [apply hex_digit_cases | exact I].
Qed.

Lemma hex_append k j v :
  hex (k + j) v = hex k (v / 16 ^ N.of_nat j) ++ hex j v.
Proof.
  revert v. induction j as [| j IH]; intros v.
  - rewrite Nat.add_0_r. simpl. rewrite N.div_1_r, append_empty_r. reflexivity.
  - rewrite Nat.add_succ_r, !hex_S, IH, append_assoc.
    rewrite Nat2N.inj_succ, N.pow_succ_r', N.Div0.div_div. reflexivity.
Qed.

Lemma hex_mod k v : hex k (v mod 16 ^ N.of_nat k) = hex k v.
Proof.
  revert v. induction k as [| k IH]; intros v; [reflexivity |].
  rewrite !hex_S, Nat2N.inj_succ, N.pow_succ_r'.
  assert (H16 : (16 ^ N.of_nat k <> 0)%N) by (apply N.pow_nonzero; lia).
  rewrite N.Div0.mod_mul_r.
  replace ((v mod 16 + 16 * ((v / 16) mod 16 ^ N.of_nat k)) / 16)%N
    with ((v / 16) mod 16 ^ N.of_nat k)%N.
  - rewrite IH, (N.mul_comm 16), N.Div0.mod_add, N.Div0.mod_mod.
    reflexivity.
  - rewrite (N.mul_comm 16), N.div_add by lia.
    rewrite (N.div_small (v mod 16) 16) by (apply N.mod_lt; lia).
    reflexivity.
Qed.

Lemma hex_inj k a b :
  hex k a = hex k b -> (a mod 16 ^ N.of_nat k = b mod 16 ^ N.of_nat k)%N.
Proof.
  revert a b. induction k as [| k IH]; intros a b H.
  - simpl. rewrite !N.mod_1_r. reflexivity.
  - rewrite !hex_S in H. apply append_last_inj in H as [H Hd].
    apply IH in H.
    assert (Hm : (a mod 16 = b mod 16)%N).
    { destruct (hex_digit_cases (a mod 16)) as [[[_ Ha] | [Ha _]] _];
        [| pose proof (N.mod_lt a 16); lia].
      destruct (hex_digit_cases (b mod 16)) as [[[_ Hb] | [Hb _]] _];
        [| pose proof (N.mod_lt b 16); lia].
      congruence. }
    rewrite Nat2N.inj_succ, N.pow_succ_r', !N.Div0.mod_mul_r. congruence.
Qed.

(** [str(unique_id).split('-')[0]] is the field [time_low] of the
    identifier, in eight hexadecimal digits. *)
Lemma short_id_time_low (u : N) : short_id u = hex 8 (time_low u).
Proof.
  unfold short_id, uuid_str, time_low.
  change (2 ^ 32)%N with (16 ^ N.of_nat 8)%N. rewrite hex_mod.
  change (2 ^ 96)%N with (16 ^ N.of_nat 24)%N.
  change 32 with (8 + 24). rewrite hex_append. cbv zeta.
  pose proof (substring_0_append (hex 8 (u / 16 ^ N.of_nat 24)) (hex 24 u)) as H.
  rewrite hex_length in H. rewrite H.
  change ("-" ++ ?x) with (String "-" x).
  apply split_char_hd, hex_free_of_dash.
Qed.

Lemma short_id_inj (u v : N) :
  short_id u = short_id v <-> time_low u = time_low v.
Proof.
  rewrite !short_id_time_low. split; [| congruence].
  intros H. apply hex_inj in H. unfold time_low in *.
  change (16 ^ N.of_nat 8)%N with (2 ^ 32)%N in H.
  rewrite !N.Div0.mod_mod in H. exact H.
Qed.

(** ** The document builder *)

Lemma generate_eq chunks file_name documents w :
  exists w',
    generate chunks file_name documents w =
    (Return (documents ++
             documents_from (uuid1 (ext w)) (uuid_calls w) chunks file_name)%list,
     w').
Proof.
  revert documents w.
  induction chunks as [| chunk rest IH]; intros documents w; simpl.
  - exists w. rewrite app_nil_r. reflexivity.
  - unfold bind, uuid_uuid1, logger_info, modify. simpl.
    destruct (IH (documents ++
                  [mkDocument (short_id (uuid1 (ext w) (uuid_calls w)))
                     chunk file_name])%list
                 (add_log
                    (INFO, "Generation of documents successfully completed.")
                    (tick_uuid w))) as (w' & E).
    exists w'. rewrite E. simpl. rewrite <- app_assoc. reflexivity.
Qed.

Lemma document_generator_eq chunks file_name w :
  exists w',
    __document_generator chunks file_name w =
    (Return (documents_from (uuid1 (ext w)) (uuid_calls w) chunks file_name),
     w').
Proof.
  unfold __document_generator, try_except, bind, logger_info, modify.
  destruct (generate_eq chunks file_name []
              (add_log (INFO, "Generating documents for the chunks") w))
    as (w' & E).
  exists w'. rewrite E. reflexivity.
Qed.

Lemma documents_from_spec gen k chunks file_name :
  length (documents_from gen k chunks file_name) = length chunks /\
  map content (documents_from gen k chunks file_name) = chunks /\
  (forall d, In d (documents_from gen k chunks file_name) ->
             metadata_storage_path d = file_name) /\
  map id (documents_from gen k chunks file_name) =
  map (fun n => short_id (gen n)) (seq k (length chunks)).
Proof.
  revert k. induction chunks as [| c rest IH]; intros k; simpl.
  - repeat split; auto. intros d [].
  - destruct (IH (S k)) as (H1 & H2 & H3 & H4).
    repeat split; try congruence.
    intros d [<- | Hin]; auto.
Qed.

(** C6, as the code has it.  [__document_generator] returns one
    document per chunk, in order, each with the chunk as [content] and
    the file name as [metadata_storage_path]; the [id] is the eight
    hexadecimal digits of the field [time_low] of the identifier
    generated for the chunk, so the ids are pairwise distinct exactly
    when these fields are. *)
Theorem document_generator_spec (w : world) (chunks : list string)
    (file_name : string) :
  exists docs w',
    __document_generator chunks file_name w = (Return docs, w') /\
    length docs = length chunks /\
    map content docs = chunks /\
    (forall d, In d docs -> metadata_storage_path d = file_name) /\
    map id docs =
    map (fun k => hex 8 (time_low (uuid1 (ext w) k)))
        (seq (uuid_calls w) (length chunks)) /\
    (NoDup (map id docs) <->
     NoDup (map (fun k => time_low (uuid1 (ext w) k))
                (seq (uuid_calls w) (length chunks)))).
Proof.
  destruct (document_generator_eq chunks file_name w) as (w' & E).
  destruct (documents_from_spec (uuid1 (ext w)) (uuid_calls w) chunks file_name)
    as (H1 & H2 & H3 & H4).
  assert (Hids :
    map id (documents_from (uuid1 (ext w)) (uuid_calls w) chunks file_name) =
    map (fun t => hex 8 t)
        (map (fun k => time_low (uuid1 (ext w) k))
             (seq (uuid_calls w) (length chunks)))).
  { rewrite H4, map_map. apply map_ext. intros k. apply short_id_time_low. }
  exists (documents_from (uuid1 (ext w)) (uuid_calls w) chunks file_name), w'.
  split; [exact E |]. split; [exact H1 |]. split; [exact H2 |].
  split; [exact H3 |].
  split; [rewrite Hids; apply map_map |].
  rewrite Hids. split.
  - apply NoDup_map_inv.
  - intros Hnd. apply NoDup_map_NoDup_ForallPairs; [| exact Hnd].
    intros a b Ha Hb Hab.
    apply in_map_iff in Ha as (i & <- & _).
    apply in_map_iff in Hb as (j & <- & _).
    apply short_id_inj. rewrite !short_id_time_low. exact Hab.
Qed.

(** C6, where it fails: identifiers that are all different, and two
    documents of one batch with the same [id]. *)
Lemma short_ids_collide :
  (forall m n, uuid1 wrapping_ext m = uuid1 wrapping_ext n -> m = n) /\
  exists docs,
    fst (__document_generator ["first chunk"; "second chunk"] "a.pdf"
           wrapping_world) = Return docs /\
    length docs = 2 /\
    map id docs = ["6ba7b810"; "6ba7b810"] /\
    ~ NoDup (map id docs).
Proof.
  split.
  - intros m n H. cbn [uuid1 wrapping_ext] in H.
    apply N.add_cancel_l in H.
    apply N.mul_cancel_r in H; [| apply N.pow_nonzero; lia].
    apply Nat2N.inj. exact H.
  - exists [mkDocument "6ba7b810" "first chunk" "a.pdf";
            mkDocument "6ba7b810" "second chunk" "a.pdf"].
    split; [vm_compute; reflexivity |].
    split; [reflexivity |]. split; [reflexivity |].
    simpl. intros Hnd. inversion Hnd as [| x l Hnin _]. apply Hnin.
    left. reflexivity.
Qed.

(** ** Which file the extractor reads *)

Lemma regular_files_In d file bytes :
  In (file, bytes) (regular_files d) -> In (file, File bytes) d.
Proof.
  induction d as [| [n [c |]] rest IH]; simpl; [tauto | |].
  - intros [E | H]; [inversion E; subst; auto | auto].
  - auto.
Qed.

Lemma regular_files_head_lookup d file bytes others :
  NoDup (map fst d) ->
  regular_files d = (file, bytes) :: others ->
  lookup_node file d = Some (File bytes).
Proof.
  induction d as [| [n [c |]] rest IH]; simpl; intros Hnd H.
  - discriminate.
  - inversion H; subst. rewrite String.eqb_refl. reflexivity.
  - inversion Hnd as [| x l Hnin Hnd']; subst.
    destruct (String.eqb n file) eqn:E.
    + apply String.eqb_eq in E. subst n. exfalso. apply Hnin.
      apply (in_map fst _ (file, File bytes)), regular_files_In.
      rewrite H. left. reflexivity.
    + auto.
Qed.

Lemma get_file_name_blob_inv w p w' :
  __get_file_name "blob" w = (Return p, w') ->
  w' = w /\
  exists file bytes others,
    p = ("blob", file) /\
    regular_files (blob_dir w) = (file, bytes) :: others.
Proof.
  unfold __get_file_name, bind, os_listdir. simpl.
  destruct (regular_files (blob_dir w)) as [| [file bytes] others];
    intros H; inversion H; subst.
  split; [reflexivity |]. exists file, bytes, others. auto.
Qed.

Lemma loader_run_blob_inv file w docs w' :
  loader_run ("blob", file) w = (Return docs, w') ->
  w' = w /\
  exists found,
    lookup_node file (blob_dir w) = Some (File found) /\
    loader_load (ext w) (path_str ("blob", file)) found = Some docs.
Proof.
  unfold loader_run, read_bytes, bind, os_listdir, gets. simpl.
  destruct (lookup_node file (blob_dir w)) as [[found |] |];
    try (intros H; discriminate H).
  simpl.
  destruct (loader_load (ext w) (path_str ("blob", file)) found) eqn:E;
    intros H; inversion H; subst.
  split; [reflexivity |]. exists found. auto.
Qed.

Lemma open_write_txt_inv file text w w' :
  open_write ("txt", file) text w = (Return tt, w') ->
  w' = set_txt_dir (set_file file text (txt_dir w)) w.
Proof.
  unfold open_write, bind, os_listdir. simpl.
  destruct (names_directory file (txt_dir w)); intros H; inversion H.
  reflexivity.
Qed.

(** [__pdf_to_text], when it returns, has loaded the first regular
    file of the listing of [temp/blob] and written the text of the
    first document to [temp/txt/temp.txt]. *)
Lemma pdf_to_text_inv w w' :
  __pdf_to_text w = (Return tt, w') ->
  exists file bytes others found text rest,
    regular_files (blob_dir w) = (file, bytes) :: others /\
    lookup_node file (blob_dir w) = Some (File found) /\
    loader_load (ext w) (path_str ("blob", file)) found = Some (text :: rest) /\
    lookup_node "temp.txt" (txt_dir w') = Some (File text).
Proof.
  intros H. unfold __pdf_to_text in H.
  apply bind_inv_Return in H as (u1 & w1 & H1 & H).
  inversion H1; subst u1 w1. clear H1.
  apply bind_inv_Return in H as (p & w2 & H2 & H).
  apply get_file_name_blob_inv in H2 as (-> & file & bytes & others & -> & Hr).
  apply bind_inv_Return in H as (p' & w3 & H3 & H).
  apply get_file_name_blob_inv in H3 as (-> & _).
  apply bind_inv_Return in H as (u4 & w4 & H4 & H).
  inversion H4; subst u4 w4. clear H4.
  apply bind_inv_Return in H as (docs & w5 & H5 & H).
  apply loader_run_blob_inv in H5 as (-> & found & Hl & Hd).
  apply bind_inv_Return in H as ([] & w0 & H0 & H).
  apply open_write_txt_inv in H0. subst w0.
  destruct docs as [| text rest]; [discriminate |].
  apply bind_inv_Return in H as ([] & w6 & H6 & H).
  apply open_write_txt_inv in H6. subst w6.
  assert (K : keeps (same txt_dir)
                (p'' <- __get_file_name "blob" ;;
                 logger_info ("Extraction Completed for file " ++ path_str p''))).
  { apply keeps_bind; [auto with frames | | intros p''].
    - apply same_get_file_name.
    - apply same_logger_info. reflexivity. }
  apply K in H. unfold same in H.
  exists file, bytes, others, found, text, rest.
  repeat split; auto.
  rewrite H. simpl. apply lookup_set_file.
Qed.

Lemma regular_files_after_write d file text :
  NoDup (map fst d) ->
  (forall f c, In (f, c) (regular_files d) -> f = file) ->
  names_directory file d = false ->
  regular_files (set_file file text d) = [(file, text)].
Proof.
  induction d as [| [n x] rest IH]; intros Hnd Hall Hdir; simpl.
  - reflexivity.
  - inversion Hnd as [| y l Hnin Hnd']; subst.
    destruct (String.eqb n file) eqn:E.
    + apply String.eqb_eq in E. subst n. simpl.
      destruct (regular_files rest) as [| [f c] others] eqn:Er; [reflexivity |].
      exfalso. apply Hnin.
      assert (f = file).
      { apply (Hall f c). destruct x; simpl; rewrite Er; simpl; auto. }
      subst f. apply (in_map fst _ (file, File c)), regular_files_In.
      rewrite Er. left. reflexivity.
    + destruct x as [c |].
      * exfalso. apply String.eqb_neq in E. apply E.
        apply (Hall n c). simpl. auto.
      * simpl. apply IH; auto.
        unfold names_directory in *. simpl in Hdir. rewrite E in Hdir.
        exact Hdir.
Qed.

Lemma os_remove_blob_keeps_txt file :
  keeps (same txt_dir) (os_remove ("blob", file)).
Proof.
  intros w r w' H. unfold os_remove, bind, os_listdir in H. simpl in H.
  destruct (lookup_node file (blob_dir w)) as [[c |] |];
    inversion H; subst; reflexivity.
Qed.

Lemma check_new_inv w file_name :
  fst (__check_availablity file_name w) = Return (Some true) ->
  exists rows, db w = Table rows /\ has_name file_name rows = false.
Proof.
  destruct (db w) as [| | | rows] eqn:E.
  - rewrite check_Unopenable by assumption. discriminate.
  - rewrite check_Absent by assumption. discriminate.
  - rewrite check_Empty by assumption. discriminate.
  - rewrite (check_Table _ _ rows) by assumption. simpl.
    destruct (has_name file_name rows) eqn:Hn; [discriminate | eauto].
Qed.

(** When [temp/blob] holds no regular file other than the one the blob
    is written to, the text extracted is that of the blob downloaded. *)
Lemma clean_folder_extracts_the_blob w b b0 w' :
  fst (__check_availablity (name b) w) = Return (Some true) ->
  process_blob b w = (Return tt, w') ->
  find (fun x => String.eqb (name x) (name b)) (container w) = Some b0 ->
  NoDup (map fst (blob_dir w)) ->
  (forall f c, In (f, c) (regular_files (blob_dir w)) ->
               f = last_segment (name b)) ->
  exists text rest,
    loader_load (ext w) (path_str ("blob", last_segment (name b))) (data b0)
    = Some (text :: rest) /\
    lookup_node "temp.txt" (txt_dir w') = Some (File text).
Proof.
  intros Hnew H Hfind Hnd Hclean.
  apply check_new_inv in Hnew as (rows & E & Hn).
  rewrite (process_blob_new w b rows E Hn) in H.
  apply bind_inv_Return in H as (u1 & w1 & H1 & H).
  inversion H1; subst u1 w1. clear H1.
  apply bind_inv_Return in H as (blob_content & w2 & H2 & H).
  unfold download_blob in H2. simpl in H2. rewrite Hfind in H2.
  inversion H2; subst blob_content w2. clear H2.
  apply bind_inv_Return in H as ([] & w3 & H3 & H).
  apply open_write_blob in H3 as (Hdir & ->). simpl in Hdir.
  apply bind_inv_Return in H as ([] & w4 & H4 & H).
  apply pdf_to_text_inv in H4
    as (file & bytes & others & found & text & rest & Hr & Hl & Hd & Ht).
  simpl in Hr, Hl, Hd.
  rewrite (regular_files_after_write _ _ _ Hnd Hclean Hdir) in Hr.
  inversion Hr; subst file bytes others.
  rewrite lookup_set_file in Hl. inversion Hl; subst found.
  exists text, rest. split; [exact Hd |].
  assert (K : keeps (same txt_dir)
                (chunks <- __chunk_text 2048 256 ;;
                 docs <- __document_generator chunks (name b) ;;
                 logger_info "Uploading documents to the AI search" ;;
                 __upload_documents docs ;;
                 __insert_new_file_into_db (name b) ;;
                 os_remove ("blob", last_segment (name b)))).
  { pose proof (same_chunk_text txt_dir (fun _ _ => eq_refl)).
    pose proof (same_document_generator txt_dir (fun _ _ => eq_refl)
                  (fun _ => eq_refl)).
    pose proof (same_logger_info txt_dir (fun _ _ => eq_refl)).
    pose proof (same_upload_documents txt_dir (fun _ _ => eq_refl)
                  (fun _ _ => eq_refl) (fun _ _ => eq_refl)).
    pose proof (same_insert_new_file txt_dir (fun _ _ => eq_refl)
                  (fun _ _ => eq_refl)).
    pose proof os_remove_blob_keeps_txt.
    keeps_auto. }
  apply K in H. unfold same in H. rewrite H. exact Ht.
Qed.

(** C9. [__pdf_to_text] loads the first regular file of the listing of
    [temp/blob], whatever blob was just written there.  So the text
    extracted for a blob is the blob's own when the folder holds no
    other regular file; and when it does, another file's text can be
    indexed under the blob's name, as in [stale_world]. *)
Theorem extractor_reads_first_listed_file :
  (forall w w',
     __pdf_to_text w = (Return tt, w') ->
     NoDup (map fst (blob_dir w)) ->
     exists file bytes others text rest,
       regular_files (blob_dir w) = (file, bytes) :: others /\
       loader_load (ext w) (path_str ("blob", file)) bytes = Some (text :: rest) /\
       lookup_node "temp.txt" (txt_dir w') = Some (File text)) /\
  (forall w b b0 w',
     fst (__check_availablity (name b) w) = Return (Some true) ->
     process_blob b w = (Return tt, w') ->
     find (fun x => String.eqb (name x) (name b)) (container w) = Some b0 ->
     NoDup (map fst (blob_dir w)) ->
     (forall f c, In (f, c) (regular_files (blob_dir w)) ->
                  f = last_segment (name b)) ->
     exists text rest,
       loader_load (ext w) (path_str ("blob", last_segment (name b))) (data b0)
       = Some (text :: rest) /\
       lookup_node "temp.txt" (txt_dir w') = Some (File text)) /\
  (fst (process_blob (mkBlob "new.pdf" "new text") stale_world) = Return tt /\
   index (snd (process_blob (mkBlob "new.pdf" "new text") stale_world)) =
   [mkDocument "00000000" "old text" "new.pdf"]).
Proof.
  split; [| split].
  - intros w w' H Hnd.
    apply pdf_to_text_inv in H
      as (file & bytes & others & found & text & rest & Hr & Hl & Hd & Ht).
    rewrite (regular_files_head_lookup _ _ _ _ Hnd Hr) in Hl.
    inversion Hl; subst found.
    exists file, bytes, others, text, rest. auto.
  - apply clean_folder_extracts_the_blob.
  - split; vm_compute; reflexivity.
Qed.

(** C9 applied to a blob written into an empty [temp/blob]. *)
Lemma extractor_reads_first_listed_file_witness :
  exists text rest,
    loader_load sample_ext (path_str ("blob", last_segment "docs/a.pdf")) "alpha"
    = Some (text :: rest) /\
    lookup_node "temp.txt"
      (txt_dir (snd (process_blob (mkBlob "docs/a.pdf" "alpha")
                       (sample_world (Table []) [mkBlob "docs/a.pdf" "alpha"]))))
    = Some (File text).
Proof.
  apply (proj1 (proj2 extractor_reads_first_listed_file)
           (sample_world (Table []) [mkBlob "docs/a.pdf" "alpha"])
           (mkBlob "docs/a.pdf" "alpha") (mkBlob "docs/a.pdf" "alpha")
           (snd (process_blob (mkBlob "docs/a.pdf" "alpha")
                   (sample_world (Table []) [mkBlob "docs/a.pdf" "alpha"])))).
  - vm_compute. reflexivity.
  - vm_compute. reflexivity.
  - vm_compute. reflexivity.
  - simpl. constructor.
  - simpl. intros f c [].
Defined.

(** ** The constructor *)

Lemma logging_basicConfig_to_ok file p w :
  logs_dir_exists p = true ->
  logging_basicConfig_to file p w = (Return tt, w).
Proof.
  intros H. unfold logging_basicConfig_to. rewrite H.
  destruct (root_has_handlers p); reflexivity.
Qed.

Lemma create_sqlite_database_returns w :
  exists w1,
    __create_sqlite_database w = (Return tt, w1) /\
    ext w1 = ext w /\
    forall r, In r (log w) -> In r (log w1).
Proof.
  unfold __create_sqlite_database, bind, logger_info, logger_warn, modify,
    gets.
  simpl. destruct (db w); simpl; eexists; (split; [reflexivity |]);
    (split; [reflexivity |]); simpl; intros r Hin;
    repeat (apply in_or_app; left); assumption.
Qed.

Lemma from_connection_string_ok conn_str w :
  connection_string_ok (ext w) conn_str = true ->
  from_connection_string conn_str w = (Return tt, w).
Proof.
  intros H. unfold from_connection_string, bind, gets. rewrite H. reflexivity.
Qed.

Lemma check_index_name_invalid v self w :
  isinstance_str_int v && ne_empty_str v = false ->
  check_index_name v self w =
  (Return self, add_log (ERROR, "Index name must be an str or int") w).
Proof. unfold check_index_name. intros ->. reflexivity. Qed.

(** C10, as the code has it.  For an [index_name] that is the empty
    string or neither [str] nor [int], the test of lines 39-43 logs the
    error, raises nothing and leaves [self.index_name] unassigned.  The
    constructor then never returns normally: once the settings are
    read and the blob client is built, reading [self.index_name] for
    the search client raises AttributeError. *)
Theorem invalid_index_name_raises_attribute_error (p : process) (v : pyval)
    (w : world) :
  isinstance_str_int v && ne_empty_str v = false ->
  (forall self w0,
     check_index_name v self w0 =
     (Return self, add_log (ERROR, "Index name must be an str or int") w0)) /\
  (forall self w', __init__ p v w <> (Return self, w')) /\
  (forall conn_str cont service_name admin_key,
     logs_dir_exists p = true ->
     getenv p "AZURE_STORAGE_CONNECTION_STRING" = Some conn_str ->
     getenv p "AZURE_CONTAINER_NAME" = Some cont ->
     getenv p "AZURE_COGNITIVE_SEARCH_SERVICE_NAME" = Some service_name ->
     getenv p "AZURE_COGNITIVE_SEARCH_KEY" = Some admin_key ->
     connection_string_ok (ext w) conn_str = true ->
     exists w',
       __init__ p v w = (Raise (AttributeError "index_name"), w') /\
       In (ERROR, "Index name must be an str or int") (log w')).
Proof.
  intros Hinv. split; [| split].
  - intros self w0. apply check_index_name_invalid. exact Hinv.
  - intros self w' H. unfold __init__ in H.
    apply bind_inv_Return in H as (u1 & w1 & _ & H).
    apply bind_inv_Return in H as (u2 & w2 & _ & H).
    apply bind_inv_Return in H as (conn_str & w3 & _ & H).
    apply bind_inv_Return in H as (cont & w4 & _ & H).
    apply bind_inv_Return in H as (service_name & w5 & _ & H).
    apply bind_inv_Return in H as (admin_key & w6 & _ & H).
    apply bind_inv_Return in H as (u7 & w7 & _ & H).
    apply bind_inv_Return in H as (u8 & w8 & _ & H).
    apply bind_inv_Return in H as (u9 & w9 & _ & H).
    apply bind_inv_Return in H as (self1 & w10 & Hc & H).
    rewrite (check_index_name_invalid _ _ _ Hinv) in Hc.
    inversion Hc; subst self1 w10. clear Hc.
    apply bind_inv_Return in H as (u11 & w11 & _ & H).
    apply bind_inv_Return in H as (idx & w12 & Hg & _).
    discriminate Hg.
  - intros conn_str cont service_name admin_key Hlogs H1 H2 H3 H4 Hok.
    destruct (create_sqlite_database_returns w) as (w1 & Hdb & Hext & Hlog).
    assert (Hok' : connection_string_ok
                     (ext (add_log (INFO, "Creating a Blob Service Client with the provided connection string.") w1))
                     conn_str = true)
      by (simpl; rewrite Hext; exact Hok).
    unfold __init__.
    rewrite (bind_Return _ _ w tt w)
      by (apply logging_basicConfig_to_ok; exact Hlogs).
    rewrite (bind_Return _ _ _ _ _ Hdb).
    unfold os_environ. rewrite H1, H2, H3, H4.
    rewrite (bind_Return _ _ w1 conn_str w1) by reflexivity.
    rewrite (bind_Return _ _ w1 cont w1) by reflexivity.
    rewrite (bind_Return _ _ w1 service_name w1) by reflexivity.
    rewrite (bind_Return _ _ w1 admin_key w1) by reflexivity.
    cbv beta.
    rewrite (bind_Return _ _ w1 tt
               (add_log (INFO, "Creating a Blob Service Client with the provided connection string.") w1))
      by reflexivity.
    rewrite (bind_Return _ _ _ tt _ (from_connection_string_ok conn_str _ Hok'))
      by reflexivity.
    set (w2 := add_log (INFO, "Created Blob Service Client")
                 (add_log (INFO, "Creating a Blob Service Client with the provided connection string.") w1)).
    rewrite (bind_Return _ _ _ tt w2) by reflexivity.
    rewrite (bind_Return _ _ _ _ _ (check_index_name_invalid _ _ w2 Hinv)).
    set (w3 := add_log (ERROR, "Index name must be an str or int") w2).
    rewrite (bind_Return _ _ w3 tt
               (add_log (INFO, "Creating a Search Client with the provided connection string.") w3))
      by reflexivity.
    cbv beta. eexists. split; [reflexivity |].
    simpl. apply in_or_app. left. apply in_or_app. right. left. reflexivity.
Qed.

(** C10, where it fails: with every setting present, the constructor
    called with the empty string does not return: AttributeError
    reaches the caller. *)
Lemma empty_index_name_does_not_return :
  isinstance_str_int (PyStr "") && ne_empty_str (PyStr "") = false /\
  fst (__init__ sample_process (PyStr "") (sample_world Absent [])) =
  Raise (AttributeError "index_name").
Proof. split; vm_compute; reflexivity. Qed.

(** C10 applied to [None] as the index name. *)
Lemma invalid_index_name_raises_attribute_error_witness :
  exists w',
    __init__ sample_process PyNone (sample_world Absent []) =
    (Raise (AttributeError "index_name"), w') /\
    In (ERROR, "Index name must be an str or int") (log w').
Proof.
  apply (proj2 (proj2 (invalid_index_name_raises_attribute_error
                         sample_process PyNone (sample_world Absent [])
                         eq_refl))
           "UseDevelopmentStorage=true" "documents" "search" "key");
    reflexivity.
Defined.

(** ** A ledger that cannot be opened *)

Lemma connect_raise_inv a w e w1 :
  FileAccess.sqlite3_connect a w = (Raise e, w1) ->
  w1 = w /\
  forall w2, db w2 = db w -> FileAccess.sqlite3_connect a w2 = (Raise e, w2).
Proof.
  unfold FileAccess.sqlite3_connect.
  destruct (db w) eqn:E, a; intros H; inversion H; subst;
    (split; [reflexivity |]); intros w2 ->; reflexivity.
Qed.

Lemma with_connection_unbound {A : Type} a (body : M A) handler w e :
  FileAccess.sqlite3_connect a w = (Raise e, w) ->
  FileAccess.with_connection a body handler w =
  (Raise (UnboundLocalError "conn"), snd (handler e w)).
Proof.
  intros H.
  unfold FileAccess.with_connection, FileAccess.try_finally, try_except, bind.
  rewrite H. simpl. destruct (handler e w) as [r w2]. reflexivity.
Qed.

(** When [sqlite3.connect] raises (the ledger file cannot be opened, or
    there is none and none can be created), neither ledger method
    swallows the failure: the handler logs it, the [finally] clause
    then reads the local [conn], which was never bound, and
    UnboundLocalError is what leaves the method.  A run over a
    container that lists a blob therefore stops at the first one with
    that exception, nothing downloaded, written, uploaded or
    recorded. *)
Theorem connect_failure_propagates (a : FileAccess.access) (w w1 : world)
    (e : exn) (b : blob) (rest : list blob) :
  FileAccess.sqlite3_connect a w = (Raise e, w1) ->
  container w = b :: rest ->
  (forall file_name,
     FileAccess.__check_availablity a file_name w =
     (Raise (UnboundLocalError "conn"),
      add_log (ERROR, "Failed to check availablity: " ++ exn_str e) w) /\
     FileAccess.__insert_new_file_into_db a file_name w =
     (Raise (UnboundLocalError "conn"),
      add_log (ERROR, "Failed to insert the file: " ++ exn_str e) w)) /\
  FileAccess.trigger_pipeline a w =
  (Raise (UnboundLocalError "conn"),
   add_log (ERROR, "Failed to check availablity: " ++ exn_str e)
     (add_log (INFO, "Pipeline Triggered") w)).
Proof.
  intros H Hc. apply connect_raise_inv in H as (-> & Hconn). split.
  - intros file_name.
    unfold FileAccess.__check_availablity, FileAccess.__insert_new_file_into_db.
    rewrite !(with_connection_unbound a _ _ w e) by (apply Hconn; reflexivity).
    split; reflexivity.
  - unfold FileAccess.trigger_pipeline, __get_blobs_list, bind at 1,
      logger_info, modify.
    unfold bind at 1, gets. simpl container. rewrite Hc. simpl for_each.
    unfold bind at 1, FileAccess.process_blob, bind at 1,
      FileAccess.__check_availablity.
    rewrite (with_connection_unbound a _ _ _ e) by (apply Hconn; reflexivity).
    reflexivity.
Qed.

Lemma connect_failure_propagates_witness :
  FileAccess.trigger_pipeline FileAccess.ReadOnly
    (sample_world Absent [mkBlob "a.pdf" "text"]) =
  (Raise (UnboundLocalError "conn"),
   add_log (ERROR, "Failed to check availablity: "
                     ++ exn_str (OperationalError "unable to open database file"))
     (add_log (INFO, "Pipeline Triggered")
        (sample_world Absent [mkBlob "a.pdf" "text"]))).
Proof.
  apply (connect_failure_propagates FileAccess.ReadOnly
           (sample_world Absent [mkBlob "a.pdf" "text"])
           (sample_world Absent [mkBlob "a.pdf" "text"])
           (OperationalError "unable to open database file")
           (mkBlob "a.pdf" "text") []).
  - reflexivity.
  - reflexivity.
Defined.

(** ** The ingestion path, outcome by outcome *)

Lemma pipeline_state_inv w w' :
  pipeline_state w' = pipeline_state w ->
  db w' = db w /\ uploads w' = uploads w /\ index w' = index w /\
  blob_dir w' = blob_dir w /\ downloads w' = downloads w.
Proof. unfold pipeline_state. intros H. inversion H. auto. Qed.

(** The three ways [process_blob] can end on a blob the ledger check
    reports as new: it raises before the scratch file is written, it
    raises between the write and the upload request, or it runs to its
    end, the request made and the name recorded. *)
Lemma process_blob_new_outcomes w b rows r w' :
  db w = Table rows ->
  has_name (name b) rows = false ->
  process_blob b w = (r, w') ->
  (exists e,
     r = Raise e /\ ledger_and_index w' = ledger_and_index w /\
     blob_dir w' = blob_dir w /\
     (e = ResourceNotFoundError (name b) /\ downloads w' = downloads w \/
      e = IsADirectoryError (path_str ("blob", last_segment (name b))) /\
      names_directory (last_segment (name b)) (blob_dir w) = true /\
      downloads w' = (downloads w ++ [name b])%list)) \/
  (exists e b0,
     r = Raise e /\
     find (fun x => String.eqb (name x) (name b)) (container w) = Some b0 /\
     ledger_and_index w' = ledger_and_index w /\
     blob_dir w' = set_file (last_segment (name b)) (data b0) (blob_dir w) /\
     downloads w' = (downloads w ++ [name b])%list) \/
  (exists b0 docs ok,
     r = Return tt /\
     find (fun x => String.eqb (name x) (name b)) (container w) = Some b0 /\
     uploads w' = (uploads w ++ [(docs, ok)])%list /\
     db w' = Table (rows ++ [(next_rowid rows, name b)]) /\
     index w' = (if ok then merge_batch docs (index w) else index w) /\
     blob_dir w' =
       remove_entry (last_segment (name b))
         (set_file (last_segment (name b)) (data b0) (blob_dir w)) /\
     downloads w' = (downloads w ++ [name b])%list /\
     (forall d, In d docs -> metadata_storage_path d = name b)).
Proof.
  intros E Hn H. rewrite (process_blob_new w b rows E Hn) in H.
  apply bind_inv in H. destruct H as [(e & Hs & _) | ([] & w1 & Hs & H)];
    [discriminate Hs |].
  inversion Hs; subst w1. clear Hs.
  (* the download *)
  apply bind_inv in H. destruct H as [(e & Hs & ->) | (content & w2 & Hs & H)].
  { unfold download_blob in Hs. simpl in Hs.
    destruct (find (fun x => String.eqb (name x) (name b)) (container w));
      inversion Hs; subst.
    left. eexists. split; [reflexivity |].
    split; [reflexivity |]. split; [reflexivity |]. left. auto. }
  unfold download_blob in Hs. simpl in Hs.
  destruct (find (fun x => String.eqb (name x) (name b)) (container w))
    as [b0 |] eqn:Hfind; inversion Hs; subst content w2. clear Hs.
  rewrite <- Hfind.
  (* the write to temp/blob *)
  apply bind_inv in H. destruct H as [(e & Hs & ->) | ([] & w3 & Hs & H)].
  { unfold open_write, bind, os_listdir in Hs. simpl in Hs.
    destruct (names_directory (last_segment (name b)) (blob_dir w)) eqn:Hd;
      inversion Hs; subst.
    left. eexists. split; [reflexivity |].
    split; [reflexivity |]. split; [reflexivity |]. right. auto. }
  apply open_write_blob in Hs as (_ & ->).
  match type of H with
  | bind _ _ ?w = _ => set (w3 := w) in *
  end.
  assert (S3 : pipeline_state w3 =
               (db w, uploads w, index w,
                set_file (last_segment (name b)) (data b0) (blob_dir w),
                (downloads w ++ [name b])%list)) by reflexivity.
  assert (raised : forall e wx,
            pipeline_state wx = pipeline_state w3 ->
            (exists e' b0',
               @Raise unit e = Raise e' /\
               find (fun x => String.eqb (name x) (name b)) (container w)
               = Some b0' /\
               ledger_and_index wx = ledger_and_index w /\
               blob_dir wx =
                 set_file (last_segment (name b)) (data b0') (blob_dir w) /\
               downloads wx = (downloads w ++ [name b])%list)).
  { intros e wx Hx. rewrite S3 in Hx. unfold pipeline_state in Hx.
    inversion Hx as [[H1 H2 H3 H4 H5]].
    exists e, b0. unfold ledger_and_index. rewrite H1, H2, H3. auto. }
  (* extraction *)
  apply bind_inv in H. destruct H as [(e & Hs & ->) | ([] & w4 & Hs & H)].
  { right. left.
    apply (same_pdf_to_text pipeline_state (fun _ _ => eq_refl)
             (fun _ _ => eq_refl)) in Hs.
    apply (raised e), Hs. }
  apply (same_pdf_to_text pipeline_state (fun _ _ => eq_refl)
           (fun _ _ => eq_refl)) in Hs.
  unfold same in Hs. rename Hs into G4.
  (* chunking *)
  apply bind_inv in H. destruct H as [(e & Hs & ->) | (chunks & w5 & Hs & H)].
  { right. left.
    apply (same_chunk_text pipeline_state (fun _ _ => eq_refl)) in Hs.
    apply (raised e). exact (eq_trans Hs G4). }
  apply (same_chunk_text pipeline_state (fun _ _ => eq_refl)) in Hs.
  unfold same in Hs. pose proof (eq_trans Hs G4) as G5. clear Hs G4.
  (* document building *)
  apply bind_inv in H. destruct H as [(e & Hs & ->) | (docs & w6 & Hs & H)].
  { right. left.
    apply (same_document_generator pipeline_state (fun _ _ => eq_refl)
             (fun _ => eq_refl)) in Hs.
    apply (raised e). exact (eq_trans Hs G5). }
  assert (Hdocs : forall d, In d docs -> metadata_storage_path d = name b).
  { destruct (document_generator_eq chunks (name b) w5) as (wd & Ed).
    rewrite Ed in Hs. inversion Hs; subst docs.
    apply documents_from_spec. }
  apply (same_document_generator pipeline_state (fun _ _ => eq_refl)
           (fun _ => eq_refl)) in Hs.
  unfold same in Hs. pose proof (eq_trans Hs G5) as G6. clear Hs G5.
  apply bind_inv in H. destruct H as [(e & Hs & _) | ([] & w7 & Hs & H)];
    [discriminate Hs |].
  inversion Hs; subst w7. clear Hs.
  (* the upload request, the ledger row and the cleanup *)
  rewrite S3 in G6. unfold pipeline_state in G6.
  inversion G6 as [[Hdb Hup Hidx Hblob Hdown]].
  right. right.
  destruct (upload_documents_cases docs
              (add_log (INFO, "Uploading documents to the AI search") w6))
    as [[_ Hu] | [_ Hu]];
    rewrite (bind_Return _ _ _ _ _ Hu) in H; clear Hu; cbv beta in H;
    match type of H with
    | bind _ _ ?w8 = _ =>
        assert (E8 : db w8 = Table rows) by (simpl; congruence);
        rewrite (bind_Return _ _ _ _ _ (insert_Table w8 (name b) rows E8)) in H
    end;
    rewrite (os_remove_blob _ (data b0)) in H
      by (simpl; rewrite Hblob; apply lookup_set_file);
    inversion H; subst r w'; simpl.
  - exists b0, docs, false. rewrite Hup, Hidx, Hblob, Hdown. auto 10.
  - exists b0, docs, true. rewrite Hup, Hidx, Hblob, Hdown. auto 10.
Qed.

(** A blob whose processing raises leaves no trace in the index or the
    ledger: an exception can only leave [process_blob] before the
    upload request is made, so nothing was uploaded and no row was
    inserted for it. *)
Theorem raising_blob_is_not_recorded (w w' : world) (b : blob) (e : exn) :
  process_blob b w = (Raise e, w') ->
  uploads w' = uploads w /\ index w' = index w /\
  rows_of (db w') = rows_of (db w).
Proof.
  intros H.
  destruct (db w) as [| | | rows] eqn:E;
    try (apply process_blob_not_new in H as (H1 & H2 & _ & H4);
         [rewrite ?E in *; auto | intros rows' E'; congruence]).
  destruct (has_name (name b) rows) eqn:Hn.
  - apply process_blob_not_new in H as (H1 & H2 & _ & H4);
      [rewrite ?E in *; auto | intros rows' E'; congruence].
  - destruct (process_blob_new_outcomes w b rows _ _ E Hn H)
      as [(e1 & _ & F & _) | [(e1 & b0 & _ & _ & F & _) | (b0 & docs & ok & Hr & _)]];
      [| | discriminate Hr];
      unfold ledger_and_index in F; inversion F as [[F1 F2 F3]];
      rewrite ?F1, ?E; auto.
Qed.

Lemma raising_blob_is_not_recorded_witness :
  uploads (snd (process_blob (mkBlob "a.pdf" "text")
                  (unreadable_world (Table []) [mkBlob "a.pdf" "text"]))) = [] /\
  index (snd (process_blob (mkBlob "a.pdf" "text")
                (unreadable_world (Table []) [mkBlob "a.pdf" "text"]))) = [] /\
  rows_of (db (snd (process_blob (mkBlob "a.pdf" "text")
                      (unreadable_world (Table []) [mkBlob "a.pdf" "text"]))))
  = [].
Proof.
  apply (raising_blob_is_not_recorded
           (unreadable_world (Table []) [mkBlob "a.pdf" "text"])
           (snd (process_blob (mkBlob "a.pdf" "text")
                   (unreadable_world (Table []) [mkBlob "a.pdf" "text"])))
           (mkBlob "a.pdf" "text") (LoaderError "temp/blob/a.pdf")).
  vm_compute. reflexivity.
Defined.

(** ** Invariants of a run *)

Lemma keeps_for_each_in {A : Type} R (body : A -> M unit) items :
  preorder R -> (forall x, In x items -> keeps R (body x)) ->
  keeps R (for_each body items).
Proof.
  intros HR. induction items as [| x rest IH]; intros Hb; simpl.
  - apply keeps_ret; auto.
  - apply keeps_bind; auto.
    + apply Hb. left. reflexivity.
    + intros _. apply IH. intros y Hy. apply Hb. right. assumption.
Qed.




(** What the methods of [FileAccess] leave alone, whatever the
    permission. *)
Section EitherFrames.
Context {X : Type} (f : world -> X).
Hypothesis f_log : forall r w, f (add_log r w) = f w.
Hypothesis f_db : forall d w, f (set_db d w) = f w.

Lemma same_connect_at a : keeps (same f) (FileAccess.sqlite3_connect a).
Proof.
  intros w r w' H. unfold FileAccess.sqlite3_connect in H.
  destruct (db w), a; inversion H; subst; unfold same;
    rewrite ?f_db; reflexivity.
Qed.

Lemma same_sql_insert_at a n : keeps (same f) (FileAccess.sql_insert a n).
Proof.
  intros w r w' H. unfold FileAccess.sql_insert in H.
  destruct (db w), a; inversion H; subst; unfold same;
    rewrite ?f_db; reflexivity.
Qed.

Lemma same_sql_create_table_at a : keeps (same f) (FileAccess.sql_create_table a).
Proof.
  intros w r w' H. unfold FileAccess.sql_create_table in H.
  destruct (db w), a; inversion H; subst; unfold same;
    rewrite ?f_db; reflexivity.
Qed.

Lemma keeps_try_finally {A : Type} R (body : M A) final :
  preorder R -> keeps R body -> keeps R final ->
  keeps R (FileAccess.try_finally body final).
Proof.
  intros [_ Ht] Hb Hf w r w' H. unfold FileAccess.try_finally in H.
  destruct (body w) as [r1 w1] eqn:E1.
  destruct (final w1) as [[u | e] w2] eqn:E2; inversion H; subst;
    (eapply Ht; [eapply Hb | eapply Hf]; eauto).
Qed.

Lemma keeps_with_connection_at {A : Type} R a (body : M A) handler :
  preorder R -> keeps R (FileAccess.sqlite3_connect a) -> keeps R body ->
  (forall e, keeps R (handler e)) ->
  keeps R (FileAccess.with_connection a body handler).
Proof.
  intros HR Hc Hb Hh w r w' H. unfold FileAccess.with_connection in H.
  revert H. apply keeps_try_finally; [exact HR | |].
  - apply keeps_try_except; [exact HR | | exact Hh].
    apply keeps_bind; auto.
  - unfold FileAccess.conn_close.
    destruct (fst (FileAccess.sqlite3_connect a w));
      [apply keeps_ret | apply keeps_raise]; exact HR.
Qed.

Lemma same_insert_new_file_at a n :
  keeps (same f) (FileAccess.__insert_new_file_into_db a n).
Proof.
  unfold FileAccess.__insert_new_file_into_db.
  apply keeps_with_connection_at; [auto with frames | | |].
  - apply same_connect_at.
  - apply same_sql_insert_at.
  - intros e. apply same_logger_error. exact f_log.
Qed.

Lemma same_check_availablity_at a n :
  keeps (same f) (FileAccess.__check_availablity a n).
Proof.
  pose proof (same_logger_error f f_log).
  pose proof (same_sql_select f).
  unfold FileAccess.__check_availablity.
  apply keeps_with_connection_at; [auto with frames | | | intros e].
  - apply same_connect_at.
  - keeps_auto.
  - keeps_auto.
Qed.

Hypothesis f_blob_dir : forall d w, f (set_blob_dir d w) = f w.
Hypothesis f_txt_dir : forall d w, f (set_txt_dir d w) = f w.
Hypothesis f_download : forall b w, f (add_download b w) = f w.
Hypothesis f_uuid : forall w, f (tick_uuid w) = f w.
Hypothesis f_upload : forall u w, f (add_upload u w) = f w.
Hypothesis f_index : forall i w, f (set_index i w) = f w.

Lemma same_process_blob_at a b : keeps (same f) (FileAccess.process_blob a b).
Proof.
  pose proof (same_logger_info f f_log).
  pose proof (same_logger_warn f f_log).
  pose proof (same_check_availablity_at a).
  pose proof (same_insert_new_file_at a).
  pose proof (same_download_blob f f_download).
  pose proof (same_open_write f f_blob_dir f_txt_dir).
  pose proof (same_os_remove f f_blob_dir f_txt_dir).
  pose proof (same_pdf_to_text f f_log f_txt_dir).
  pose proof (same_chunk_text f f_log).
  pose proof (same_document_generator f f_log f_uuid).
  pose proof (same_upload_documents f f_log f_upload f_index).
  unfold FileAccess.process_blob. keeps_auto.
Qed.

Lemma same_trigger_pipeline_at a : keeps (same f) (FileAccess.trigger_pipeline a).
Proof.
  pose proof (same_logger_info f f_log). pose proof (same_process_blob_at a).
  unfold FileAccess.trigger_pipeline, __get_blobs_list. keeps_auto.
Qed.
End EitherFrames.












Lemma uploads_only_preorder P : preorder (uploads_only P).
Proof.
  split.
  - intros w. exists []. rewrite app_nil_r. split; [reflexivity |].
    intros docs ok d [].
  - intros w1 w2 w3 (r1 & E1 & H1) (r2 & E2 & H2).
    exists (r1 ++ r2)%list. rewrite E2, E1, app_assoc. split; [reflexivity |].
    intros docs ok d Hin. apply in_app_or in Hin as [Hin | Hin]; eauto.
Qed.

Lemma uploads_only_same P {A : Type} (m : M A) :
  keeps (same uploads) m -> keeps (uploads_only P) m.
Proof.
  intros H w r w' E. apply H in E. unfold same in E.
  exists []. rewrite app_nil_r. split; [assumption |]. intros docs ok d [].
Qed.

Lemma uploads_only_process_blob (P : string -> Prop) b :
  P (name b) -> keeps (uploads_only P) (process_blob b).
Proof.
  intros HP w r w' H.
  assert (Hsame : uploads w' = uploads w -> uploads_only P w w').
  { intros E. exists []. rewrite app_nil_r. split; [assumption |].
    intros docs ok d []. }
  destruct (db w) as [| | | rows] eqn:E;
    try (apply Hsame; apply process_blob_not_new in H as (H1 & _);
         [auto | intros rows' E'; congruence]).
  destruct (has_name (name b) rows) eqn:Hn.
  - apply Hsame. apply process_blob_not_new in H as (H1 & _);
      [auto | intros rows' E'; congruence].
  - destruct (process_blob_new_outcomes w b rows _ _ E Hn H)
      as [(e1 & _ & F & _) | [(e1 & b0 & _ & _ & F & _)
                             | (b0 & docs & ok & _ & _ & Hu & _ & _ & _ & _ & Hd)]].
    + apply Hsame, same_uploads_of_frame, F.
    + apply Hsame, same_uploads_of_frame, F.
    + exists [(docs, ok)]. split; [assumption |].
      intros docs' ok' d [Heq | []] Hin. inversion Heq; subst docs' ok'.
      rewrite (Hd d Hin). exact HP.
Qed.

(** Every document that a run of [trigger_pipeline] sends to the search
    service carries, as [metadata_storage_path], the name of a blob
    listed in the container: documents are never filed under a name
    that is not a blob's. *)
Theorem uploaded_documents_carry_a_listed_name (w w' : world)
    (r : outcome unit) :
  trigger_pipeline w = (r, w') ->
  exists requests,
    uploads w' = (uploads w ++ requests)%list /\
    forall docs ok d,
      In (docs, ok) requests -> In d docs ->
      exists b, In b (container w) /\ metadata_storage_path d = name b.
Proof.
  intros H.
  set (P := fun n => exists b, In b (container w) /\ n = name b).
  change (uploads_only P w w').
  revert H. unfold trigger_pipeline, __get_blobs_list, bind, logger_info,
    modify, gets. simpl. intros H.
  destruct (keeps_for_each_in (uploads_only P) process_blob (container w)
              (uploads_only_preorder P)) with
    (w := add_log (INFO, "Pipeline Triggered") w) (r := r) (w' := w')
    as (requests & E & Hreq).
  - intros b Hin. apply uploads_only_process_blob. exists b. auto.
  - exact H.
  - exists requests. auto.
Qed.


Lemma uploaded_documents_carry_a_listed_name_witness :
  exists requests,
    uploads (snd (trigger_pipeline
                    (sample_world (Table [])
                       [mkBlob "a.pdf" "y"; mkBlob "b.pdf" "z"]))) =
    ([] ++ requests)%list /\
    forall docs ok d,
      In (docs, ok) requests -> In d docs ->
      exists b, In b [mkBlob "a.pdf" "y"; mkBlob "b.pdf" "z"] /\
                metadata_storage_path d = name b.
Proof.
  apply (uploaded_documents_carry_a_listed_name
           (sample_world (Table []) [mkBlob "a.pdf" "y"; mkBlob "b.pdf" "z"])
           (snd (trigger_pipeline
                   (sample_world (Table [])
                      [mkBlob "a.pdf" "y"; mkBlob "b.pdf" "z"])))
           (Return tt)).
  vm_compute. reflexivity.
Defined.

(** ** The scratch file of a blob *)

Lemma names_after_set_file m file text d :
  In m (map fst (set_file file text d)) -> m = file \/ In m (map fst d).
Proof.
  induction d as [| [n x] rest IH]; simpl.
  - intros [<- | []]. auto.
  - destruct (String.eqb n file); simpl; intros [<- | H]; auto.
    apply IH in H as [-> | H]; auto.
Qed.

Lemma set_file_NoDup file text d :
  NoDup (map fst d) -> NoDup (map fst (set_file file text d)).
Proof.
  induction d as [| [n x] rest IH]; simpl; intros Hnd.
  - constructor; [intros [] | constructor].
  - inversion Hnd as [| y l Hnin Hnd']; subst.
    destruct (String.eqb n file) eqn:E; simpl.
    + constructor; assumption.
    + constructor; [| auto]. intros Hin.
      apply names_after_set_file in Hin as [-> | Hin]; [| auto].
      rewrite String.eqb_refl in E. discriminate.
Qed.

Lemma lookup_node_None file d :
  ~ In file (map fst d) -> lookup_node file d = None.
Proof.
  induction d as [| [n x] rest IH]; simpl; intros Hnin; [reflexivity |].
  destruct (String.eqb n file) eqn:E.
  - apply String.eqb_eq in E. subst. exfalso. auto.
  - auto.
Qed.

Lemma lookup_remove_entry file d :
  NoDup (map fst d) -> lookup_node file (remove_entry file d) = None.
Proof.
  induction d as [| [n x] rest IH]; simpl; intros Hnd; [reflexivity |].
  inversion Hnd as [| y l Hnin Hnd']; subst.
  destruct (String.eqb n file) eqn:E.
  - apply String.eqb_eq in E. subst. apply lookup_node_None. assumption.
  - simpl. rewrite E. auto.
Qed.

(** The copy of a blob in [temp/blob] is removed only when the blob is
    processed to the end.  When [process_blob] raises after writing it
    (the loader fails, for one), the file stays in the folder, where
    the next blob's extraction can pick it up. *)
Theorem scratch_file_is_removed_only_on_success (w w' : world) (b : blob)
    (r : outcome unit) :
  fst (__check_availablity (name b) w) = Return (Some true) ->
  NoDup (map fst (blob_dir w)) ->
  process_blob b w = (r, w') ->
  (r = Return tt ->
   lookup_node (last_segment (name b)) (blob_dir w') = None) /\
  (forall e, r = Raise e ->
     blob_dir w' = blob_dir w \/
     exists b0,
       find (fun x => String.eqb (name x) (name b)) (container w) = Some b0 /\
       lookup_node (last_segment (name b)) (blob_dir w')
       = Some (File (data b0))) /\
  (forall p, r = Raise (LoaderError p) ->
     exists b0,
       find (fun x => String.eqb (name x) (name b)) (container w) = Some b0 /\
       lookup_node (last_segment (name b)) (blob_dir w')
       = Some (File (data b0))).
Proof.
  intros Hnew Hnd H.
  apply check_new_inv in Hnew as (rows & E & Hn).
  destruct (process_blob_new_outcomes w b rows _ _ E Hn H)
    as [(e1 & Hr & _ & Hb & He)
       | [(e1 & b0 & Hr & Hf & _ & Hb & _)
         | (b0 & docs & ok & Hr & _ & _ & _ & _ & Hb & _)]];
    subst r.
  - split; [discriminate |]. split; [auto |].
    intros p Hp. inversion Hp; subst e1.
    destruct He as [[He _] | [He _]]; discriminate He.
  - assert (Hl : lookup_node (last_segment (name b)) (blob_dir w')
                 = Some (File (data b0)))
      by (rewrite Hb; apply lookup_set_file).
    split; [discriminate |]. split; eauto.
  - split.
    + intros _. rewrite Hb. apply lookup_remove_entry, set_file_NoDup, Hnd.
    + split; intros; discriminate.
Qed.

Lemma scratch_file_is_removed_only_on_success_witness :
  exists b0,
    find (fun x => String.eqb (name x) "a.pdf") [mkBlob "a.pdf" "text"]
    = Some b0 /\
    lookup_node (last_segment "a.pdf")
      (blob_dir (snd (process_blob (mkBlob "a.pdf" "text")
                        (unreadable_world (Table []) [mkBlob "a.pdf" "text"]))))
    = Some (File (data b0)).
Proof.
  apply (proj2 (proj2 (scratch_file_is_removed_only_on_success
                         (unreadable_world (Table []) [mkBlob "a.pdf" "text"])
                         (snd (process_blob (mkBlob "a.pdf" "text")
                                 (unreadable_world (Table [])
                                    [mkBlob "a.pdf" "text"])))
                         (mkBlob "a.pdf" "text")
                         (Raise (LoaderError "temp/blob/a.pdf"))
                         eq_refl (NoDup_nil _) eq_refl))
           "temp/blob/a.pdf" eq_refl).
Defined.

(** ** The name of the scratch file *)

Lemma split_char_nonempty sep s : split_char sep s <> [].
Proof.
  destruct s as [| c s]; simpl; [discriminate |].
  destruct (Ascii.eqb c sep); [discriminate |].
  destruct (split_char sep s); discriminate.
Qed.

Lemma split_char_append sep (a b : string) :
  split_char sep (a ++ String sep b) =
  (split_char sep a ++ split_char sep b)%list.
Proof.
  induction a as [| c a IH]; simpl.
  - rewrite Ascii.eqb_refl. reflexivity.
  - destruct (Ascii.eqb c sep); [rewrite IH; reflexivity |].
    rewrite IH. pose proof (split_char_nonempty sep a) as Hne.
    destruct (split_char sep a) as [| h t]; [congruence | reflexivity].
Qed.

Lemma split_char_free sep s : free_of sep s -> split_char sep s = [s].
Proof.
  induction s as [| c s IH]; simpl; [reflexivity |].
  intros [Hc Hs]. rewrite Hc, (IH Hs). reflexivity.
Qed.

Lemma split_char_parts_free sep s : Forall (free_of sep) (split_char sep s).
Proof.
  induction s as [| c s IH]; simpl.
  - constructor; [exact I | constructor].
  - destruct (Ascii.eqb c sep) eqn:E.
    + constructor; [exact I | assumption].
    + destruct (split_char sep s) as [| h t].
      * constructor; [simpl; auto | constructor].
      * inversion IH; subst. constructor; [simpl; auto | assumption].
Qed.

Lemma last_app_nonempty {A : Type} (l1 l2 : list A) (d : A) :
  l2 <> [] -> last (l1 ++ l2) d = last l2 d.
Proof.
  intros Hne. induction l1 as [| x l1 IH]; [reflexivity |].
  simpl. destruct (l1 ++ l2)%list eqn:E; [| exact IH].
  apply app_eq_nil in E as [_ E]. contradiction.
Qed.

Lemma last_Forall {A : Type} (P : A -> Prop) (l : list A) (d : A) :
  P d -> Forall P l -> P (last l d).
Proof.
  intros Hd H. induction H as [| x l Hx Hl IH]; [exact Hd |].
  simpl. destruct l; assumption.
Qed.

Lemma last_segment_trailing_slash folder : last_segment (folder ++ "/") = "".
Proof.
  unfold last_segment. change (folder ++ "/") with (folder ++ String "/" "").
  rewrite split_char_append, last_app_nonempty by apply split_char_nonempty.
  reflexivity.
Qed.

(** The scratch file of a blob is named by what follows the last [/]
    of the blob's name: the name never contains a [/]; for a name
    [folder/file] it is [file], whatever the folder; and for a name
    that ends in [/] it is empty. *)
Theorem last_segment_spec (folder file : string) :
  free_of "/" (last_segment (folder ++ "/" ++ file)) /\
  (free_of "/" file -> last_segment (folder ++ "/" ++ file) = file) /\
  last_segment (folder ++ "/") = "" /\
  (free_of "/" file -> last_segment file = file).
Proof.
  unfold last_segment. split; [| split; [| split]].
  - apply last_Forall; [exact I | apply split_char_parts_free].
  - intros Hf. change ("/" ++ file) with (String "/" file).
    rewrite split_char_append, last_app_nonempty
      by apply split_char_nonempty.
    rewrite (split_char_free _ _ Hf). reflexivity.
  - apply last_segment_trailing_slash.
  - intros Hf. rewrite (split_char_free _ _ Hf). reflexivity.
Qed.

Lemma last_segment_spec_witness :
  last_segment ("reports/2024" ++ "/" ++ "q1.pdf") = "q1.pdf".
Proof.
  apply (proj1 (proj2 (last_segment_spec "reports/2024" "q1.pdf"))).
  simpl. repeat split; reflexivity.
Defined.

(** ** Blobs the run cannot get past *)

Lemma find_listed (b : blob) (blobs : list blob) :
  In b blobs ->
  exists b0, find (fun x => String.eqb (name x) (name b)) blobs = Some b0.
Proof.
  intros Hin.
  destruct (find (fun x => String.eqb (name x) (name b)) blobs) eqn:E;
    [eauto |].
  apply (find_none _ _ E) in Hin. rewrite String.eqb_refl in Hin.
  discriminate.
Qed.

(** A new blob whose name ends in [/] (a folder marker) cannot be
    written to [temp/blob]: after downloading it, [process_blob] raises
    IsADirectoryError; nothing is written, uploaded or recorded, so the
    blob is met again, and fails again, on every run. *)
Theorem folder_marker_blob_raises (w : world) (b : blob) (folder : string) :
  fst (__check_availablity (name b) w) = Return (Some true) ->
  In b (container w) ->
  name b = folder ++ "/" ->
  exists w',
    process_blob b w = (Raise (IsADirectoryError "temp/blob/"), w') /\
    downloads w' = (downloads w ++ [name b])%list /\
    blob_dir w' = blob_dir w /\ txt_dir w' = txt_dir w /\
    uploads w' = uploads w /\ index w' = index w /\ db w' = db w /\
    fst (__check_availablity (name b) w') = Return (Some true).
Proof.
  intros Hnew Hin Hname.
  apply check_new_inv in Hnew as (rows & E & Hn).
  destruct (find_listed b (container w) Hin) as (b0 & Hfind).
  assert (Hseg : last_segment (name b) = "").
  { rewrite Hname. apply last_segment_trailing_slash. }
  rewrite (process_blob_new w b rows E Hn).
  unfold bind at 1. unfold logger_info at 1, modify at 1.
  unfold bind at 1. unfold download_blob at 1. simpl container.
  rewrite Hfind. unfold bind at 1. unfold open_write at 1.
  unfold bind at 1. unfold os_listdir at 1. simpl String.eqb. cbv iota.
  rewrite Hseg. simpl names_directory. cbv iota. unfold raise at 1.
  eexists. split; [reflexivity |]. simpl.
  repeat split; auto.
  rewrite (check_Table _ _ rows) by (simpl; exact E). rewrite Hn. reflexivity.
Qed.

Lemma folder_marker_blob_raises_witness :
  exists w',
    process_blob (mkBlob "archive/" "")
      (sample_world (Table []) [mkBlob "archive/" ""; mkBlob "a.pdf" "text"]) =
    (Raise (IsADirectoryError "temp/blob/"), w') /\
    downloads w' = ([] ++ ["archive/"])%list /\
    blob_dir w' = [] /\ txt_dir w' = [] /\
    uploads w' = [] /\ index w' = [] /\ db w' = Table [] /\
    fst (__check_availablity "archive/" w') = Return (Some true).
Proof.
  apply (folder_marker_blob_raises
           (sample_world (Table []) [mkBlob "archive/" ""; mkBlob "a.pdf" "text"])
           (mkBlob "archive/" "") "archive").
  - reflexivity.
  - left. reflexivity.
  - reflexivity.
Defined.

Lemma for_each_app {A : Type} (body : A -> M unit) (l1 l2 : list A) w :
  for_each body (l1 ++ l2) w =
  (for_each body l1 ;; for_each body l2) w.
Proof.
  revert w. induction l1 as [| x l1 IH]; intros w; simpl; [reflexivity |].
  unfold bind in *. destruct (body x w) as [[[] | e] w1]; [| reflexivity].
  apply IH.
Qed.

(** No blob's failure is contained: when [process_blob] raises on a
    blob, [trigger_pipeline] ends there with the same exception, in
    the world that blob left, and the blobs listed after it are not
    looked at in this run. *)
Theorem run_stops_at_the_first_exception (w w1 w2 : world)
    (done rest : list blob) (b : blob) (e : exn) :
  container w = (done ++ b :: rest)%list ->
  for_each process_blob done (add_log (INFO, "Pipeline Triggered") w) =
  (Return tt, w1) ->
  process_blob b w1 = (Raise e, w2) ->
  trigger_pipeline w = (Raise e, w2).
Proof.
  intros Hc Hdone Hb.
  unfold trigger_pipeline, __get_blobs_list.
  unfold bind at 1. unfold logger_info, modify.
  unfold bind at 1. unfold gets. simpl container. rewrite Hc.
  rewrite for_each_app. rewrite (bind_Return _ _ _ _ _ Hdone). simpl.
  rewrite (bind_Raise _ _ _ _ _ Hb). reflexivity.
Qed.

Lemma run_stops_at_the_first_exception_witness :
  fst (trigger_pipeline
         (unreadable_world (Table [(1%Z, "old.pdf")])
            [mkBlob "old.pdf" "x"; mkBlob "a.pdf" "y"; mkBlob "b.pdf" "z"])) =
  Raise (LoaderError "temp/blob/a.pdf") /\
  downloads (snd (trigger_pipeline
         (unreadable_world (Table [(1%Z, "old.pdf")])
            [mkBlob "old.pdf" "x"; mkBlob "a.pdf" "y"; mkBlob "b.pdf" "z"]))) =
  ["a.pdf"].
Proof.
  rewrite (run_stops_at_the_first_exception
             (unreadable_world (Table [(1%Z, "old.pdf")])
                [mkBlob "old.pdf" "x"; mkBlob "a.pdf" "y"; mkBlob "b.pdf" "z"])
             (snd (for_each process_blob [mkBlob "old.pdf" "x"]
                     (add_log (INFO, "Pipeline Triggered")
                        (unreadable_world (Table [(1%Z, "old.pdf")])
                           [mkBlob "old.pdf" "x"; mkBlob "a.pdf" "y";
                            mkBlob "b.pdf" "z"]))))
             (snd (process_blob (mkBlob "a.pdf" "y")
                     (snd (for_each process_blob [mkBlob "old.pdf" "x"]
                             (add_log (INFO, "Pipeline Triggered")
                                (unreadable_world (Table [(1%Z, "old.pdf")])
                                   [mkBlob "old.pdf" "x"; mkBlob "a.pdf" "y";
                                    mkBlob "b.pdf" "z"]))))))
             [mkBlob "old.pdf" "x"] [mkBlob "b.pdf" "z"] (mkBlob "a.pdf" "y")
             (LoaderError "temp/blob/a.pdf")).
  - split; [reflexivity | vm_compute; reflexivity].
  - reflexivity.
  - vm_compute. reflexivity.
  - vm_compute. reflexivity.
Defined.

(** ** Initializing the ledger *)

Lemma create_Absent w :
  db w = Absent ->
  __create_sqlite_database w =
  (Return tt,
   add_log (INFO, "Closing the connection with the database.")
     (add_log (INFO, "Database created at: database/file_check_in.db, along with table.")
        (set_db (Table [])
           (add_log (INFO, "Creating a persistent table")
              (add_log (INFO, "Checking for the availablity of the database at database/file_check_in.db")
                 w))))).
Proof.
  intros E. unfold __create_sqlite_database, bind, logger_info, modify, gets.
  simpl. rewrite E. reflexivity.
Qed.

Lemma create_present w :
  db w <> Absent ->
  __create_sqlite_database w =
  (Return tt,
   add_log (WARNING, "Database 'database/file_check_in.db' already exists. Exiting the function.")
     (add_log (INFO, "Checking for the availablity of the database at database/file_check_in.db")
        w)).
Proof.
  intros E.
  unfold __create_sqlite_database, bind, logger_info, logger_warn, modify, gets.
  simpl. destruct (db w); [reflexivity | congruence | reflexivity | reflexivity].
Qed.

Lemma create_at_present a w :
  db w <> Absent ->
  FileAccess.__create_sqlite_database a w =
  (Return tt,
   add_log (WARNING, "Database 'database/file_check_in.db' already exists. Exiting the function.")
     (add_log (INFO, "Checking for the availablity of the database at database/file_check_in.db")
        w)).
Proof.
  intros E.
  unfold FileAccess.__create_sqlite_database, bind, logger_info, logger_warn,
    modify, gets.
  simpl. destruct (db w); [reflexivity | congruence | reflexivity | reflexivity].
Qed.

Lemma create_at_Absent_read_only w :
  db w = Absent ->
  FileAccess.__create_sqlite_database FileAccess.ReadOnly w =
  (Raise (OperationalError "unable to open database file"),
   add_log (INFO, "Checking for the availablity of the database at database/file_check_in.db")
     w).
Proof.
  intros E.
  unfold FileAccess.__create_sqlite_database, bind, logger_info, modify, gets,
    FileAccess.sqlite3_connect.
  simpl. rewrite E. simpl. rewrite E. reflexivity.
Qed.

Lemma create_at_Absent_read_write w :
  db w = Absent ->
  FileAccess.__create_sqlite_database FileAccess.ReadWrite w =
  (Return tt,
   add_log (INFO, "Closing the connection with the database.")
     (add_log (INFO, "Database created at: database/file_check_in.db, along with table.")
        (set_db (Table [])
           (add_log (INFO, "Creating a persistent table")
              (add_log (INFO, "Checking for the availablity of the database at database/file_check_in.db")
                 w))))).
Proof.
  intros E. rewrite read_write_create_sqlite_database.
  apply create_Absent. exact E.
Qed.

Lemma check_at_Table a w file_name rows :
  db w = Table rows ->
  FileAccess.__check_availablity a file_name w =
  (Return (Some (negb (has_name file_name rows))), w).
Proof.
  intros E.
  unfold FileAccess.__check_availablity, FileAccess.with_connection,
    FileAccess.try_finally, FileAccess.sqlite3_connect, try_except, bind,
    sql_select, FileAccess.conn_close.
  repeat (rewrite E; cbv beta iota). rewrite select_has_name.
  destruct (has_name file_name rows); reflexivity.
Qed.

Lemma check_at_Absent_read_only w file_name :
  db w = Absent ->
  FileAccess.__check_availablity FileAccess.ReadOnly file_name w =
  (Raise (UnboundLocalError "conn"),
   add_log (ERROR, "Failed to check availablity: unable to open database file") w).
Proof.
  intros E.
  unfold FileAccess.__check_availablity, FileAccess.with_connection,
    FileAccess.try_finally, FileAccess.sqlite3_connect, try_except, bind,
    FileAccess.conn_close.
  repeat (rewrite E; cbv beta iota). reflexivity.
Qed.

(** [__create_sqlite_database] looks for the file first.  When it
    exists, the database is left exactly as it is, with a warning.
    When it does not, the connection is opened outside the [try]
    block: where the folder can be written, the file and the table
    are created and every name is new afterwards; where it cannot,
    OperationalError reaches the caller, nothing is created, and the
    ledger check raises afterwards.  Whenever the method returns, no
    row was lost and a second call changes nothing. *)
Theorem create_sqlite_database_spec (a : FileAccess.access) (w : world) :
  (db w <> Absent ->
   exists w1,
     FileAccess.__create_sqlite_database a w = (Return tt, w1) /\
     db w1 = db w /\
     In (WARNING,
         "Database 'database/file_check_in.db' already exists. Exiting the function.")
        (log w1)) /\
  (db w = Absent -> a = FileAccess.ReadWrite ->
   exists w1,
     FileAccess.__create_sqlite_database a w = (Return tt, w1) /\
     db w1 = Table [] /\
     forall file_name,
       FileAccess.__check_availablity a file_name w1 =
       (Return (Some true), w1)) /\
  (db w = Absent -> a = FileAccess.ReadOnly ->
   exists w1,
     FileAccess.__create_sqlite_database a w =
     (Raise (OperationalError "unable to open database file"), w1) /\
     db w1 = Absent /\
     forall file_name,
       fst (FileAccess.__check_availablity a file_name w1) =
       Raise (UnboundLocalError "conn")) /\
  (forall w1,
     FileAccess.__create_sqlite_database a w = (Return tt, w1) ->
     rows_of (db w1) = rows_of (db w) /\
     exists w2,
       FileAccess.__create_sqlite_database a w1 = (Return tt, w2) /\
       db w2 = db w1).
Proof.
  split; [| split; [| split]].
  - intros E. rewrite (create_at_present a w E). eexists.
    split; [reflexivity |]. split; [reflexivity |].
    simpl. apply in_or_app. right. left. reflexivity.
  - intros E ->. rewrite (create_at_Absent_read_write w E). eexists.
    split; [reflexivity |]. split; [reflexivity |].
    intros file_name. erewrite check_at_Table by reflexivity. reflexivity.
  - intros E ->. rewrite (create_at_Absent_read_only w E). eexists.
    split; [reflexivity |]. split; [exact E |].
    intros file_name. rewrite check_at_Absent_read_only by exact E.
    reflexivity.
  - intros w1 H.
    assert (Hw1 : rows_of (db w1) = rows_of (db w) /\ db w1 <> Absent).
    { destruct (db w) eqn:E;
        try (rewrite create_at_present in H by congruence; inversion H;
             subst w1; simpl; rewrite E; split; [reflexivity | discriminate]).
      destruct a.
      - rewrite (create_at_Absent_read_write w E) in H. inversion H; subst w1.
        simpl. split; [reflexivity | discriminate].
      - rewrite (create_at_Absent_read_only w E) in H. discriminate. }
    destruct Hw1 as (Hrows & Hfile). split; [exact Hrows |].
    rewrite (create_at_present a w1 Hfile). eexists.
    split; reflexivity.
Qed.

Lemma create_sqlite_database_spec_witness :
  exists w1,
    FileAccess.__create_sqlite_database FileAccess.ReadOnly
      (sample_world Absent []) =
    (Raise (OperationalError "unable to open database file"), w1) /\
    db w1 = Absent.
Proof.
  destruct (proj1 (proj2 (proj2 (create_sqlite_database_spec
                                   FileAccess.ReadOnly
                                   (sample_world Absent []))))
              eq_refl eq_refl)
    as (w1 & H1 & H2 & _).
  exists w1. split; assumption.
Defined.

(** The ledger is append-only: whatever is called afterwards
    (initialization, checks, inserts, runs of the pipeline), the rows
    of the table stay, in their order, and new ones come after them. *)
Theorem ledger_is_append_only (w : world) (rows : list row)
    (calls : list ledger_call) :
  db w = Table rows ->
  exists more, db (after_calls calls w) = Table (rows ++ more).
Proof.
  intros E.
  apply (up_after_calls (fun d => exists more, d = Table (rows ++ more))).
  - intros rows' n (more & Hm). inversion Hm; subst rows'.
    exists (more ++ [(next_rowid (rows ++ more), n)])%list.
    rewrite app_assoc. reflexivity.
  - intros (more & Hm). discriminate.
  - intros (more & Hm). discriminate.
  - exists []. rewrite app_nil_r. exact E.
Qed.

Lemma ledger_is_append_only_witness :
  exists more,
    db (after_calls [LedgerInitialize; PipelineRun; LedgerRecord "z"]
          (sample_world (Table [(4%Z, "old.pdf")]) [mkBlob "a.pdf" "text"])) =
    Table ([(4%Z, "old.pdf")] ++ more).
Proof.
  apply (ledger_is_append_only
           (sample_world (Table [(4%Z, "old.pdf")]) [mkBlob "a.pdf" "text"])
           [(4%Z, "old.pdf")]).
  reflexivity.
Defined.

(** ** A database file without the table *)

Lemma check_log_grows file_name w r w1 :
  __check_availablity file_name w = (r, w1) ->
  forall x, In x (log w) -> In x (log w1).
Proof.
  intros H x Hin. destruct (db w) as [| | | rows] eqn:E.
  - rewrite check_Unopenable in H by assumption. inversion H; subst.
    simpl. apply in_or_app. auto.
  - rewrite check_Absent in H by assumption. inversion H; subst.
    simpl. apply in_or_app. auto.
  - rewrite check_Empty in H by assumption. inversion H; subst.
    simpl. apply in_or_app. auto.
  - rewrite (check_Table _ _ rows) in H by assumption. inversion H; subst.
    assumption.
Qed.

Lemma all_skipped_run_log blobs w w' :
  (forall b, In b blobs -> skips (name b) (db w)) ->
  for_each process_blob blobs w = (Return tt, w') ->
  (forall x, In x (log w) -> In x (log w')) /\
  (forall b, In b blobs ->
     In (WARNING, name b ++ " has already been processed") (log w')).
Proof.
  revert w. induction blobs as [| x rest IH]; intros w Hall H.
  - simpl in H. inversion H; subst. split; [auto | intros b []].
  - destruct (skips_check (name x) w (Hall x (or_introl eq_refl)))
      as (r & w1 & Hc & Hr).
    destruct (check_falsy_frame _ _ _ _ Hc Hr)
      as (_ & _ & _ & _ & _ & _ & _ & _ & _ & _ & _ & Hmono).
    pose proof (process_blob_skip _ _ _ _ Hc Hr) as Hp.
    simpl in H. rewrite (bind_Return _ _ _ _ _ Hp) in H.
    apply IH in H as (Hlog & Hwarn).
    + split.
      * intros y Hy. apply Hlog. simpl. apply in_or_app. left.
        eapply check_log_grows; eauto.
      * intros b [<- | Hin]; [| auto].
        apply Hlog. simpl. apply in_or_app. right. left. reflexivity.
    + intros b Hin. simpl. apply Hmono, Hall. right. assumption.
Qed.

(** When the database file exists but holds no table [checked_files],
    the constructor's initialization does not repair it, and every run
    of [trigger_pipeline] then returns normally having ingested
    nothing: each blob's check fails, is logged, and the blob is
    reported as already processed. *)
Theorem tableless_database_ingests_nothing (w : world) :
  db w = Empty ->
  exists w1 w2,
    __create_sqlite_database w = (Return tt, w1) /\
    db w1 = Empty /\
    trigger_pipeline w1 = (Return tt, w2) /\
    db w2 = Empty /\
    uploads w2 = uploads w /\ downloads w2 = downloads w /\
    index w2 = index w /\
    forall b, In b (container w) ->
      In (WARNING, name b ++ " has already been processed") (log w2).
Proof.
  intros E.
  assert (H1 : exists w1,
            __create_sqlite_database w = (Return tt, w1) /\
            db w1 = Empty /\
            container w1 = container w /\ uploads w1 = uploads w /\
            downloads w1 = downloads w /\ index w1 = index w).
  { rewrite create_present by congruence. eexists.
    split; [reflexivity |]. simpl. auto. }
  destruct H1 as (w1 & H1 & E1 & Fc & Fu & Fd & Fi).
  destruct (all_skipped_run (container w1)
              (add_log (INFO, "Pipeline Triggered") w1))
    as (w2 & Hrun & G1 & G2 & G3 & G4 & G5 & G6 & G7 & G8).
  { intros b Hin. simpl. rewrite E1. exact I. }
  destruct (all_skipped_run_log (container w1)
              (add_log (INFO, "Pipeline Triggered") w1) w2) as (_ & Hwarn).
  { intros b Hin. simpl. rewrite E1. exact I. }
  { exact Hrun. }
  assert (E2 : db w2 = Empty).
  { assert (K : keeps (upward (fun w => db w = Empty))
                  (for_each process_blob (container w1))).
    { apply keeps_for_each; [auto with frames |]. intros b.
      apply (up_process_blob (fun d => d = Empty)).
      - intros rows n Hd. discriminate.
      - auto. }
    apply K in Hrun. apply Hrun. simpl. exact E1. }
  exists w1, w2. simpl in *.
  split; [exact H1 |]. split; [exact E1 |]. split; [exact Hrun |].
  split; [exact E2 |].
  split; [congruence |]. split; [congruence |]. split; [congruence |].
  intros b Hin. apply Hwarn. rewrite Fc. exact Hin.
Qed.

Lemma tableless_database_ingests_nothing_witness :
  exists w1 w2,
    __create_sqlite_database
      (sample_world Empty [mkBlob "a.pdf" "text"]) = (Return tt, w1) /\
    db w1 = Empty /\
    trigger_pipeline w1 = (Return tt, w2) /\
    db w2 = Empty /\
    uploads w2 = [] /\ downloads w2 = [] /\ index w2 = [] /\
    forall b, In b [mkBlob "a.pdf" "text"] ->
      In (WARNING, name b ++ " has already been processed") (log w2).
Proof.
  apply (tableless_database_ingests_nothing
           (sample_world Empty [mkBlob "a.pdf" "text"])).
  reflexivity.
Defined.

(** ** A constructor that returned *)

Lemma os_environ_inv p key w value w' :
  os_environ p key w = (Return value, w') ->
  getenv p key = Some value /\ w' = w.
Proof.
  unfold os_environ. destruct (getenv p key); intros H; inversion H. auto.
Qed.

Lemma logging_basicConfig_inv p w w1 :
  logging_basicConfig p w = (Return tt, w1) ->
  (root_has_handlers p = true \/ logs_dir_exists p = true) /\ w1 = w.
Proof.
  unfold logging_basicConfig, logging_basicConfig_to.
  destruct (root_has_handlers p); [intros H; inversion H; auto |].
  destruct (logs_dir_exists p); intros H; inversion H; auto.
Qed.


(** What a call of [__create_sqlite_database] that returned has left. *)
Lemma create_at_returned a w w1 :
  FileAccess.__create_sqlite_database a w = (Return tt, w1) ->
  db w1 <> Absent /\ rows_of (db w1) = rows_of (db w) /\ ext w1 = ext w /\
  (forall msg, In (ERROR, msg) (log w1) -> In (ERROR, msg) (log w)).
Proof.
  intros H.
  assert (Hlog : forall (l : list log_record) x y msg,
            In (ERROR, msg) ((l ++ [(INFO, x)]) ++ [(WARNING, y)])%list ->
            In (ERROR, msg) l).
  { intros l x y msg Hin.
    apply in_app_or in Hin as [Hin | [Hin | []]]; [| discriminate Hin].
    apply in_app_or in Hin as [Hin | [Hin | []]]; [exact Hin | discriminate Hin]. }
  destruct (db w) eqn:E;
    try (rewrite create_at_present in H by congruence; inversion H; subst w1;
         simpl; rewrite E;
         split; [discriminate |]; split; [reflexivity |];
         split; [reflexivity |]; apply Hlog).
  destruct a.
  - rewrite (create_at_Absent_read_write w E) in H. inversion H; subst w1.
    simpl. split; [discriminate |]. split; [reflexivity |].
    split; [reflexivity |].
    intros msg Hin.
    repeat (apply in_app_or in Hin as [Hin | [Hin | []]];
            try discriminate Hin).
    exact Hin.
  - rewrite (create_at_Absent_read_only w E) in H. discriminate.
Qed.

(** [__init__] returns only for an [index_name] that is a non-empty
    [str] or an [int]: then the log file could be set up (or the root
    logger had a handler already), the four settings were there, the
    connection string was accepted, the ledger file exists with the
    rows it had, [self.index_name] is [str(index_name)] and the search
    client is bound to it at [https://<service>.search.windows.net]. *)
Theorem init_returns_only_for_valid_names (a : FileAccess.access)
    (p : process) (v : pyval) (w w' : world) (self : instance) :
  FileAccess.__init__ a p v w = (Return self, w') ->
  isinstance_str_int v && ne_empty_str v = true /\
  (root_has_handlers p = true \/ logs_dir_exists p = true) /\
  (exists conn_str cont service_name admin_key s,
     getenv p "AZURE_STORAGE_CONNECTION_STRING" = Some conn_str /\
     getenv p "AZURE_CONTAINER_NAME" = Some cont /\
     getenv p "AZURE_COGNITIVE_SEARCH_SERVICE_NAME" = Some service_name /\
     getenv p "AZURE_COGNITIVE_SEARCH_KEY" = Some admin_key /\
     connection_string_ok (ext w) conn_str = true /\
     (forall w0, py_str v w0 = (Return s, w0)) /\
     self =
       mkInstance (Some conn_str) (Some cont) (Some cont) (Some s)
         (Some ("https://" ++ service_name ++ ".search.windows.net", s))
         (Some ("https://" ++ service_name ++ ".search.windows.net"))) /\
  db w' <> Absent /\
  rows_of (db w') = rows_of (db w).
Proof.
  intros H. unfold FileAccess.__init__ in H.
  apply bind_inv_Return in H as ([] & w1 & H1 & H).
  apply logging_basicConfig_inv in H1 as (Hlogs & ->).
  apply bind_inv_Return in H as ([] & w2 & H2 & H).
  apply create_at_returned in H2 as (Hdb & Hrows & Hext & _).
  apply bind_inv_Return in H as (conn_str & w3 & H3 & H).
  apply os_environ_inv in H3 as (G1 & ->).
  apply bind_inv_Return in H as (cont & w4 & H4 & H).
  apply os_environ_inv in H4 as (G2 & ->).
  apply bind_inv_Return in H as (service_name & w5 & H5 & H).
  apply os_environ_inv in H5 as (G3 & ->).
  apply bind_inv_Return in H as (admin_key & w6 & H6 & H).
  apply os_environ_inv in H6 as (G4 & ->).
  apply bind_inv_Return in H as ([] & w7 & H7 & H).
  inversion H7; subst w7. clear H7.
  apply bind_inv_Return in H as ([] & w8 & H8 & H).
  unfold from_connection_string, bind, gets in H8. simpl in H8.
  destruct (connection_string_ok (ext w2) conn_str) eqn:Hok;
    inversion H8; subst w8. clear H8.
  apply bind_inv_Return in H as ([] & w9 & H9 & H).
  inversion H9; subst w9. clear H9.
  apply bind_inv_Return in H as (self1 & w10 & H10 & H).
  apply bind_inv_Return in H as ([] & w11 & H11 & H).
  inversion H11; subst w11. clear H11.
  apply bind_inv_Return in H as (idx & w12 & H12 & H).
  apply bind_inv_Return in H as ([] & w13 & H13 & H).
  inversion H13; subst w13. clear H13.
  apply bind_inv_Return in H as ([] & w14 & H14 & H).
  inversion H14; subst w14. clear H14.
  inversion H; subst self w'. clear H.
  unfold check_index_name in H10.
  destruct (isinstance_str_int v && ne_empty_str v) eqn:Hv.
  - apply bind_inv_Return in H10 as (s & w10' & Hs & H10).
    inversion H10; subst self1 w10. clear H10.
    unfold get_index_name in H12. simpl in H12. inversion H12; subst idx w12.
    assert (Hpure : forall w0, py_str v w0 = (Return s, w0) /\ w10' = w10'
                               /\ db w10' = db w2).
    { intros w0. revert Hs. unfold py_str.
      destruct v as [s0 | z | [|] | s0 | | repr];
        try (destruct (10 ^ 4300 <=? Z.abs z)%Z);
        intros Hs; inversion Hs; subst; auto. }
    split; [reflexivity |]. split; [exact Hlogs |].
    split.
    + exists conn_str, cont, service_name, admin_key, s.
      rewrite <- Hext. repeat split; auto. intros w0. apply Hpure.
    + destruct (Hpure w) as (_ & _ & Hd). simpl. rewrite Hd, Hrows. auto.
  - apply bind_inv_Return in H10 as ([] & w10' & _ & H10).
    inversion H10; subst self1 w10. discriminate H12.
Qed.

Lemma init_returns_only_for_valid_names_witness :
  isinstance_str_int (PyStr "langchain-pipeline-index")
  && ne_empty_str (PyStr "langchain-pipeline-index") = true /\
  index_name
    (match fst (FileAccess.__init__ FileAccess.ReadOnly sample_process
                  (PyStr "langchain-pipeline-index")
                  (sample_world (Table []) [])) with
     | Return self => self
     | Raise _ => mkInstance None None None None None None
     end) = Some "langchain-pipeline-index".
Proof.
  destruct (init_returns_only_for_valid_names FileAccess.ReadOnly
              sample_process
              (PyStr "langchain-pipeline-index") (sample_world (Table []) [])
              (snd (FileAccess.__init__ FileAccess.ReadOnly sample_process
                      (PyStr "langchain-pipeline-index")
                      (sample_world (Table []) [])))
              (mkInstance (Some "UseDevelopmentStorage=true") (Some "documents")
                 (Some "documents") (Some "langchain-pipeline-index")
                 (Some ("https://search.search.windows.net",
                        "langchain-pipeline-index"))
                 (Some "https://search.search.windows.net")))
    as (Hv & _).
  - vm_compute. reflexivity.
  - split; [exact Hv | vm_compute; reflexivity].
Defined.

(** ** The indexer pipeline *)

Lemma log_grows_refl w : log_grows w w.
Proof. intros x H. exact H. Qed.

Lemma log_grows_trans w1 w2 w3 :
  log_grows w1 w2 -> log_grows w2 w3 -> log_grows w1 w3.
Proof. intros H1 H2 x H. auto. Qed.

Lemma log_grows_add r w : log_grows w (add_log r w).
Proof. intros x H. simpl. apply in_or_app. auto. Qed.

Lemma In_add_log r w : In r (log (add_log r w)).
Proof. simpl. apply in_or_app. right. left. reflexivity. Qed.

Lemma create_index_assigned svc self name w :
  AzureBlobAISearchPipeline.index_name self = Some name ->
  exists w',
    AzureBlobAISearchPipeline.create_index svc self w = (Return tt, w') /\
    log_grows w w' /\
    In (INFO, "Trying to create an index...") (log w') /\
    (forall e, AzureBlobAISearchPipeline.answer_create_index svc name = inl e ->
       In (WARNING,
           "The index by name " ++ name
           ++ " might be present. Stopping the creation of index with error "
           ++ exn_name e ++ ".") (log w')) /\
    (forall created, AzureBlobAISearchPipeline.answer_create_index svc name = inr created ->
       In (INFO, "Index Created successfully by name " ++ name ++ ".") (log w')).
Proof.
  intros Hn.
  unfold AzureBlobAISearchPipeline.create_index, bind, try_except, AzureBlobAISearchPipeline.getattr, AzureBlobAISearchPipeline.request,
    logger_info, logger_warn, modify, ret, raise.
  rewrite Hn. destruct (AzureBlobAISearchPipeline.answer_create_index svc name) as [e | created];
    eexists; (split; [reflexivity |]); simpl.
  - split; [intros x H; repeat (apply in_or_app; left); exact H |].
    split; [apply in_or_app; left; apply in_or_app; right; left; reflexivity |].
    split; [| intros c Hc; discriminate Hc].
    intros e' He. inversion He; subst e'.
    apply in_or_app. right. left. reflexivity.
  - split; [intros x H; repeat (apply in_or_app; left); exact H |].
    split; [do 2 (apply in_or_app; left); apply in_or_app; right; left;
            reflexivity |].
    split; [intros e He; discriminate He |].
    intros c _. apply in_or_app. right. left. reflexivity.
Qed.

Lemma create_datasource_assigned svc self name w :
  AzureBlobAISearchPipeline.data_source_name self = Some name ->
  exists w',
    AzureBlobAISearchPipeline.create_datasource svc self w = (Return tt, w') /\
    log_grows w w' /\
    In (INFO, "Trying to create an datasource...") (log w').
Proof.
  intros Hn.
  unfold AzureBlobAISearchPipeline.create_datasource, bind, try_except, AzureBlobAISearchPipeline.getattr, AzureBlobAISearchPipeline.request,
    logger_info, logger_warn, modify, ret, raise.
  rewrite Hn. destruct (AzureBlobAISearchPipeline.answer_create_data_source svc name) as [e | created];
    eexists; (split; [reflexivity |]); simpl.
  - split; [intros x H; repeat (apply in_or_app; left); exact H |].
    apply in_or_app; left; apply in_or_app; right; left; reflexivity.
  - split; [intros x H; repeat (apply in_or_app; left); exact H |].
    do 2 (apply in_or_app; left); apply in_or_app; right; left; reflexivity.
Qed.

Lemma create_indexer_assigned svc self name dsn idx w :
  AzureBlobAISearchPipeline.indexer_name self = Some name ->
  AzureBlobAISearchPipeline.data_source_name self = Some dsn ->
  AzureBlobAISearchPipeline.index_name self = Some idx ->
  exists w',
    AzureBlobAISearchPipeline.create_indexer svc self w = (Return tt, w') /\
    log_grows w w' /\
    In (INFO, "Trying to create an indexer...") (log w').
Proof.
  intros Hn Hd Hi.
  unfold AzureBlobAISearchPipeline.create_indexer, bind, try_except, AzureBlobAISearchPipeline.getattr, AzureBlobAISearchPipeline.request,
    logger_info, logger_warn, modify, ret, raise.
  rewrite Hn, Hd, Hi.
  destruct (AzureBlobAISearchPipeline.answer_create_indexer svc name) as [e | created];
    eexists; (split; [reflexivity |]); simpl.
  - split; [intros x H; repeat (apply in_or_app; left); exact H |].
    apply in_or_app; left; apply in_or_app; right; left; reflexivity.
  - split; [intros x H; repeat (apply in_or_app; left); exact H |].
    do 2 (apply in_or_app; left); apply in_or_app; right; left; reflexivity.
Qed.

Lemma run_indexer_returns svc self w :
  exists w',
    AzureBlobAISearchPipeline.run_indexer svc self w = (Return tt, w') /\ log_grows w w' /\
    (forall name e,
       AzureBlobAISearchPipeline.indexer_name self = Some name ->
       AzureBlobAISearchPipeline.answer_run_indexer svc name = Some e ->
       In (ERROR, exn_str e) (log w')).
Proof.
  unfold AzureBlobAISearchPipeline.run_indexer, bind, try_except, AzureBlobAISearchPipeline.getattr, logger_info, logger_warn,
    logger_error, modify, ret, raise.
  destruct (AzureBlobAISearchPipeline.indexer_name self) as [name |].
  - destruct (AzureBlobAISearchPipeline.answer_run_indexer svc name) as [e |] eqn:Ea;
      eexists; (split; [reflexivity |]); simpl.
    + split; [intros x H; apply in_or_app; left; exact H |].
      intros n e' Hn He. inversion Hn; subst n. rewrite Ea in He.
      inversion He; subst e'. apply in_or_app. right. left. reflexivity.
    + split; [intros x H; repeat (apply in_or_app; left); exact H |].
      intros n e' Hn He. inversion Hn; subst n. congruence.
  - eexists. split; [reflexivity |]. simpl.
    split; [intros x H; apply in_or_app; left; exact H |].
    intros n e' Hn. discriminate Hn.
Qed.

Lemma run_query_returns svc self q w :
  exists r w',
    AzureBlobAISearchPipeline.run_query svc self q w = (Return r, w') /\ log_grows w w' /\
    (forall name,
       AzureBlobAISearchPipeline.index_name self = Some name ->
       AzureBlobAISearchPipeline.endpoint_ok svc (AzureBlobAISearchPipeline.search_service_url self) = true ->
       r = match AzureBlobAISearchPipeline.answer_search svc name q with
           | inr results => Some results
           | inl _ => None
           end).
Proof.
  unfold AzureBlobAISearchPipeline.run_query, bind, try_except, AzureBlobAISearchPipeline.getattr, AzureBlobAISearchPipeline.request, AzureBlobAISearchPipeline.new_client,
    logger_info, logger_error, modify, ret, raise.
  destruct (AzureBlobAISearchPipeline.index_name self) as [name |].
  - destruct (AzureBlobAISearchPipeline.endpoint_ok svc (AzureBlobAISearchPipeline.search_service_url self)).
    + destruct (AzureBlobAISearchPipeline.answer_search svc name q) as [e | results] eqn:Ea;
        eexists; eexists; (split; [reflexivity |]); simpl;
        (split; [intros x H; repeat (apply in_or_app; left); exact H |]);
        intros n Hn _; inversion Hn; subst n; rewrite Ea; reflexivity.
    + eexists. eexists. split; [reflexivity |]. simpl.
      split; [intros x H; repeat (apply in_or_app; left); exact H |].
      intros n _ Hf. discriminate Hf.
  - eexists. eexists. split; [reflexivity |]. simpl.
    split; [intros x H; repeat (apply in_or_app; left); exact H |].
    intros n Hn. discriminate Hn.
Qed.

Lemma checked_name_valid tested value message s w :
  isinstance_str_int tested && ne_empty_str tested = true ->
  py_str value w = (Return s, w) ->
  AzureBlobAISearchPipeline.checked_name tested value message w =
  (Return (Some s), w).
Proof.
  intros Hv Hs. unfold AzureBlobAISearchPipeline.checked_name.
  rewrite Hv. unfold bind. rewrite Hs. reflexivity.
Qed.

Lemma checked_name_invalid tested value message w :
  isinstance_str_int tested && ne_empty_str tested = false ->
  AzureBlobAISearchPipeline.checked_name tested value message w =
  (Return None, add_log (ERROR, message) w).
Proof.
  intros Hv. unfold AzureBlobAISearchPipeline.checked_name.
  rewrite Hv. reflexivity.
Qed.

Lemma indexer_init_reads_settings p svc i d x url key cont datasource_url w :
  indexer_settings p url key cont datasource_url ->
  AzureBlobAISearchPipeline.__init__ p svc i d x w =
  (idx <- AzureBlobAISearchPipeline.checked_name i i
            "Index name must be an str or int" ;;
   dsn <- AzureBlobAISearchPipeline.checked_name d d
            "Data source name must be an str or int" ;;
   ixr <- AzureBlobAISearchPipeline.checked_name i x
            "Indexer name must be an str or int" ;;
   AzureBlobAISearchPipeline.new_client svc url ;;
   AzureBlobAISearchPipeline.new_client svc url ;;
   logger_info "Intialization done successfully" ;;
   ret (AzureBlobAISearchPipeline.mkInstance url key cont datasource_url
          idx dsn ixr)) w.
Proof.
  intros ((v1 & H1) & H2 & H3 & (v4 & H4) & (v5 & H5) & H6 & H7).
  unfold AzureBlobAISearchPipeline.__init__, os_environ.
  rewrite H1, H2, H3, H4, H5, H6, H7. reflexivity.
Qed.

(** In [AzureBlobAISearchPipeline.__init__] the test that guards
    [self.indexer_name] looks at [index_name]: with a valid index name
    and data source name, any [indexer_name] at all (the empty string,
    [None]) is accepted and stored as [str(indexer_name)], and no error
    is logged. *)
Theorem indexer_name_is_not_validated (p : process)
    (svc : AzureBlobAISearchPipeline.search_service) (i d x : pyval)
    (url key cont datasource_url si sd sx : string) (w : world) :
  indexer_settings p url key cont datasource_url ->
  AzureBlobAISearchPipeline.endpoint_ok svc url = true ->
  isinstance_str_int i && ne_empty_str i = true ->
  isinstance_str_int d && ne_empty_str d = true ->
  (forall w0, py_str i w0 = (Return si, w0)) ->
  (forall w0, py_str d w0 = (Return sd, w0)) ->
  (forall w0, py_str x w0 = (Return sx, w0)) ->
  AzureBlobAISearchPipeline.__init__ p svc i d x w =
  (Return (AzureBlobAISearchPipeline.mkInstance url key cont datasource_url
             (Some si) (Some sd) (Some sx)),
   add_log (INFO, "Intialization done successfully") w).
Proof.
  intros Hset Hok Hi Hd Hsi Hsd Hsx.
  rewrite (indexer_init_reads_settings _ _ _ _ _ _ _ _ _ _ Hset).
  rewrite (bind_Return _ _ _ _ _ (checked_name_valid i i _ si w Hi (Hsi w))).
  rewrite (bind_Return _ _ _ _ _ (checked_name_valid d d _ sd w Hd (Hsd w))).
  rewrite (bind_Return _ _ _ _ _ (checked_name_valid i x _ sx w Hi (Hsx w))).
  unfold bind, AzureBlobAISearchPipeline.new_client. rewrite Hok.
  reflexivity.
Qed.

Lemma indexer_name_is_not_validated_witness :
  AzureBlobAISearchPipeline.__init__ indexer_process sample_service
    (PyStr "pipeline-blob-index") (PyStr "pipeline-blob-datasource") PyNone
    (sample_world Absent []) =
  (Return (AzureBlobAISearchPipeline.mkInstance
             "https://search.search.windows.net" "key" "documents"
             "ResourceId=/subscriptions/x;"
             (Some "pipeline-blob-index") (Some "pipeline-blob-datasource")
             (Some "None")),
   add_log (INFO, "Intialization done successfully") (sample_world Absent [])).
Proof.
  apply (indexer_name_is_not_validated indexer_process sample_service
           (PyStr "pipeline-blob-index") (PyStr "pipeline-blob-datasource")
           PyNone);
    try reflexivity.
  unfold indexer_settings. repeat split; try reflexivity; eexists; reflexivity.
Defined.

(** With an [index_name] that is empty or neither [str] nor [int], the
    constructor of the indexer pipeline still returns, with
    [index_name] and [indexer_name] both unassigned and both errors
    logged.  The failure comes out in [create_index], whose handler
    reads [self.index_name] again: [trigger_pipeline] raises
    AttributeError there, the same way whatever the search service
    would have answered. *)
Theorem invalid_index_name_fails_at_create_index (p : process) (i x : pyval)
    (sd url key cont datasource_url query_text : string) (w : world) :
  indexer_settings p url key cont datasource_url ->
  logs_dir_exists p = true ->
  isinstance_str_int i && ne_empty_str i = false ->
  exists self w1 w',
    AzureBlobAISearchPipeline.index_name self = None /\
    AzureBlobAISearchPipeline.indexer_name self = None /\
    In (ERROR, "Index name must be an str or int") (log w1) /\
    In (ERROR, "Indexer name must be an str or int") (log w1) /\
    forall svc,
      AzureBlobAISearchPipeline.endpoint_ok svc url = true ->
      AzureBlobAISearchPipeline.__init__ p svc i (PyStr sd) x
        (add_log (INFO, "Pipeline Triggered") w) = (Return self, w1) /\
      AzureBlobAISearchPipeline.create_index svc self w1 =
      (Raise (AttributeError "index_name"), w') /\
      AzureBlobAISearchPipeline.trigger_pipeline p svc i (PyStr sd) x
        query_text w =
      (Raise (AttributeError "index_name"), w').
Proof.
  intros Hset Hlogs Hi.
  set (w0 := add_log (INFO, "Pipeline Triggered") w).
  set (wa := add_log (ERROR, "Index name must be an str or int") w0).
  destruct (isinstance_str_int (PyStr sd) && ne_empty_str (PyStr sd)) eqn:Hd.
  - (* the data source name is accepted *)
    set (wc := add_log (ERROR, "Indexer name must be an str or int") wa).
    set (w1 := add_log (INFO, "Intialization done successfully") wc).
    exists (AzureBlobAISearchPipeline.mkInstance url key cont datasource_url
              None (Some sd) None),
      w1, (add_log (INFO, "Trying to create an index...") w1).
    split; [reflexivity |]. split; [reflexivity |].
    split; [simpl; do 2 (apply in_or_app; left); apply in_or_app; right;
            left; reflexivity |].
    split; [simpl; apply in_or_app; left; apply in_or_app; right; left;
            reflexivity |].
    intros svc Hok.
    assert (Hinit :
      AzureBlobAISearchPipeline.__init__ p svc i (PyStr sd) x w0 =
      (Return (AzureBlobAISearchPipeline.mkInstance url key cont
                 datasource_url None (Some sd) None), w1)).
    { rewrite (indexer_init_reads_settings _ _ _ _ _ _ _ _ _ _ Hset).
      rewrite (bind_Return _ _ _ _ _ (checked_name_invalid i i _ w0 Hi)).
      rewrite (bind_Return _ _ _ _ _
                 (checked_name_valid (PyStr sd) (PyStr sd) _ sd wa Hd eq_refl)).
      rewrite (bind_Return _ _ _ _ _ (checked_name_invalid i x _ wa Hi)).
      unfold bind, AzureBlobAISearchPipeline.new_client. rewrite Hok.
      reflexivity. }
    split; [exact Hinit |]. split; [reflexivity |].
    unfold AzureBlobAISearchPipeline.trigger_pipeline.
    rewrite (bind_Return _ _ w tt w)
      by (apply logging_basicConfig_to_ok; exact Hlogs).
    rewrite (bind_Return _ _ w tt w0) by reflexivity.
    rewrite (bind_Return _ _ _ _ _ Hinit). reflexivity.
  - (* the data source name is refused too *)
    set (wb := add_log (ERROR, "Data source name must be an str or int") wa).
    set (wc := add_log (ERROR, "Indexer name must be an str or int") wb).
    set (w1 := add_log (INFO, "Intialization done successfully") wc).
    exists (AzureBlobAISearchPipeline.mkInstance url key cont datasource_url
              None None None),
      w1, (add_log (INFO, "Trying to create an index...") w1).
    split; [reflexivity |]. split; [reflexivity |].
    split; [simpl; do 3 (apply in_or_app; left); apply in_or_app; right;
            left; reflexivity |].
    split; [simpl; apply in_or_app; left; apply in_or_app; right; left;
            reflexivity |].
    intros svc Hok.
    assert (Hinit :
      AzureBlobAISearchPipeline.__init__ p svc i (PyStr sd) x w0 =
      (Return (AzureBlobAISearchPipeline.mkInstance url key cont
                 datasource_url None None None), w1)).
    { rewrite (indexer_init_reads_settings _ _ _ _ _ _ _ _ _ _ Hset).
      rewrite (bind_Return _ _ _ _ _ (checked_name_invalid i i _ w0 Hi)).
      rewrite (bind_Return _ _ _ _ _
                 (checked_name_invalid (PyStr sd) (PyStr sd) _ wa Hd)).
      rewrite (bind_Return _ _ _ _ _ (checked_name_invalid i x _ wb Hi)).
      unfold bind, AzureBlobAISearchPipeline.new_client. rewrite Hok.
      reflexivity. }
    split; [exact Hinit |]. split; [reflexivity |].
    unfold AzureBlobAISearchPipeline.trigger_pipeline.
    rewrite (bind_Return _ _ w tt w)
      by (apply logging_basicConfig_to_ok; exact Hlogs).
    rewrite (bind_Return _ _ w tt w0) by reflexivity.
    rewrite (bind_Return _ _ _ _ _ Hinit). reflexivity.
Qed.

Lemma invalid_index_name_fails_at_create_index_witness :
  fst (AzureBlobAISearchPipeline.trigger_pipeline indexer_process
         sample_service (PyStr "") (PyStr "pipeline-blob-datasource")
         (PyStr "pipeline-blob-indexer") "svd" (sample_world Absent [])) =
  Raise (AttributeError "index_name").
Proof.
  destruct (invalid_index_name_fails_at_create_index indexer_process
              (PyStr "") (PyStr "pipeline-blob-indexer")
              "pipeline-blob-datasource"
              "https://search.search.windows.net" "key" "documents"
              "ResourceId=/subscriptions/x;" "svd" (sample_world Absent []))
    as (self & w1 & w' & _ & _ & _ & _ & Hall).
  - unfold indexer_settings. repeat split; try reflexivity; eexists; reflexivity.
  - reflexivity.
  - reflexivity.
  - destruct (Hall sample_service eq_refl) as (_ & _ & Ht).
    rewrite Ht. reflexivity.
Defined.

(** With an index name and a data source name that are non-empty
    strings (and any string as indexer name), the settings read and
    the endpoint accepted, [trigger_pipeline] of the indexer pipeline
    never raises, whatever the search service answers: every failed
    request is logged and the next step is still taken (index, data
    source, indexer, run), and the result is the search results, or
    [None] when the search raised. *)
Theorem indexer_pipeline_is_best_effort (p : process)
    (svc : AzureBlobAISearchPipeline.search_service)
    (si sd sx url key cont datasource_url query_text : string) (w : world) :
  indexer_settings p url key cont datasource_url ->
  logs_dir_exists p = true ->
  AzureBlobAISearchPipeline.endpoint_ok svc url = true ->
  si <> "" -> sd <> "" ->
  exists w',
    AzureBlobAISearchPipeline.trigger_pipeline p svc (PyStr si) (PyStr sd)
      (PyStr sx) query_text w =
    (Return match AzureBlobAISearchPipeline.answer_search svc si query_text with
            | inr results => Some results
            | inl _ => None
            end, w') /\
    In (INFO, "Trying to create an index...") (log w') /\
    In (INFO, "Trying to create an datasource...") (log w') /\
    In (INFO, "Trying to create an indexer...") (log w') /\
    (forall e,
       AzureBlobAISearchPipeline.answer_create_index svc si = inl e ->
       In (WARNING,
           "The index by name " ++ si
           ++ " might be present. Stopping the creation of index with error "
           ++ exn_name e ++ ".") (log w')) /\
    (forall e,
       AzureBlobAISearchPipeline.answer_run_indexer svc sx = Some e ->
       In (ERROR, exn_str e) (log w')).
Proof.
  intros Hset Hlogs Hok Hi Hd.
  assert (Hv : forall s, s <> "" ->
            isinstance_str_int (PyStr s) && ne_empty_str (PyStr s) = true).
  { intros s Hs. simpl. apply String.eqb_neq in Hs. rewrite Hs. reflexivity. }
  set (w0 := add_log (INFO, "Pipeline Triggered") w).
  set (self := AzureBlobAISearchPipeline.mkInstance url key cont
                 datasource_url (Some si) (Some sd) (Some sx)).
  assert (Hinit :
    AzureBlobAISearchPipeline.__init__ p svc (PyStr si) (PyStr sd) (PyStr sx) w0
    = (Return self, add_log (INFO, "Intialization done successfully") w0)).
  { rewrite (indexer_init_reads_settings _ _ _ _ _ _ _ _ _ _ Hset).
    rewrite (bind_Return _ _ _ _ _
               (checked_name_valid (PyStr si) (PyStr si) _ si w0 (Hv si Hi)
                  eq_refl)).
    rewrite (bind_Return _ _ _ _ _
               (checked_name_valid (PyStr sd) (PyStr sd) _ sd w0 (Hv sd Hd)
                  eq_refl)).
    rewrite (bind_Return _ _ _ _ _
               (checked_name_valid (PyStr si) (PyStr sx) _ sx w0 (Hv si Hi)
                  eq_refl)).
    unfold bind, AzureBlobAISearchPipeline.new_client. rewrite Hok.
    reflexivity. }
  destruct (create_index_assigned svc self si
              (add_log (INFO, "Intialization done successfully") w0) eq_refl)
    as (w2 & H2 & L2 & T2 & W2 & _).
  destruct (create_datasource_assigned svc self sd w2 eq_refl)
    as (w3 & H3 & L3 & T3).
  destruct (create_indexer_assigned svc self sx sd si w3 eq_refl eq_refl eq_refl)
    as (w4 & H4 & L4 & T4).
  destruct (run_indexer_returns svc self w4) as (w5 & H5 & L5 & R5).
  destruct (run_query_returns svc self query_text w5)
    as (r & w6 & H6 & L6 & R6).
  exists w6.
  split.
  - unfold AzureBlobAISearchPipeline.trigger_pipeline.
    rewrite (bind_Return _ _ w tt w)
      by (apply logging_basicConfig_to_ok; exact Hlogs).
    rewrite (bind_Return _ _ w tt w0) by reflexivity.
    rewrite (bind_Return _ _ _ _ _ Hinit).
    rewrite (bind_Return _ _ _ _ _ H2), (bind_Return _ _ _ _ _ H3),
      (bind_Return _ _ _ _ _ H4), (bind_Return _ _ _ _ _ H5), H6.
    rewrite (R6 si eq_refl Hok). reflexivity.
  - split; [apply L6, L5, L4, L3, T2 |].
    split; [apply L6, L5, L4, T3 |].
    split; [apply L6, L5, T4 |].
    split.
    + intros e He. apply L6, L5, L4, L3, W2, He.
    + intros e He. apply L6. apply (R5 sx e eq_refl He).
Qed.

Lemma indexer_pipeline_is_best_effort_witness :
  exists w',
    AzureBlobAISearchPipeline.trigger_pipeline indexer_process sample_service
      (PyStr "pipeline-blob-index") (PyStr "pipeline-blob-datasource")
      (PyStr "pipeline-blob-indexer") "svd" (sample_world Absent []) =
    (Return (Some [mkDocument "1" "svd" "pipeline-blob-index"]), w') /\
    In (INFO, "Trying to create an indexer...") (log w') /\
    In (WARNING,
        "The index by name pipeline-blob-index might be present. Stopping the creation of index with error HttpResponseError.")
       (log w').
Proof.
  destruct (indexer_pipeline_is_best_effort indexer_process sample_service
              "pipeline-blob-index" "pipeline-blob-datasource"
              "pipeline-blob-indexer" "https://search.search.windows.net"
              "key" "documents" "ResourceId=/subscriptions/x;" "svd"
              (sample_world Absent []))
    as (w' & Hrun & _ & _ & Hixr & Hwarn & _).
  - unfold indexer_settings. repeat split; try reflexivity; eexists; reflexivity.
  - reflexivity.
  - reflexivity.
  - discriminate.
  - discriminate.
  - exists w'. split; [exact Hrun |]. split; [exact Hixr |].
    apply (Hwarn (HttpResponseError "index already exists")). reflexivity.
Defined.

(** ** Creating the index before the run *)

(** On an instance that has its index name and index client (as every
    instance the constructor returned has), [create_index] never
    raises, whatever the search service answers, and changes nothing
    but the log: a refusal is logged as an error naming the
    exception's type, and the ingestion that follows is not held up. *)
Theorem create_index_never_raises (answer : string -> option exn)
    (self : instance) (idx endpoint : string) (w : world) :
  index_name self = Some idx ->
  search_index_client self = Some endpoint ->
  exists w',
    create_index answer self w = (Return tt, w') /\
    pipeline_state w' = pipeline_state w /\
    container w' = container w /\ txt_dir w' = txt_dir w /\
    (forall e, answer idx = Some e ->
       log w' =
       (log w ++
        [(INFO, "Trying to create an index...");
         (ERROR,
          ("The index by name " ++ idx
           ++ " might be present. Stopping the creation of index with error "
           ++ exn_name e ++ ".")%string)])%list) /\
    (answer idx = None ->
       log w' =
       (log w ++
        [(INFO, "Trying to create an index...");
         (INFO, ("Index Created successfully by name " ++ idx ++ ".")%string)])%list).
Proof.
  intros Hi Hc.
  unfold create_index, bind, try_except, get_index_name,
    get_search_index_client, service_create_index, logger_info, logger_error,
    modify, ret, raise.
  rewrite Hi, Hc. destruct (answer idx) as [e |];
    eexists; (split; [reflexivity |]); simpl;
    (split; [reflexivity |]); (split; [reflexivity |]);
    (split; [reflexivity |]).
  - split.
    + intros e' He. inversion He; subst e'. rewrite <- app_assoc. reflexivity.
    + intros He. discriminate He.
  - split.
    + intros e' He. discriminate He.
    + intros _. rewrite <- app_assoc. reflexivity.
Qed.

Lemma create_index_never_raises_witness :
  exists w',
    create_index (fun _ => Some (HttpResponseError "index already exists"))
      (mkInstance (Some "UseDevelopmentStorage=true") (Some "documents")
         (Some "documents") (Some "langchain-pipeline-index")
         (Some ("https://search.search.windows.net", "langchain-pipeline-index"))
         (Some "https://search.search.windows.net"))
      (sample_world (Table []) []) = (Return tt, w') /\
    pipeline_state w' = pipeline_state (sample_world (Table []) []).
Proof.
  destruct (create_index_never_raises
              (fun _ => Some (HttpResponseError "index already exists"))
              (mkInstance (Some "UseDevelopmentStorage=true") (Some "documents")
                 (Some "documents") (Some "langchain-pipeline-index")
                 (Some ("https://search.search.windows.net",
                        "langchain-pipeline-index"))
                 (Some "https://search.search.windows.net"))
              "langchain-pipeline-index" "https://search.search.windows.net"
              (sample_world (Table []) []) eq_refl eq_refl)
    as (w' & H1 & H2 & _).
  exists w'. auto.
Defined.

(** ** A missing setting *)



(** ** From the extractor to the chunker *)

Lemma set_file_twice file text text0 d :
  set_file file text (set_file file text0 d) = set_file file text d.
Proof.
  induction d as [| [n x] rest IH]; simpl.
  - rewrite String.eqb_refl. reflexivity.
  - destruct (String.eqb n file) eqn:E; simpl; rewrite E; [reflexivity |].
    rewrite IH. reflexivity.
Qed.

Lemma open_write_txt_returned file text w w' :
  open_write ("txt", file) text w = (Return tt, w') ->
  names_directory file (txt_dir w) = false /\
  w' = set_txt_dir (set_file file text (txt_dir w)) w.
Proof.
  unfold open_write, bind, os_listdir. simpl.
  destruct (names_directory file (txt_dir w)); intros H; inversion H.
  auto.
Qed.

(** [__pdf_to_text], when it returns, leaves in [temp/txt] the folder
    it found with [temp.txt] holding the text of the first document. *)
Lemma pdf_to_text_written w w' :
  __pdf_to_text w = (Return tt, w') ->
  exists file found text rest,
    lookup_node file (blob_dir w) = Some (File found) /\
    loader_load (ext w) (path_str ("blob", file)) found = Some (text :: rest) /\
    names_directory "temp.txt" (txt_dir w) = false /\
    txt_dir w' = set_file "temp.txt" text (txt_dir w) /\
    ext w' = ext w.
Proof.
  intros H.
  pose proof (same_pdf_to_text ext (fun _ _ => eq_refl) (fun _ _ => eq_refl)
                _ _ _ H) as Hext.
  unfold __pdf_to_text in H.
  apply bind_inv_Return in H as (u1 & w1 & H1 & H).
  inversion H1; subst u1 w1. clear H1.
  apply bind_inv_Return in H as (p & w2 & H2 & H).
  apply get_file_name_blob_inv in H2 as (-> & file & bytes & others & -> & Hr).
  apply bind_inv_Return in H as (p' & w3 & H3 & H).
  apply get_file_name_blob_inv in H3 as (-> & _).
  apply bind_inv_Return in H as (u4 & w4 & H4 & H).
  inversion H4; subst u4 w4. clear H4.
  apply bind_inv_Return in H as (docs & w5 & H5 & H).
  apply loader_run_blob_inv in H5 as (-> & found & Hl & Hd).
  apply bind_inv_Return in H as ([] & w0 & H0 & H).
  apply open_write_txt_returned in H0 as (Hdir & ->).
  destruct docs as [| text rest]; [discriminate |].
  apply bind_inv_Return in H as ([] & w6 & H6 & H).
  apply open_write_txt_returned in H6 as (_ & ->).
  assert (K : keeps (same txt_dir)
                (p'' <- __get_file_name "blob" ;;
                 logger_info ("Extraction Completed for file " ++ path_str p''))).
  { apply keeps_bind; [auto with frames | | intros p''].
    - apply same_get_file_name.
    - apply same_logger_info. reflexivity. }
  apply K in H. unfold same in H.
  exists file, found, text, rest. simpl in *.
  repeat split; auto.
  rewrite H. simpl. apply set_file_twice.
Qed.

(** The text that [__pdf_to_text] extracted is the text that
    [__chunk_text] then splits, its line endings turned into line
    feeds by the reading, provided [temp/txt] held no regular file
    other than [temp.txt] before: the chunker reads the first file
    that the folder lists, not [temp.txt] by name.  In that case
    [__chunk_text] does return, with exactly what the splitter makes of
    that text. *)
Theorem chunker_splits_the_extracted_text (w w1 : world)
    (chunk_size overlap : nat) :
  __pdf_to_text w = (Return tt, w1) ->
  NoDup (map fst (txt_dir w)) ->
  (forall f c, In (f, c) (regular_files (txt_dir w)) -> f = "temp.txt") ->
  exists file found text rest w2,
    lookup_node file (blob_dir w) = Some (File found) /\
    loader_load (ext w) (path_str ("blob", file)) found = Some (text :: rest) /\
    __chunk_text chunk_size overlap w1 =
    (Return (split_text (ext w) [String "010" EmptyString; " "; "."]
               chunk_size overlap (universal_newlines text)), w2) /\
    txt_dir w2 = txt_dir w1.
Proof.
  intros H Hnd Hall.
  apply pdf_to_text_written in H
    as (file & found & text & rest & Hl & Hd & Hdir & Htxt & Hext).
  pose proof (regular_files_after_write _ _ text Hnd Hall Hdir) as Hr.
  rewrite <- Htxt in Hr.
  assert (Hlook : lookup_node "temp.txt" (txt_dir w1) = Some (File text))
    by (rewrite Htxt; apply lookup_set_file).
  exists file, found, text, rest.
  unfold __chunk_text, __get_file_name, open_read, bind, os_listdir,
    logger_info, modify, gets, ret.
  simpl. rewrite Hr. simpl. rewrite Hlook. simpl. rewrite Hr. simpl.
  rewrite Hext. eexists. repeat split; auto.
Qed.

Lemma chunker_splits_the_extracted_text_witness :
  exists file found text rest w2,
    lookup_node file
      [("a.txt", File ("one" ++ String "013" (String "010" "two")))] =
    Some (File found) /\
    loader_load sample_ext (path_str ("blob", file)) found =
    Some (text :: rest) /\
    __chunk_text 2048 256
      (snd (__pdf_to_text
              (mkWorld sample_ext (Table []) []
                 [("a.txt", File ("one" ++ String "013" (String "010" "two")))]
                 [] [] [] [] 0 []))) =
    (Return (split_text sample_ext [String "010" EmptyString; " "; "."]
               2048 256 (universal_newlines text)), w2) /\
    txt_dir w2 =
    txt_dir (snd (__pdf_to_text
                    (mkWorld sample_ext (Table []) []
                       [("a.txt", File ("one" ++ String "013" (String "010" "two")))]
                       [] [] [] [] 0 []))).
Proof.
  apply (chunker_splits_the_extracted_text
           (mkWorld sample_ext (Table []) []
              [("a.txt", File ("one" ++ String "013" (String "010" "two")))]
              [] [] [] [] 0 [])
           (snd (__pdf_to_text
                   (mkWorld sample_ext (Table []) []
                      [("a.txt", File ("one" ++ String "013" (String "010" "two")))]
                      [] [] [] [] 0 [])))
           2048 256).
  - vm_compute. reflexivity.
  - simpl. constructor.
  - simpl. intros f c [].
Defined.
